(** * VTF pixel-format codec: [srctools/_cy_vtf_readwrite.pyx]

    A shallow embedding of the Cython module that converts between the
    canonical RGBA8888 frame buffer and the on-disk VTF pixel encodings,
    together with the mipmap downscaler, the PPM emitter and the format
    registry.

    Conventions of the embedding.
    - A [byte[::1]] memoryview is a [list Z]; every value stored through
      [store] is reduced modulo 256, as an assignment to a C [uint8_t] is.
      The module is compiled with [boundscheck=False]: an access outside
      the buffer is undefined in the source.  Here a read outside returns
      0 and a write outside is dropped; the theorems below are stated for
      buffers of the size the codec walks, where neither happens.
    - [uint] is the 32 bit C [unsigned int]: products of the [uint]
      arguments [width] and [height] wrap modulo 2^32 ([uint]).
      [Py_ssize_t] offsets are plain naturals: they index an existing
      buffer and so stay below its length.
    - [prange] runs its body for offsets 0, 1, ... in turn.  The source
      runs the iterations on several threads with a static schedule; they
      write disjoint bytes and read nothing another iteration writes.
    - In-place mutation is explicit state passing: a loader returns the
      new contents of [pixels], a saver the new contents of [data].
    - An argument declared [uint] is taken after Cython's conversion of
      the Python integer: a natural number below 2^32. *)

From Stdlib Require Import ZArith NArith Lia String Ascii DecimalString DecimalFacts ZifyNat ZifyN.
From stdpp Require Import list strings.

Ltac Zify.zify_post_hook ::= Z.to_euclidean_division_equations.

(** ** Buffers and C integers *)

Abbreviation bytebuf := (list Z).

(** Conversion to [uint8_t]. *)
Definition to_byte (v : Z) : Z := (v mod 256)%Z.

(** Conversion to the C [unsigned int] the sizes are computed in. *)
Definition uint (n : nat) : nat := N.to_nat (N.of_nat n mod 4294967296)%N.

(** [buf[i]] as an rvalue. *)
Definition get (buf : bytebuf) (i : nat) : Z := default 0%Z (buf !! i).

(** [buf[i] = v]. *)
Definition store (buf : bytebuf) (i : nat) (v : Z) : bytebuf := <[i := to_byte v]> buf.

Declare Scope cbuf_scope.
Delimit Scope cbuf_scope with cbuf.
Notation "buf .[ i ]" := (get buf i)
  (at level 1, i at level 200, left associativity, format "buf .[ i ]") : cbuf_scope.
Notation "x & y" := (Z.land x y) (at level 38, left associativity) : cbuf_scope.
Notation "x .| y" := (Z.lor x y) (at level 48, left associativity) : cbuf_scope.
Notation "x << n" := (Z.shiftl x n) (at level 33, left associativity) : cbuf_scope.
Notation "x >> n" := (Z.shiftr x n) (at level 33, left associativity) : cbuf_scope.
Local Open Scope cbuf_scope.

(** [memcpy(&dst[0], &src[0], n)] and [memset(&dst[0], c, n)]. *)
Definition memcpy (dst src : bytebuf) (n : nat) : bytebuf := take n src ++ drop n dst.
Definition memset (dst : bytebuf) (c : Z) (n : nat) : bytebuf :=
  replicate (min n (length dst)) (to_byte c) ++ drop n dst.

(** [for offset in prange(n)]: the body threads the written buffer. *)
Fixpoint prange (n : nat) (body : nat -> bytebuf -> bytebuf) (buf : bytebuf) : bytebuf :=
  match n with
  | O => buf
  | S m => body m (prange m body buf)
  end.

(** [for offset in range(0, stop, step)]. *)
Definition range_step (stop step : nat) (body : nat -> bytebuf -> bytebuf) (buf : bytebuf) : bytebuf :=
  prange ((stop + step - 1) / step) (fun i => body (step * i)) buf.

(** Offsets for the colour channels. *)
Definition R : nat := 0.
Definition G : nat := 1.
Definition B : nat := 2.
Definition A : nat := 3.

Module RGB.
Record t : Type := mk { r : Z; g : Z; b : Z }.
End RGB.

(** ** Bit helpers *)

Definition upsample (bits data : Z) : Z :=
  let bits := to_byte bits in
  let data := to_byte data in
  to_byte (data .| (data >> bits)).

Definition decomp565 (a b : Z) : RGB.t :=
  let a := to_byte a in
  let b := to_byte b in
  {| RGB.r := upsample 5 ((a & 31) << 3);
     RGB.g := upsample 6 (((b & 7) << 5) .| ((a & 224) >> 3));
     RGB.b := upsample 5 (b & 248) |}.

Definition compress565 (r g b : Z) : Z * Z :=
  let r := to_byte r in
  let g := to_byte g in
  let b := to_byte b in
  (to_byte (((g << 3) & 224) .| (b >> 3)),
   to_byte ((r & 248) .| (g >> 5))).

(** ** Per-format codecs *)

Definition load_copy (pixels data : bytebuf) (width height : nat) : bytebuf :=
  memcpy pixels data (uint (4 * width * height)).

Definition save_copy (pixels data : bytebuf) (width height : nat) : bytebuf :=
  memcpy data pixels (uint (4 * width * height)).

Definition load_bgra8888 (pixels data : bytebuf) (width height : nat) : bytebuf :=
  prange (uint (width * height)) (fun offset pixels =>
    let pixels := store pixels (4 * offset + B) data.[4 * offset + 0] in
    let pixels := store pixels (4 * offset + G) data.[4 * offset + 1] in
    let pixels := store pixels (4 * offset + R) data.[4 * offset + 2] in
    let pixels := store pixels (4 * offset + A) data.[4 * offset + 3] in
    pixels) pixels.

Definition save_bgra8888 (pixels data : bytebuf) (width height : nat) : bytebuf :=
  prange (uint (width * height)) (fun offset data =>
    let data := store data (4 * offset + 0) pixels.[4 * offset + B] in
    let data := store data (4 * offset + 1) pixels.[4 * offset + G] in
    let data := store data (4 * offset + 2) pixels.[4 * offset + R] in
    let data := store data (4 * offset + 3) pixels.[4 * offset + A] in
    data) data.

Definition load_argb8888 (pixels data : bytebuf) (width height : nat) : bytebuf :=
  prange (uint (width * height)) (fun offset pixels =>
    let pixels := store pixels (4 * offset + R) data.[4 * offset + 3] in
    let pixels := store pixels (4 * offset + G) data.[4 * offset + 0] in
    let pixels := store pixels (4 * offset + B) data.[4 * offset + 1] in
    let pixels := store pixels (4 * offset + A) data.[4 * offset + 2] in
    pixels) pixels.

Definition save_argb8888 (pixels data : bytebuf) (width height : nat) : bytebuf :=
  prange (uint (width * height)) (fun offset data =>
    let data := store data (4 * offset + 0) pixels.[4 * offset + G] in
    let data := store data (4 * offset + 1) pixels.[4 * offset + B] in
    let data := store data (4 * offset + 2) pixels.[4 * offset + A] in
    let data := store data (4 * offset + 3) pixels.[4 * offset + R] in
    data) data.

Definition load_abgr8888 (pixels data : bytebuf) (width height : nat) : bytebuf :=
  prange (uint (width * height)) (fun offset pixels =>
    let pixels := store pixels (4 * offset + R) data.[4 * offset + 3] in
    let pixels := store pixels (4 * offset + G) data.[4 * offset + 2] in
    let pixels := store pixels (4 * offset + B) data.[4 * offset + 1] in
    let pixels := store pixels (4 * offset + A) data.[4 * offset + 0] in
    pixels) pixels.

Definition save_abgr8888 (pixels data : bytebuf) (width height : nat) : bytebuf :=
  prange (uint (width * height)) (fun offset data =>
    let data := store data (4 * offset + 0) pixels.[4 * offset + A] in
    let data := store data (4 * offset + 1) pixels.[4 * offset + B] in
    let data := store data (4 * offset + 2) pixels.[4 * offset + G] in
    let data := store data (4 * offset + 3) pixels.[4 * offset + R] in
    data) data.

Definition load_rgb888 (pixels data : bytebuf) (width height : nat) : bytebuf :=
  prange (uint (width * height)) (fun offset pixels =>
    let pixels := store pixels (4 * offset + R) data.[3 * offset + 0] in
    let pixels := store pixels (4 * offset + G) data.[3 * offset + 1] in
    let pixels := store pixels (4 * offset + B) data.[3 * offset + 2] in
    let pixels := store pixels (4 * offset + A) 255 in
    pixels) pixels.

Definition save_rgb888 (pixels data : bytebuf) (width height : nat) : bytebuf :=
  prange (uint (width * height)) (fun offset data =>
    let data := store data (3 * offset + 0) pixels.[4 * offset + R] in
    let data := store data (3 * offset + 1) pixels.[4 * offset + G] in
    let data := store data (3 * offset + 2) pixels.[4 * offset + B] in
    data) data.

Definition load_bgr888 (pixels data : bytebuf) (width height : nat) : bytebuf :=
  prange (uint (width * height)) (fun offset pixels =>
    let pixels := store pixels (4 * offset + R) data.[3 * offset + 2] in
    let pixels := store pixels (4 * offset + G) data.[3 * offset + 1] in
    let pixels := store pixels (4 * offset + B) data.[3 * offset + 0] in
    let pixels := store pixels (4 * offset + A) 255 in
    pixels) pixels.

Definition save_bgr888 (pixels data : bytebuf) (width height : nat) : bytebuf :=
  prange (uint (width * height)) (fun offset data =>
    let data := store data (3 * offset + 0) pixels.[4 * offset + B] in
    let data := store data (3 * offset + 1) pixels.[4 * offset + G] in
    let data := store data (3 * offset + 2) pixels.[4 * offset + R] in
    data) data.

Definition load_bgrx8888 (pixels data : bytebuf) (width height : nat) : bytebuf :=
  prange (uint (width * height)) (fun offset pixels =>
    let pixels := store pixels (4 * offset + R) data.[4 * offset + 2] in
    let pixels := store pixels (4 * offset + G) data.[4 * offset + 1] in
    let pixels := store pixels (4 * offset + B) data.[4 * offset + 0] in
    let pixels := store pixels (4 * offset + A) 255 in
    pixels) pixels.

Definition save_bgrx8888 (pixels data : bytebuf) (width height : nat) : bytebuf :=
  prange (uint (width * height)) (fun offset data =>
    let data := store data (4 * offset + 0) pixels.[4 * offset + B] in
    let data := store data (4 * offset + 1) pixels.[4 * offset + G] in
    let data := store data (4 * offset + 2) pixels.[4 * offset + R] in
    let data := store data (4 * offset + 3) 0 in
    data) data.

Definition load_rgb565 (pixels data : bytebuf) (width height : nat) : bytebuf :=
  prange (uint (width * height)) (fun offset pixels =>
    let col := decomp565 data.[2 * offset] data.[2 * offset + 1] in
    let pixels := store pixels (4 * offset + R) (RGB.r col) in
    let pixels := store pixels (4 * offset + G) (RGB.g col) in
    let pixels := store pixels (4 * offset + B) (RGB.b col) in
    let pixels := store pixels (4 * offset + A) 255 in
    pixels) pixels.

Definition save_rgb565 (pixels data : bytebuf) (width height : nat) : bytebuf :=
  prange (uint (width * height)) (fun offset data =>
    let packed := compress565 pixels.[4 * offset + R]
                              pixels.[4 * offset + G]
                              pixels.[4 * offset + B] in
    let data := store data (2 * offset) (fst packed) in
    let data := store data (2 * offset + 1) (snd packed) in
    data) data.

Definition load_bgr565 (pixels data : bytebuf) (width height : nat) : bytebuf :=
  prange (uint (width * height)) (fun offset pixels =>
    let col := decomp565 data.[2 * offset] data.[2 * offset + 1] in
    let pixels := store pixels (4 * offset + R) (RGB.b col) in
    let pixels := store pixels (4 * offset + G) (RGB.g col) in
    let pixels := store pixels (4 * offset + B) (RGB.r col) in
    let pixels := store pixels (4 * offset + A) 255 in
    pixels) pixels.

Definition save_bgr565 (pixels data : bytebuf) (width height : nat) : bytebuf :=
  prange (uint (width * height)) (fun offset data =>
    let packed := compress565 pixels.[4 * offset + B]
                              pixels.[4 * offset + G]
                              pixels.[4 * offset + R] in
    let data := store data (2 * offset) (fst packed) in
    let data := store data (2 * offset + 1) (snd packed) in
    data) data.

Definition load_bgra4444 (pixels data : bytebuf) (width height : nat) : bytebuf :=
  prange (uint (width * height)) (fun offset pixels =>
    let a := to_byte data.[2 * offset] in
    let b := to_byte data.[2 * offset + 1] in
    let pixels := store pixels (4 * offset + G) ((a & 240) .| ((a & 240) >> 4)) in
    let pixels := store pixels (4 * offset + B) ((a & 15) .| ((a & 15) << 4)) in
    let pixels := store pixels (4 * offset + R) ((b & 15) .| ((b & 15) << 4)) in
    let pixels := store pixels (4 * offset + A) ((b & 240) .| ((b & 240) >> 4)) in
    pixels) pixels.

Definition save_bgra4444 (pixels data : bytebuf) (width height : nat) : bytebuf :=
  prange (uint (width * height)) (fun offset data =>
    let data := store data (2 * offset + 0)
                  ((pixels.[4 * offset + G] & 240) .| (pixels.[4 * offset + B] >> 4)) in
    let data := store data (2 * offset + 1)
                  ((pixels.[4 * offset + A] & 240) .| (pixels.[4 * offset + R] >> 4)) in
    data) data.

Definition load_bgra5551 (pixels data : bytebuf) (width height : nat) : bytebuf :=
  prange (uint (width * height)) (fun offset pixels =>
    let a := to_byte data.[2 * offset] in
    let b := to_byte data.[2 * offset + 1] in
    let pixels := store pixels (4 * offset + R) (upsample 5 ((b & 124) << 1)) in
    let pixels := store pixels (4 * offset + G)
                    (upsample 5 (((a & 224) >> 2) .| ((b & 3) << 6))) in
    let pixels := store pixels (4 * offset + B) (upsample 5 ((a & 31) << 3)) in
    let pixels := store pixels (4 * offset + A)
                    (if (b & 128 =? 0)%Z then 0 else 255) in
    pixels) pixels.

Definition save_bgra5551 (pixels data : bytebuf) (width height : nat) : bytebuf :=
  prange (uint (width * height)) (fun offset data =>
    let r := to_byte pixels.[4 * offset + R] in
    let g := to_byte pixels.[4 * offset + G] in
    let b := to_byte pixels.[4 * offset + B] in
    let a := to_byte pixels.[4 * offset + A] in
    let data := store data (2 * offset + 0) ((b & 248) .| (g >> 5)) in
    let data := store data (2 * offset + 1)
                  (((g << 6) & 192) .| ((r >> 2) & 62) .| (a >> 7)) in
    data) data.

Definition load_bgrx5551 (pixels data : bytebuf) (width height : nat) : bytebuf :=
  prange (uint (width * height)) (fun offset pixels =>
    let a := to_byte data.[2 * offset] in
    let b := to_byte data.[2 * offset + 1] in
    let pixels := store pixels (4 * offset + R) (upsample 5 ((b & 124) << 1)) in
    let pixels := store pixels (4 * offset + G)
                    (upsample 5 (((a & 224) >> 2) .| ((b & 3) << 6))) in
    let pixels := store pixels (4 * offset + B) (upsample 5 ((a & 31) << 3)) in
    let pixels := store pixels (4 * offset + A) 255 in
    pixels) pixels.

Definition save_bgrx5551 (pixels data : bytebuf) (width height : nat) : bytebuf :=
  prange (uint (width * height)) (fun offset data =>
    let r := to_byte pixels.[4 * offset + R] in
    let g := to_byte pixels.[4 * offset + G] in
    let b := to_byte pixels.[4 * offset + B] in
    let data := store data (2 * offset + 0) ((b & 248) .| (g >> 5)) in
    let data := store data (2 * offset + 1) (((g << 6) & 192) .| ((r >> 2) & 62)) in
    data) data.

Definition load_i8 (pixels data : bytebuf) (width height : nat) : bytebuf :=
  prange (uint (width * height)) (fun offset pixels =>
    let color := to_byte data.[offset] in
    let pixels := store pixels (4 * offset + R) color in
    let pixels := store pixels (4 * offset + G) color in
    let pixels := store pixels (4 * offset + B) color in
    let pixels := store pixels (4 * offset + A) 255 in
    pixels) pixels.

Definition save_i8 (pixels data : bytebuf) (width height : nat) : bytebuf :=
  prange (uint (width * height)) (fun offset data =>
    let r := to_byte pixels.[4 * offset + R] in
    let g := to_byte pixels.[4 * offset + G] in
    let b := to_byte pixels.[4 * offset + B] in
    let data := store data offset ((r + g + b) / 3) in
    data) data.

Definition load_ia88 (pixels data : bytebuf) (width height : nat) : bytebuf :=
  prange (uint (width * height)) (fun offset pixels =>
    let color := to_byte data.[2 * offset] in
    let pixels := store pixels (4 * offset + R) color in
    let pixels := store pixels (4 * offset + G) color in
    let pixels := store pixels (4 * offset + B) color in
    let pixels := store pixels (4 * offset + 3) data.[2 * offset + 1] in
    pixels) pixels.

Definition save_ia88 (pixels data : bytebuf) (width height : nat) : bytebuf :=
  prange (uint (width * height)) (fun offset data =>
    let r := to_byte pixels.[4 * offset + R] in
    let g := to_byte pixels.[4 * offset + G] in
    let b := to_byte pixels.[4 * offset + B] in
    let data := store data (2 * offset + 0) ((r + g + b) / 3) in
    let data := store data (2 * offset + 1) pixels.[4 * offset + A] in
    data) data.

Definition load_a8 (pixels data : bytebuf) (width height : nat) : bytebuf :=
  let pixels := memset pixels 0 (uint (width * height)) in
  prange (uint (width * height)) (fun offset pixels =>
    let pixels := store pixels (4 * offset + A) data.[offset] in
    pixels) pixels.

Definition save_a8 (pixels data : bytebuf) (width height : nat) : bytebuf :=
  prange (uint (width * height)) (fun offset data =>
    let data := store data offset pixels.[4 * offset + A] in
    data) data.

Definition load_uv88 (pixels data : bytebuf) (width height : nat) : bytebuf :=
  prange (uint (width * height)) (fun offset pixels =>
    let pixels := store pixels (4 * offset + R) data.[2 * offset] in
    let pixels := store pixels (4 * offset + G) data.[2 * offset + 1] in
    let pixels := store pixels (4 * offset + B) 0 in
    let pixels := store pixels (4 * offset + A) 255 in
    pixels) pixels.

Definition save_uv88 (pixels data : bytebuf) (width height : nat) : bytebuf :=
  prange (uint (width * height)) (fun offset data =>
    let data := store data (2 * offset + 0) pixels.[4 * offset + R] in
    let data := store data (2 * offset + 1) pixels.[4 * offset + G] in
    data) data.

Definition load_rgb888_bluescreen (pixels data : bytebuf) (width height : nat) : bytebuf :=
  prange (uint (width * height)) (fun offset pixels =>
    let r := to_byte data.[3 * offset] in
    let g := to_byte data.[3 * offset + 1] in
    let b := to_byte data.[3 * offset + 2] in
    if ((r =? g)%Z && (g =? 0)%Z) && (b =? 255)%Z then
      let pixels := store pixels (4 * offset) 0 in
      let pixels := store pixels (4 * offset + 1) 0 in
      let pixels := store pixels (4 * offset + 2) 0 in
      let pixels := store pixels (4 * offset + 3) 0 in
      pixels
    else
      let pixels := store pixels (4 * offset + R) r in
      let pixels := store pixels (4 * offset + G) g in
      let pixels := store pixels (4 * offset + B) b in
      let pixels := store pixels (4 * offset + A) 255 in
      pixels) pixels.

Definition save_rgb888_bluescreen (pixels data : bytebuf) (width height : nat) : bytebuf :=
  prange (uint (width * height)) (fun offset data =>
    if (pixels.[4 * offset + A] <? 128)%Z then
      let data := store data (3 * offset + 0) 0 in
      let data := store data (3 * offset + 1) 0 in
      let data := store data (3 * offset + 2) 255 in
      data
    else
      let data := store data (3 * offset + 0) pixels.[4 * offset + R] in
      let data := store data (3 * offset + 1) pixels.[4 * offset + G] in
      let data := store data (3 * offset + 2) pixels.[4 * offset + B] in
      data) data.

Definition load_bgr888_bluescreen (pixels data : bytebuf) (width height : nat) : bytebuf :=
  prange (uint (width * height)) (fun offset pixels =>
    let r := to_byte data.[3 * offset + 2] in
    let g := to_byte data.[3 * offset + 1] in
    let b := to_byte data.[3 * offset] in
    if ((r =? g)%Z && (g =? 0)%Z) && (b =? 255)%Z then
      let pixels := store pixels (4 * offset) 0 in
      let pixels := store pixels (4 * offset + 1) 0 in
      let pixels := store pixels (4 * offset + 2) 0 in
      let pixels := store pixels (4 * offset + 3) 0 in
      pixels
    else
      let pixels := store pixels (4 * offset + R) r in
      let pixels := store pixels (4 * offset + G) g in
      let pixels := store pixels (4 * offset + B) b in
      let pixels := store pixels (4 * offset + A) 255 in
      pixels) pixels.

Definition save_bgr888_bluescreen (pixels data : bytebuf) (width height : nat) : bytebuf :=
  prange (uint (width * height)) (fun offset data =>
    if (pixels.[4 * offset + A] <? 128)%Z then
      let data := store data (3 * offset + 0) 255 in
      let data := store data (3 * offset + 1) 0 in
      let data := store data (3 * offset + 2) 0 in
      data
    else
      let data := store data (3 * offset + 0) pixels.[4 * offset + B] in
      let data := store data (3 * offset + 1) pixels.[4 * offset + G] in
      let data := store data (3 * offset + 2) pixels.[4 * offset + R] in
      data) data.

(** ** Block-compressed formats

    The block codec is the external library declared in the
    [cdef extern from "squish.h"] block: its two entry points and the
    values of its flag enumeration are the interface the module is
    compiled against.  [DecompressImage] returns the new contents of
    [rgba], [CompressImage] the new contents of [blocks]. *)

Class Squish : Type := {
  kDxt1 : Z;
  kDxt3 : Z;
  kDxt5 : Z;
  kBc5 : Z;
  kForceOpaque : Z;
  CompressImage : forall (rgba : bytebuf) (width height : nat) (blocks : bytebuf) (flags : Z), bytebuf;
  DecompressImage : forall (rgba : bytebuf) (width height : nat) (blocks : bytebuf) (flags : Z), bytebuf
}.

Definition load_dxt1 `{Squish} (pixels data : bytebuf) (width height : nat) : bytebuf :=
  if (width <? 4) || (height <? 4) then
    prange (uint (width * height)) (fun offset pixels =>
      let pixels := store pixels (4 * offset) 0 in
      let pixels := store pixels (4 * offset + 1) 0 in
      let pixels := store pixels (4 * offset + 2) 0 in
      let pixels := store pixels (4 * offset + 2) 255 in
      pixels) pixels
  else DecompressImage pixels width height data (kDxt1 .| kForceOpaque).

Definition save_dxt1 `{Squish} (pixels data : bytebuf) (width height : nat) : bytebuf :=
  if (4 <=? width) && (4 <=? height) then
    CompressImage pixels width height data (kDxt1 .| kForceOpaque)
  else data.

Definition load_dxt1_alpha `{Squish} (pixels data : bytebuf) (width height : nat) : bytebuf :=
  if (width <? 4) || (height <? 4) then
    prange (uint (width * height)) (fun offset pixels =>
      let pixels := store pixels (4 * offset) 0 in
      let pixels := store pixels (4 * offset + 1) 0 in
      let pixels := store pixels (4 * offset + 2) 0 in
      let pixels := store pixels (4 * offset + 2) 255 in
      pixels) pixels
  else DecompressImage pixels width height data kDxt1.

Definition save_dxt1_alpha `{Squish} (pixels data : bytebuf) (width height : nat) : bytebuf :=
  if (4 <=? width) && (4 <=? height) then
    CompressImage pixels width height data kDxt1
  else data.

Definition load_dxt3 `{Squish} (pixels data : bytebuf) (width height : nat) : bytebuf :=
  if (width <? 4) || (height <? 4) then
    range_step (uint (4 * width * height)) 4 (fun offset pixels =>
      let pixels := store pixels offset 0 in
      let pixels := store pixels (offset + 1) 0 in
      let pixels := store pixels (offset + 2) 0 in
      let pixels := store pixels (offset + 2) 255 in
      pixels) pixels
  else DecompressImage pixels width height data kDxt3.

Definition save_dxt3 `{Squish} (pixels data : bytebuf) (width height : nat) : bytebuf :=
  if (4 <=? width) && (4 <=? height) then
    CompressImage pixels width height data kDxt3
  else data.

Definition load_dxt5 `{Squish} (pixels data : bytebuf) (width height : nat) : bytebuf :=
  if (width <? 4) || (height <? 4) then
    prange (uint (width * height)) (fun offset pixels =>
      let pixels := store pixels (4 * offset) 0 in
      let pixels := store pixels (4 * offset + 1) 0 in
      let pixels := store pixels (4 * offset + 2) 0 in
      let pixels := store pixels (4 * offset + 2) 255 in
      pixels) pixels
  else DecompressImage pixels width height data kDxt5.

Definition save_dxt5 `{Squish} (pixels data : bytebuf) (width height : nat) : bytebuf :=
  if (4 <=? width) && (4 <=? height) then
    CompressImage pixels width height data kDxt5
  else data.

Definition load_ati2n `{Squish} (pixels data : bytebuf) (width height : nat) : bytebuf :=
  if (width <? 4) || (height <? 4) then
    prange (uint (width * height)) (fun offset pixels =>
      let pixels := store pixels (4 * offset) 0 in
      let pixels := store pixels (4 * offset + 1) 0 in
      let pixels := store pixels (4 * offset + 2) 0 in
      let pixels := store pixels (4 * offset + 2) 255 in
      pixels) pixels
  else DecompressImage pixels width height data kBc5.

Definition save_ati2n `{Squish} (pixels data : bytebuf) (width height : nat) : bytebuf :=
  if (4 <=? width) && (4 <=? height) then
    CompressImage pixels width height data kBc5
  else data.

(** ** The format registry *)

(** A codec function pointer; both directions share the C signature. *)
Definition codec : Type := bytebuf -> bytebuf -> nat -> nat -> bytebuf.

Module Format.
(** The [Format] struct; a [NULL] function pointer is [None]. *)
Record t : Type := mk { name : string; load : option codec; save : option codec }.
End Format.

Definition Format (name : string) (load save : option codec) : Format.t :=
  Format.mk name load save.

Definition NULL : option codec := None.

Definition FORMATS `{Squish} : list Format.t := [
  Format "RGBA8888" (Some load_copy) (Some save_copy);
  Format "ABGR8888" (Some load_abgr8888) (Some save_abgr8888);
  Format "RGB888" (Some load_rgb888) (Some save_rgb888);
  Format "BGR888" (Some load_bgr888) (Some save_bgr888);
  Format "RGB565" (Some load_rgb565) (Some save_rgb565);
  Format "I8" (Some load_i8) (Some save_i8);
  Format "IA88" (Some load_ia88) (Some save_ia88);
  Format "P8" NULL NULL;
  Format "A8" (Some load_a8) (Some save_a8);
  Format "RGB888_BLUESCREEN" (Some load_rgb888_bluescreen) (Some save_rgb888_bluescreen);
  Format "BGR888_BLUESCREEN" (Some load_bgr888_bluescreen) (Some save_bgr888_bluescreen);
  Format "ARGB8888" (Some load_argb8888) (Some save_argb8888);
  Format "BGRA8888" (Some load_bgra8888) (Some save_bgra8888);
  Format "DXT1" (Some load_dxt1) (Some save_dxt1);
  Format "DXT3" (Some load_dxt3) (Some save_dxt3);
  Format "DXT5" (Some load_dxt5) (Some save_dxt5);
  Format "BGRX8888" (Some load_bgrx8888) (Some save_bgrx8888);
  Format "BGR565" (Some load_bgr565) (Some save_bgr565);
  Format "BGRX5551" (Some load_bgrx5551) (Some save_bgrx5551);
  Format "BGRA4444" (Some load_bgra4444) (Some save_bgra4444);
  Format "DXT1_ONEBITALPHA" (Some load_dxt1_alpha) (Some save_dxt1_alpha);
  Format "BGRA5551" (Some load_bgra5551) (Some save_bgra5551);
  Format "UV88" (Some load_uv88) (Some save_uv88);
  Format "UVWQ8888" (Some load_copy) (Some save_copy);
  Format "RGBA16161616F" NULL NULL;
  Format "RGBA16161616" NULL NULL;
  Format "UVLX8888" (Some load_copy) (Some save_copy);
  Format "NONE" NULL NULL;
  Format "ATI1N" NULL NULL;
  Format "ATI2N" (Some load_ati2n) (Some save_ati2n)
].

(** ** Python-level entry points *)

(** The exceptions the module raises.  [AssertionError] and [ValueError]
    carry an f-string built from [str(fmt)] or [str(filt)], which depends
    on the caller's enum class; it is left out. *)
Inductive exn : Type :=
  | NotImplementedError (msg : string)
  | AssertionError
  | ValueError
  | OverflowError
  | UnicodeEncodeError.

Inductive result (T : Type) : Type :=
  | Ok (v : T)
  | Raise (e : exn).
Arguments Ok {T} v.
Arguments Raise {T} e.

#[global] Instance result_bind : MBind result := fun T U k m =>
  match m with
  | Ok v => k v
  | Raise e => Raise e
  end.

(** The [assert] statement, with assertions enabled. *)
Definition assert (cond : bool) : result unit :=
  if cond then Ok tt else Raise AssertionError.

(** Coercion of a Python integer to a C [int]. *)
Definition as_int (v : Z) : result Z :=
  if ((-2147483648 <=? v) && (v <=? 2147483647))%Z then Ok v else Raise OverflowError.

Module ImageFormats.
(** What the module reads of a member of the caller's format enum. *)
Record t : Type := mk { ind : Z; name : string }.
End ImageFormats.

Module FilterMode.
(** What the module reads of a member of the caller's filter enum. *)
Record t : Type := mk { value : Z }.
End FilterMode.

(** The bytes of a text whose code points are all below 256. *)
Definition bytes_of_string (s : string) : list Z :=
  (fun c => Z.of_nat (nat_of_ascii c)) <$> list_ascii_of_string s.

(** [s.encode('ascii')]. *)
Definition encode_ascii (s : string) : result (list Z) :=
  let raw := bytes_of_string s in
  if forallb (fun c => c <? 128)%Z raw then Ok raw else Raise UnicodeEncodeError.

(** The memory a [char *] points at: the bytes, then the terminator. *)
Definition c_str (raw : list Z) : list Z := raw ++ [0%Z].

(** [strcmp] on two NUL-terminated byte sequences. *)
Fixpoint strcmp (s1 s2 : list Z) : Z :=
  match s1, s2 with
  | c1 :: t1, c2 :: t2 =>
      if (c1 =? c2)%Z then (if (c1 =? 0)%Z then 0%Z else strcmp t1 t2)
      else (c1 - c2)%Z
  | _, _ => 0%Z
  end.

(** [sizeof(FORMATS) // sizeof(Format)]. *)
Definition FORMATS_size : Z := 30.

(** [FORMATS[index]], read only under the guard [0 <= index < 30]. *)
Definition FORMATS_at `{Squish} (index : Z) : Format.t :=
  default (Format "" NULL NULL) (FORMATS !! Z.to_nat index).

Fixpoint init `{Squish} (formats : list ImageFormats.t) : result unit :=
  match formats with
  | [] => Ok tt
  | fmt :: formats =>
      index ← as_int (ImageFormats.ind fmt);
      assert ((0 <=? index) && (index <? FORMATS_size))%Z;;
      encoded ← encode_ascii (ImageFormats.name fmt);
      assert (strcmp (c_str encoded)
                     (c_str (bytes_of_string (Format.name (FORMATS_at index))))
                   =? 0)%Z;;
      init formats
  end.

Definition load `{Squish} (fmt : ImageFormats.t) (pixels data : bytebuf)
    (width height : nat) : result bytebuf :=
  index ← as_int (ImageFormats.ind fmt);
  match (if ((0 <=? index) && (index <? FORMATS_size))%Z
         then Format.load (FORMATS_at index) else NULL) with
  | Some load_fn => Ok (load_fn pixels data width height)
  | None => Raise (NotImplementedError
                     ("Loading " ++ ImageFormats.name fmt ++ " not implemented!"))
  end.

Definition save `{Squish} (fmt : ImageFormats.t) (pixels data : bytebuf)
    (width height : nat) : result bytebuf :=
  index ← as_int (ImageFormats.ind fmt);
  match (if ((0 <=? index) && (index <? FORMATS_size))%Z
         then Format.save (FORMATS_at index) else NULL) with
  | Some save_fn => Ok (save_fn pixels data width height)
  | None => Raise (NotImplementedError
                     ("Saving " ++ ImageFormats.name fmt ++ " not implemented!"))
  end.

(** ** Mipmap downscaling *)

(** [for x in range(n)]: a sequential loop, the same walk as [prange]. *)
Definition range (n : nat) (body : nat -> bytebuf -> bytebuf) (buf : bytebuf) : bytebuf :=
  prange n body buf.

Definition scale_down (filt : FilterMode.t) (src_width src_height width height : nat)
    (src dest : bytebuf) : result bytebuf :=
  filter_val ← as_int (FilterMode.value filt);
  let '(horiz_off, per_column) :=
    if negb (width =? src_width) then (4, 2) else (0, 1) in
  let '(vert_off, per_row) :=
    if negb (height =? src_height)
    then (4 * per_column * width, 2 * per_column * width)
    else (0, per_column * width) in
  if (filter_val =? 4)%Z then
    Ok (prange height (fun y dest =>
          range width (fun x dest =>
            let off := 4 * (width * y + x) in
            let off2 := 4 * (per_row * y + per_column * x) in
            range 4 (fun channel dest =>
              store dest (off + channel)
                ((src.[off2 + channel] +
                  src.[off2 + channel + horiz_off] +
                  src.[off2 + channel + vert_off] +
                  src.[off2 + channel + vert_off + horiz_off]) / 4)) dest) dest) dest)
  else
    pos_off ← (if (filter_val =? 0)%Z then Ok 0
                else if (filter_val =? 1)%Z then Ok horiz_off
                else if (filter_val =? 2)%Z then Ok vert_off
                else if (filter_val =? 3)%Z then Ok (vert_off + horiz_off)
                else Raise ValueError);
    Ok (prange height (fun y dest =>
          range width (fun x dest =>
            let off := 4 * (width * y + x) in
            let off2 := 4 * (per_row * y + per_column * x) in
            range 4 (fun channel dest =>
              store dest (off + channel) src.[off2 + pos_off + channel]) dest) dest) dest).

(** ** PPM emission *)

(** The C [float] arithmetic of the compositing branch:
    [<byte>(c * a + inv_a * bg)] with [a = alpha / 255.0] and
    [inv_a = 1.0 - a]. *)
Class CFloat : Type := {
  composite : forall (c alpha bg : Z), Z
}.

(** The conversion [%u] of [printf]. *)
Definition fmt_u (n : nat) : string := NilZero.string_of_uint (Nat.to_uint n).

(** The text [sprintf] produces for the format [b'P6 %u %u 255\n']. *)
Definition PPM_HEADER (width height : nat) : string :=
  ("P6 " ++ fmt_u width ++ " " ++ fmt_u height ++ " 255" ++ String "010" EmptyString)%string.

(** A call into the C library returns a value or, made against its
    contract, has undefined behaviour. *)
Inductive c_call (T : Type) : Type :=
  | Returns (v : T)
  | Undefined.
Arguments Returns {T} v.
Arguments Undefined {T}.

(** [sprintf(NULL, fmt, ...)]: [sprintf] writes the text at its first
    argument, here the null pointer.  C leaves that undefined, and the
    write faults where address 0 is not mapped.  (The call that measures
    a text without writing it is [snprintf(NULL, 0, fmt, ...)].) *)
Definition sprintf_NULL (text : string) : c_call nat := Undefined.

(** [sprintf(buf, fmt, ...)]: the text, then the terminating NUL. *)
Definition sprintf (buf : bytebuf) (text : string) : bytebuf :=
  list_inserts 0 (c_str (bytes_of_string text)) buf.

(** [PyBytes_FromStringAndSize(NULL, n)]: [n] bytes that are not
    initialised; [uninit] is whatever the allocation holds. *)
Definition PyBytes_FromStringAndSize_NULL (n : nat) (uninit : nat -> Z) : bytebuf :=
  (fun i => to_byte (uninit i)) <$> seq 0 n.

(** [ppm_convert] from the allocation of [result] on, for the value
    [header_size] holds there. *)
Definition ppm_convert_from `{CFloat} (header_size : nat) (pixels : bytebuf)
    (width height : nat) (bg : option (Z * Z * Z)) (uninit : nat -> Z) : bytebuf :=
  let size := uint (3 * width * height) in
  let result := PyBytes_FromStringAndSize_NULL (size + header_size) uninit in
  let buffer := sprintf result (PPM_HEADER width height) in
  match bg with
  | Some (r, g, b) =>
      prange (uint (width * height)) (fun off buffer =>
        let a := pixels.[4 * off + 3] in
        let buffer := store buffer (header_size + 3 * off + R) (composite pixels.[4 * off] a r) in
        let buffer := store buffer (header_size + 3 * off + G) (composite pixels.[4 * off + 1] a g) in
        let buffer := store buffer (header_size + 3 * off + B) (composite pixels.[4 * off + 2] a b) in
        buffer) buffer
  | None =>
      prange (uint (width * height)) (fun off buffer =>
        let buffer := store buffer (header_size + 3 * off + R) pixels.[4 * off] in
        let buffer := store buffer (header_size + 3 * off + G) pixels.[4 * off + 1] in
        let buffer := store buffer (header_size + 3 * off + B) pixels.[4 * off + 2] in
        buffer) buffer
  end.

(** [header_size] is initialised from [sprintf(NULL, PPM_HEADER, width,
    height)]; the rest of the function runs if that call returns. *)
Definition ppm_convert `{CFloat} (pixels : bytebuf) (width height : nat)
    (bg : option (Z * Z * Z)) (uninit : nat -> Z) : c_call bytebuf :=
  match sprintf_NULL (PPM_HEADER width height) with
  | Returns written =>
      let header_size := uint written in
      Returns (ppm_convert_from header_size pixels width height bg uninit)
  | Undefined => Undefined
  end.

(** ** Flattening to RGB *)

(** [alpha_flatten] writes into the caller's [buffer]; its local [size]
    is computed and not used. *)
Definition alpha_flatten `{CFloat} (pixels buffer : bytebuf) (width height : nat)
    (bg : option (Z * Z * Z)) : bytebuf :=
  let size := uint (3 * width * height) in
  match bg with
  | Some (r, g, b) =>
      prange (uint (width * height)) (fun off buffer =>
        let a := pixels.[4 * off + 3] in
        let buffer := store buffer (3 * off + R) (composite pixels.[4 * off] a r) in
        let buffer := store buffer (3 * off + G) (composite pixels.[4 * off + 1] a g) in
        let buffer := store buffer (3 * off + B) (composite pixels.[4 * off + 2] a b) in
        buffer) buffer
  | None =>
      prange (uint (width * height)) (fun off buffer =>
        let buffer := store buffer (3 * off + R) pixels.[4 * off] in
        let buffer := store buffer (3 * off + G) pixels.[4 * off + 1] in
        let buffer := store buffer (3 * off + B) pixels.[4 * off + 2] in
        buffer) buffer
  end.

(** ** Executable checks on the scenarios of the specification *)

Definition squish_none : Squish :=
  {| kDxt1 := 1; kDxt3 := 2; kDxt5 := 4; kBc5 := 16; kForceOpaque := 1024;
     CompressImage := fun _ _ _ blocks _ => blocks;
     DecompressImage := fun rgba _ _ _ _ => rgba |}.

Definition cfloat_none : CFloat := {| composite := fun c _ _ => c |}.

(** * Vocabulary of the statements *)

Definition is_byte (v : Z) : Prop := (0 <= v < 256)%Z.

(** A buffer all of whose cells hold a byte. *)
Definition bytes (buf : bytebuf) : Prop := Forall is_byte buf.

(** The byte size [n] is representable in the C [unsigned int]. *)
Definition fits_uint (n : nat) : Prop := (N.of_nat n < 4294967296)%N.

(** [writes_fn base k g body]: iteration [off] touches at most the cells
    [base + k*off .. base + k*off + k - 1]; cell [c] of the chunk
    receives [v] when [g off c = Some v] and is left alone otherwise. *)
Definition writes_fn (base k : nat) (g : nat -> nat -> option Z)
    (body : nat -> bytebuf -> bytebuf) : Prop :=
  forall off p,
    length (body off p) = length p /\
    forall j, j < length p ->
      get (body off p) j =
        if decide (base + k * off <= j < base + k * off + k)
        then default (get p j) (g off (j - (base + k * off)))
        else get p j.

(** The chunk given as the list of its cells. *)
Definition writes (base k : nat) (vals : nat -> list (option Z))
    (body : nat -> bytebuf -> bytebuf) : Prop :=
  writes_fn base k (fun off c => mjoin (vals off !! c)) body.

(** The colour bytes of every pixel of [dest] are zero, as in a buffer
    from [bytearray(n)] or in a blank frame of transparent or opaque
    black. *)
Definition colour_clear (dest : bytebuf) : Prop :=
  forall off c, c < 3 -> dest.[4 * off + c] = 0%Z.

(** The formats the specification lists as lossless. *)
Definition lossless_formats : list string :=
  ["RGBA8888"; "BGRA8888"; "ABGR8888"; "ARGB8888"; "BGRX8888"; "RGB888";
   "BGR888"; "UV88"; "A8"; "IA88"; "UVWQ8888"; "UVLX8888"]%string.

(** The representable subspace of a lossless format, per pixel. *)
Definition representable (nm : string) (r g b a : Z) : Prop :=
  if bool_decide (nm ∈ ["BGRX8888"; "RGB888"; "BGR888"]%string) then a = 255%Z
  else if bool_decide (nm = "UV88"%string) then b = 0%Z /\ a = 255%Z
  else if bool_decide (nm = "A8"%string) then r = 0%Z /\ g = 0%Z /\ b = 0%Z
  else if bool_decide (nm = "IA88"%string) then r = g /\ g = b
  else True.

(** Encoded bytes per pixel of a lossless format. *)
Definition bytes_per_pixel (nm : string) : nat :=
  if bool_decide (nm ∈ ["RGB888"; "BGR888"]%string) then 3
  else if bool_decide (nm ∈ ["UV88"; "IA88"]%string) then 2
  else if bool_decide (nm = "A8"%string) then 1
  else 4.

(** The registry's name for a tag. *)
Definition registry_name `{Squish} (index : Z) : string :=
  Format.name (FORMATS_at index).

(** A newly allocated buffer, as [bytearray(n)] gives it. *)
Definition fresh (n : nat) : bytebuf := replicate n 0%Z.

(** [save] into a new encoded buffer of [bpp] bytes per pixel, then
    [load] what was saved into a new canonical buffer. *)
Definition save_then_load `{Squish} (fmt : ImageFormats.t) (bpp : nat)
    (pixels : bytebuf) (width height : nat) : result bytebuf :=
  saved ← save fmt pixels (fresh (bpp * width * height)) width height;
  load fmt (fresh (4 * width * height)) saved width height.

(** What a four bit channel keeps of a byte: the high nibble, twice. *)
Definition nibble_quantise (v : Z) : Z := (17 * (v / 16))%Z.

Definition is_pure_blue (r g b : Z) : Prop := r = 0%Z /\ g = 0%Z /\ b = 255%Z.

#[global] Instance is_pure_blue_dec r g b : Decision (is_pure_blue r g b).
Proof. unfold is_pure_blue. apply _. Defined.

(** The canonical pixel [off] of a frame, as (R, G, B, A). *)
Definition pixel_at (buf : bytebuf) (off : nat) : Z * Z * Z * Z :=
  (buf.[4 * off + R], buf.[4 * off + G], buf.[4 * off + B], buf.[4 * off + A]).

(** Where channel [c] sits in an encoded bluescreen triple. *)
Definition bluescreen_byte (nm : string) (c : nat) : nat :=
  if bool_decide (nm = "BGR888_BLUESCREEN"%string) then 2 - c else c.

(** The bilinear walk of [scale_down], one loop at a time: the value the
    innermost statement stores for channel [c] of the output pixel
    [(x, y)], the body of the [x] loop and the body of the [y] loop. *)
Definition bilinear_value (src : bytebuf) (per_row per_column horiz_off vert_off : nat)
    (y x c : nat) : Z :=
  let off2 := 4 * (per_row * y + per_column * x) in
  ((src.[off2 + c] + src.[off2 + c + horiz_off] +
    src.[off2 + c + vert_off] + src.[off2 + c + vert_off + horiz_off]) / 4)%Z.

Definition bilinear_pixel (src : bytebuf) (width per_row per_column horiz_off vert_off : nat)
    (y x : nat) (dest : bytebuf) : bytebuf :=
  let off := 4 * (width * y + x) in
  let off2 := 4 * (per_row * y + per_column * x) in
  range 4 (fun channel dest =>
    store dest (off + channel)
      ((src.[off2 + channel] +
        src.[off2 + channel + horiz_off] +
        src.[off2 + channel + vert_off] +
        src.[off2 + channel + vert_off + horiz_off]) / 4)) dest.

Definition bilinear_row (src : bytebuf) (width per_row per_column horiz_off vert_off : nat)
    (y : nat) (dest : bytebuf) : bytebuf :=
  range width (bilinear_pixel src width per_row per_column horiz_off vert_off y) dest.

(** The source pixel [(sx, sy)], channel [c], of a frame [src_width] wide. *)
Definition src_pixel (src : bytebuf) (src_width sx sy c : nat) : Z :=
  src.[4 * (src_width * sy + sx) + c].

(** The offsets [scale_down] computes before it walks the frame. *)
Definition scale_offsets (src_width src_height width height : nat) : nat * nat * nat * nat :=
  let '(horiz_off, per_column) :=
    if negb (width =? src_width) then (4, 2) else (0, 1) in
  let '(vert_off, per_row) :=
    if negb (height =? src_height)
    then (4 * per_column * width, 2 * per_column * width)
    else (0, per_column * width) in
  (horiz_off, per_column, vert_off, per_row).

(** The tags registered by name only. *)
Definition unimplemented_tags : list Z := [7; 24; 25; 27; 28]%Z.
Definition unimplemented_formats : list string :=
  ["P8"; "RGBA16161616F"; "RGBA16161616"; "NONE"; "ATI1N"]%string.

(** A name is usable as a C string: no NUL among its characters. *)
Definition nul_free (s : string) : Prop := 0%Z ∉ bytes_of_string s.

(** The supplied member agrees with the registry. *)
Definition entry_matches `{Squish} (fmt : ImageFormats.t) : Prop :=
  (0 <= ImageFormats.ind fmt < FORMATS_size)%Z /\
  ImageFormats.name fmt = Format.name (FORMATS_at (ImageFormats.ind fmt)).

(** The member the registry expects at [index]. *)
Definition registry_member `{Squish} (index : Z) : ImageFormats.t :=
  ImageFormats.mk index (Format.name (FORMATS_at index)).

(** A frame of 65536 by 65536 pixels: each side is a [uint], the pixel
    count 2^32 is not. *)
Definition wrap_side : nat := N.to_nat 65536.

(** A buffer of [n] bytes, all equal to [v]. *)
Definition filled (n : nat) (v : Z) : bytebuf := replicate n v.

(** The walk both branches of [scale_down] make over the target frame:
    rows, then columns, then the four channels, storing [val y x channel]
    at [4 * (width * y + x) + channel]. *)
Definition frame_walk (width height : nat) (val : nat -> nat -> nat -> Z)
    (dest : bytebuf) : bytebuf :=
  prange height (fun y dest =>
    range width (fun x dest =>
      range 4 (fun channel dest =>
        store dest (4 * (width * y + x) + channel) (val y x channel)) dest) dest) dest.

(** How many source pixels one target pixel spans along a dimension:
    [scale_down] takes 2 where the target size differs from the source
    size and 1 where they are equal. *)
Definition scale_step (size src_size : nat) : nat :=
  if size =? src_size then 1 else 2.

(** The corner of the spanned block a nearest-neighbour filter reads, as
    (right, down): 0 upper-left, 1 upper-right, 2 lower-left, 3
    lower-right. *)
Definition filter_corner (filter_val : Z) : nat * nat :=
  if (filter_val =? 1)%Z then (1, 0)
  else if (filter_val =? 2)%Z then (0, 1)
  else if (filter_val =? 3)%Z then (1, 1)
  else (0, 0).

(** The value the bilinear branch stores and the one a nearest-neighbour
    branch stores, from the offsets [scale_down] computed. *)
Definition bilinear_sample (src : bytebuf) (offsets : nat * nat * nat * nat)
    (y x channel : nat) : Z :=
  let '(horiz_off, per_column, vert_off, per_row) := offsets in
  let off2 := 4 * (per_row * y + per_column * x) in
  ((src.[off2 + channel] +
    src.[off2 + channel + horiz_off] +
    src.[off2 + channel + vert_off] +
    src.[off2 + channel + vert_off + horiz_off]) / 4)%Z.

Definition nearest_sample (src : bytebuf) (offsets : nat * nat * nat * nat)
    (pos_off : nat) (y x channel : nat) : Z :=
  let '(horiz_off, per_column, vert_off, per_row) := offsets in
  let off2 := 4 * (per_row * y + per_column * x) in
  src.[off2 + pos_off + channel].

(** The [pos_off] a nearest-neighbour filter selects. *)
Definition filter_pos_off (filter_val : Z) (offsets : nat * nat * nat * nat) : nat :=
  let '(horiz_off, per_column, vert_off, per_row) := offsets in
  if (filter_val =? 0)%Z then 0
  else if (filter_val =? 1)%Z then horiz_off
  else if (filter_val =? 2)%Z then vert_off
  else vert_off + horiz_off.

(** The values of a C [int]. *)
Definition int_range (v : Z) : Prop := (-2147483648 <= v <= 2147483647)%Z.

(** Channel [c] of pixel [off] as [alpha_flatten] and [ppm_convert] store
    it: composited over the background when there is one, copied
    otherwise. *)
Definition flattened `{CFloat} (pixels : bytebuf) (bg : option (Z * Z * Z))
    (off c : nat) : Z :=
  match bg with
  | Some (r, g, b) =>
      composite pixels.[4 * off + c] pixels.[4 * off + 3] (nth c [r; g; b] 0%Z)
  | None => pixels.[4 * off + c]
  end.


(** What a five bit and a six bit channel keep of a byte: the high bits,
    and the highest of them again in the bits that were dropped. *)
Definition quantise5 (v : Z) : Z := (8 * (v / 8) + v / 32)%Z.
Definition quantise6 (v : Z) : Z := (4 * (v / 4) + v / 64)%Z.

(** The grey level [save_i8] and [save_ia88] store for a pixel. *)
Definition grey_level (r g b : Z) : Z := ((r + g + b) / 3)%Z.

(** Encoded bytes per pixel of a format that is stored pixel by pixel:
    the stride of [data] in its loader and saver. *)
Definition pixel_bytes (nm : string) : nat :=
  if bool_decide (nm ∈ ["I8"; "A8"]%string) then 1
  else if bool_decide (nm ∈ ["RGB565"; "BGR565"; "IA88"; "UV88"; "BGRX5551";
                             "BGRA4444"; "BGRA5551"]%string) then 2
  else if bool_decide (nm ∈ ["RGB888"; "BGR888"; "RGB888_BLUESCREEN";
                             "BGR888_BLUESCREEN"]%string) then 3
  else 4.

(** The formats whose encoded bytes come back unchanged from [load] then
    [save]. *)
Definition reencodable_formats : list string :=
  ["RGBA8888"; "ABGR8888"; "RGB888"; "BGR888"; "I8"; "IA88"; "A8";
   "RGB888_BLUESCREEN"; "BGR888_BLUESCREEN"; "ARGB8888"; "BGRA8888";
   "BGRA4444"; "UV88"; "UVWQ8888"; "UVLX8888"]%string.

(** The formats without an alpha channel of their own. *)
Definition opaque_formats : list string :=
  ["RGB888"; "BGR888"; "RGB565"; "I8"; "BGRX8888"; "BGR565"; "BGRX5551"; "UV88"]%string.

(** The formats whose codecs are the block compressor's. *)
Definition block_formats : list string :=
  ["DXT1"; "DXT3"; "DXT5"; "DXT1_ONEBITALPHA"; "ATI2N"]%string.

(** The formats stored pixel by pixel: every registered codec that is
    not the block compressor's. *)
Definition pixel_formats : list string :=
  ["RGBA8888"; "ABGR8888"; "RGB888"; "BGR888"; "RGB565"; "I8"; "IA88"; "A8";
   "RGB888_BLUESCREEN"; "BGR888_BLUESCREEN"; "ARGB8888"; "BGRA8888"; "BGRX8888";
   "BGR565"; "BGRX5551"; "BGRA4444"; "BGRA5551"; "UV88"; "UVWQ8888"; "UVLX8888"]%string.

(** A loop body that keeps the length of the buffer and, in iteration
    [off], changes no cell outside the chunk [k * off .. k * off + k - 1]. *)
Definition confined (k : nat) (body : nat -> bytebuf -> bytebuf) : Prop :=
  forall off p,
    length (body off p) = length p /\
    forall j, j < length p -> ~ (k * off <= j < k * off + k) ->
      get (body off p) j = get p j.

(** A loader keeps the length of [pixels] and leaves every cell past the
    pixels it walks; a saver does the same for [data], [k] bytes a
    pixel. *)
Definition loader_in_frame (f : codec) : Prop :=
  forall pixels data width height,
    length (f pixels data width height) = length pixels /\
    forall j, 4 * uint (width * height) <= j ->
      get (f pixels data width height) j = get pixels j.

Definition saver_in_frame (k : nat) (f : codec) : Prop :=
  forall pixels data width height,
    length (f pixels data width height) = length data /\
    forall j, k * uint (width * height) <= j ->
      get (f pixels data width height) j = get data j.

(** A 565 pixel with its two five bit fields in each other's place: the
    low five bits of the first byte and the high five of the second. *)
Definition swap565 (a b : Z) : Z * Z :=
  ((a & 224) .| (b >> 3), ((a & 31) << 3) .| (b & 7)).

(** * Proofs *)

(** * Buffer lemmas *)

Lemma to_byte_small v : is_byte v -> to_byte v = v.
Proof. unfold is_byte, to_byte. lia. Qed.

Lemma to_byte_is_byte v : is_byte (to_byte v).
Proof. unfold is_byte, to_byte. lia. Qed.

Lemma to_byte_idem v : to_byte (to_byte v) = to_byte v.
Proof. apply to_byte_small, to_byte_is_byte. Qed.

Lemma uint_small n : fits_uint n -> uint n = n.
Proof. unfold fits_uint, uint. lia. Qed.

Lemma get_lookup (buf : bytebuf) i v : buf !! i = Some v -> get buf i = v.
Proof. unfold get. by intros ->. Qed.

Lemma get_ge (buf : bytebuf) i : length buf <= i -> get buf i = 0%Z.
Proof. intros. unfold get. by rewrite lookup_ge_None_2. Qed.

Lemma get_is_byte buf i : bytes buf -> is_byte (get buf i).
Proof.
  intros Hb. unfold get. destruct (buf !! i) as [v|] eqn:E; simpl.
  - eapply (Forall_lookup_1 _ _ _ _ Hb E).
  - unfold is_byte. lia.
Qed.

Lemma length_store buf i v : length (store buf i v) = length buf.
Proof. apply length_insert. Qed.

Lemma get_store buf i v j :
  j < length buf ->
  get (store buf i v) j = if decide (j = i) then to_byte v else get buf j.
Proof.
  intros Hj. unfold get, store. case_decide as E.
  - subst. by rewrite list_lookup_insert_eq.
  - by rewrite list_lookup_insert_ne.
Qed.

Lemma bytes_store buf i v : bytes buf -> bytes (store buf i v).
Proof.
  intros Hb. unfold store.
  destruct (decide (i < length buf)).
  - apply Forall_insert; [done | apply to_byte_is_byte].
  - by rewrite list_insert_ge by lia.
Qed.

(** Two buffers of one length with the same cells are equal. *)
Lemma bytebuf_ext (p q : bytebuf) :
  length p = length q -> (forall j, j < length p -> get p j = get q j) -> p = q.
Proof.
  intros Hlen Hget. apply list_eq. intros j.
  destruct (decide (j < length p)) as [Hj|Hj].
  - destruct (lookup_lt_is_Some_2 p j Hj) as [x Hx].
    destruct (lookup_lt_is_Some_2 q j ltac:(lia)) as [y Hy].
    specialize (Hget j Hj). rewrite (get_lookup _ _ _ Hx), (get_lookup _ _ _ Hy) in Hget.
    congruence.
  - rewrite !lookup_ge_None_2; [done | lia | lia].
Qed.

(** The same, cell by cell of each [k]-byte pixel. *)
Lemma bytebuf_ext_px k n (p q : bytebuf) :
  0 < k -> length p = k * n -> length q = k * n ->
  (forall off c, off < n -> c < k -> get p (k * off + c) = get q (k * off + c)) ->
  p = q.
Proof.
  intros Hk Hp Hq Hpx. apply bytebuf_ext; [lia|].
  intros j Hj.
  assert (j = k * (j / k) + j mod k) as -> by (apply Nat.div_mod; lia).
  apply Hpx.
  - apply Nat.Div0.div_lt_upper_bound; lia.
  - apply Nat.mod_upper_bound; lia.
Qed.

(** * Loops that write one chunk of [k] cells per iteration *)

Lemma prange_length n body p :
  (forall off q, length (body off q) = length q) ->
  length (prange n body p) = length p.
Proof. intros Hb. induction n as [|n IH]; simpl; [done|]. by rewrite Hb. Qed.

Lemma writes_fn_length base k g body n p :
  writes_fn base k g body -> length (prange n body p) = length p.
Proof. intros Hw. apply prange_length. intros off q. apply (Hw off q). Qed.

Lemma prange_writes_fn base k g body :
  0 < k -> writes_fn base k g body ->
  forall n p j, j < length p ->
    get (prange n body p) j =
      if decide (base <= j < base + k * n)
      then default (get p j) (g ((j - base) / k) ((j - base) mod k))
      else get p j.
Proof.
  intros Hk Hw n p j Hj. induction n as [|n IH]; simpl.
  - case_decide; [lia | done].
  - destruct (Hw n (prange n body p)) as [_ Hget].
    rewrite Hget by (by rewrite (writes_fn_length base k g)).
    clear Hget. rewrite IH. clear IH.
    destruct (decide (base + k * n <= j < base + k * n + k)) as [Hin|Hout].
    + assert ((j - base) / k = n) as Hdiv.
      { symmetry. apply (Nat.div_unique _ k n (j - base - k * n)); lia. }
      assert ((j - base) mod k = j - (base + k * n)) as Hmod.
      { rewrite Nat.Div0.mod_eq, Hdiv. lia. }
      rewrite (decide_True (P := base <= j < base + k * S n)) by lia.
      rewrite (decide_False (P := base <= j < base + k * n)) by lia.
      by rewrite Hdiv, Hmod.
    + destruct (decide (base <= j < base + k * n)).
      * by rewrite decide_True by lia.
      * by rewrite decide_False by lia.
Qed.

(** The same in pixel coordinates. *)
Lemma prange_writes_fn_at base k g body n p off c :
  writes_fn base k g body -> off < n -> c < k -> base + k * off + c < length p ->
  get (prange n body p) (base + k * off + c) =
    default (get p (base + k * off + c)) (g off c).
Proof.
  intros Hw Hoff Hc Hlen.
  rewrite (prange_writes_fn base k g body) by (done || lia).
  rewrite decide_True by nia.
  replace (base + k * off + c - base) with (c + off * k) by lia.
  rewrite Nat.div_add by lia. rewrite Nat.Div0.mod_add.
  rewrite Nat.div_small, Nat.mod_small by lia. done.
Qed.

Lemma prange_writes_at base k vals body n p off c :
  writes base k vals body -> off < n -> c < k -> base + k * off + c < length p ->
  get (prange n body p) (base + k * off + c) =
    default (get p (base + k * off + c)) (mjoin (vals off !! c)).
Proof. apply (prange_writes_fn_at base k (fun off c => mjoin (vals off !! c))). Qed.

Ltac chunk_cases j base k off :=
  let c := fresh "c" in
  let Hc := fresh "Hc" in
  remember (j - (base + k * off)) as c eqn:Hc;
  repeat (destruct c as [|c]; [ | ]).

(** Discharges [writes base k vals body] for a body made of [store]s. *)
Ltac solve_writes :=
  let off := fresh "off" in
  let p := fresh "p" in
  let j := fresh "j" in
  let Hj := fresh "Hj" in
  let c := fresh "c" in
  let Hc := fresh "Hc" in
  intros off p; unfold R, G, B, A; cbv zeta;
  try match goal with
      | |- context [ if ?b then _ else _ ] =>
          match type of b with bool => destruct b end
      end;
  (split;
   [ rewrite ?length_store; reflexivity
   | intros j Hj;
     rewrite ?get_store by (rewrite ?length_store; exact Hj);
     match goal with
     | |- context [ decide (?lo <= j < ?hi) ] =>
         destruct (decide (lo <= j < hi));
         [ remember (j - lo) as c eqn:Hc;
           do 5 (try (destruct c as [|c];
                      [ cbn [lookup list_lookup mjoin option_join default from_option id] | ]));
           first [ lia
                 | repeat case_decide;
                   first [ lia | rewrite ?Nat.mul_1_l, ?Nat.add_0_r; reflexivity ] ]
         | repeat case_decide; first [ lia | reflexivity ] ]
     end ]).

Lemma prange_writes_at0 k vals body n p off c :
  writes 0 k vals body -> off < n -> c < k -> k * off + c < length p ->
  get (prange n body p) (k * off + c) =
    default (get p (k * off + c)) (mjoin (vals off !! c)).
Proof. intros Hw ???. by apply (prange_writes_at 0 k vals body n p off c Hw). Qed.

(** The same for an index written in any form. *)
Lemma prange_writes_ix k vals body n p j off c :
  writes 0 k vals body -> j = k * off + c -> off < n -> c < k -> j < length p ->
  get (prange n body p) j = default (get p j) (mjoin (vals off !! c)).
Proof. intros Hw -> ???. by apply prange_writes_at0. Qed.

Ltac codec_length f :=
  intros; unfold f; apply prange_length; intros;
  repeat match goal with |- context [ if ?b then _ else _ ] => destruct b end;
  cbv zeta; rewrite ?length_store; reflexivity.

Ltac codec_at f off :=
  intros; unfold f; rewrite uint_small by assumption;
  match goal with
  | |- get _ _ = default _ (mjoin (?l !! _)) =>
      let fn := eval pattern off in l in
      match fn with
      | ?vals _ => apply (prange_writes_at0 _ vals)
      end
  end; [ solve_writes | lia .. ].

(** * What each codec writes, pixel by pixel *)

Section CodecSpecs.
Context (pixels data : bytebuf) (W H : nat).

Lemma load_bgra8888_length : length (load_bgra8888 pixels data W H) = length pixels.
Proof. codec_length load_bgra8888. Qed.

Lemma load_bgra8888_at off c :
  fits_uint (W * H) -> off < W * H -> c < 4 -> 4 * (W * H) <= length pixels ->
  get (load_bgra8888 pixels data W H) (4 * off + c) =
    default pixels.[4 * off + c]
      (mjoin ([Some (to_byte data.[4 * off + 2]);
               Some (to_byte data.[4 * off + 1]);
               Some (to_byte data.[4 * off + 0]);
               Some (to_byte data.[4 * off + 3])] !! c)).
Proof. codec_at load_bgra8888 off. Qed.

Lemma save_bgra8888_length : length (save_bgra8888 pixels data W H) = length data.
Proof. codec_length save_bgra8888. Qed.

Lemma save_bgra8888_at off c :
  fits_uint (W * H) -> off < W * H -> c < 4 -> 4 * (W * H) <= length data ->
  get (save_bgra8888 pixels data W H) (4 * off + c) =
    default data.[4 * off + c]
      (mjoin ([Some (to_byte pixels.[4 * off + B]);
               Some (to_byte pixels.[4 * off + G]);
               Some (to_byte pixels.[4 * off + R]);
               Some (to_byte pixels.[4 * off + A])] !! c)).
Proof. codec_at save_bgra8888 off. Qed.

Lemma load_argb8888_length : length (load_argb8888 pixels data W H) = length pixels.
Proof. codec_length load_argb8888. Qed.

Lemma load_argb8888_at off c :
  fits_uint (W * H) -> off < W * H -> c < 4 -> 4 * (W * H) <= length pixels ->
  get (load_argb8888 pixels data W H) (4 * off + c) =
    default pixels.[4 * off + c]
      (mjoin ([Some (to_byte data.[4 * off + 3]);
               Some (to_byte data.[4 * off + 0]);
               Some (to_byte data.[4 * off + 1]);
               Some (to_byte data.[4 * off + 2])] !! c)).
Proof. codec_at load_argb8888 off. Qed.

Lemma save_argb8888_length : length (save_argb8888 pixels data W H) = length data.
Proof. codec_length save_argb8888. Qed.

Lemma save_argb8888_at off c :
  fits_uint (W * H) -> off < W * H -> c < 4 -> 4 * (W * H) <= length data ->
  get (save_argb8888 pixels data W H) (4 * off + c) =
    default data.[4 * off + c]
      (mjoin ([Some (to_byte pixels.[4 * off + G]);
               Some (to_byte pixels.[4 * off + B]);
               Some (to_byte pixels.[4 * off + A]);
               Some (to_byte pixels.[4 * off + R])] !! c)).
Proof. codec_at save_argb8888 off. Qed.

Lemma load_abgr8888_length : length (load_abgr8888 pixels data W H) = length pixels.
Proof. codec_length load_abgr8888. Qed.

Lemma load_abgr8888_at off c :
  fits_uint (W * H) -> off < W * H -> c < 4 -> 4 * (W * H) <= length pixels ->
  get (load_abgr8888 pixels data W H) (4 * off + c) =
    default pixels.[4 * off + c]
      (mjoin ([Some (to_byte data.[4 * off + 3]);
               Some (to_byte data.[4 * off + 2]);
               Some (to_byte data.[4 * off + 1]);
               Some (to_byte data.[4 * off + 0])] !! c)).
Proof. codec_at load_abgr8888 off. Qed.

Lemma save_abgr8888_length : length (save_abgr8888 pixels data W H) = length data.
Proof. codec_length save_abgr8888. Qed.

Lemma save_abgr8888_at off c :
  fits_uint (W * H) -> off < W * H -> c < 4 -> 4 * (W * H) <= length data ->
  get (save_abgr8888 pixels data W H) (4 * off + c) =
    default data.[4 * off + c]
      (mjoin ([Some (to_byte pixels.[4 * off + A]);
               Some (to_byte pixels.[4 * off + B]);
               Some (to_byte pixels.[4 * off + G]);
               Some (to_byte pixels.[4 * off + R])] !! c)).
Proof. codec_at save_abgr8888 off. Qed.

Lemma load_rgb888_length : length (load_rgb888 pixels data W H) = length pixels.
Proof. codec_length load_rgb888. Qed.

Lemma load_rgb888_at off c :
  fits_uint (W * H) -> off < W * H -> c < 4 -> 4 * (W * H) <= length pixels ->
  get (load_rgb888 pixels data W H) (4 * off + c) =
    default pixels.[4 * off + c]
      (mjoin ([Some (to_byte data.[3 * off + 0]);
               Some (to_byte data.[3 * off + 1]);
               Some (to_byte data.[3 * off + 2]);
               Some 255%Z] !! c)).
Proof. codec_at load_rgb888 off. Qed.

Lemma save_rgb888_length : length (save_rgb888 pixels data W H) = length data.
Proof. codec_length save_rgb888. Qed.

Lemma save_rgb888_at off c :
  fits_uint (W * H) -> off < W * H -> c < 3 -> 3 * (W * H) <= length data ->
  get (save_rgb888 pixels data W H) (3 * off + c) =
    default data.[3 * off + c]
      (mjoin ([Some (to_byte pixels.[4 * off + R]);
               Some (to_byte pixels.[4 * off + G]);
               Some (to_byte pixels.[4 * off + B])] !! c)).
Proof. codec_at save_rgb888 off. Qed.

Lemma load_bgr888_length : length (load_bgr888 pixels data W H) = length pixels.
Proof. codec_length load_bgr888. Qed.

Lemma load_bgr888_at off c :
  fits_uint (W * H) -> off < W * H -> c < 4 -> 4 * (W * H) <= length pixels ->
  get (load_bgr888 pixels data W H) (4 * off + c) =
    default pixels.[4 * off + c]
      (mjoin ([Some (to_byte data.[3 * off + 2]);
               Some (to_byte data.[3 * off + 1]);
               Some (to_byte data.[3 * off + 0]);
               Some 255%Z] !! c)).
Proof. codec_at load_bgr888 off. Qed.

Lemma save_bgr888_length : length (save_bgr888 pixels data W H) = length data.
Proof. codec_length save_bgr888. Qed.

Lemma save_bgr888_at off c :
  fits_uint (W * H) -> off < W * H -> c < 3 -> 3 * (W * H) <= length data ->
  get (save_bgr888 pixels data W H) (3 * off + c) =
    default data.[3 * off + c]
      (mjoin ([Some (to_byte pixels.[4 * off + B]);
               Some (to_byte pixels.[4 * off + G]);
               Some (to_byte pixels.[4 * off + R])] !! c)).
Proof. codec_at save_bgr888 off. Qed.

Lemma load_bgrx8888_length : length (load_bgrx8888 pixels data W H) = length pixels.
Proof. codec_length load_bgrx8888. Qed.

Lemma load_bgrx8888_at off c :
  fits_uint (W * H) -> off < W * H -> c < 4 -> 4 * (W * H) <= length pixels ->
  get (load_bgrx8888 pixels data W H) (4 * off + c) =
    default pixels.[4 * off + c]
      (mjoin ([Some (to_byte data.[4 * off + 2]);
               Some (to_byte data.[4 * off + 1]);
               Some (to_byte data.[4 * off + 0]);
               Some 255%Z] !! c)).
Proof. codec_at load_bgrx8888 off. Qed.

Lemma save_bgrx8888_length : length (save_bgrx8888 pixels data W H) = length data.
Proof. codec_length save_bgrx8888. Qed.

Lemma save_bgrx8888_at off c :
  fits_uint (W * H) -> off < W * H -> c < 4 -> 4 * (W * H) <= length data ->
  get (save_bgrx8888 pixels data W H) (4 * off + c) =
    default data.[4 * off + c]
      (mjoin ([Some (to_byte pixels.[4 * off + B]);
               Some (to_byte pixels.[4 * off + G]);
               Some (to_byte pixels.[4 * off + R]);
               Some 0%Z] !! c)).
Proof. codec_at save_bgrx8888 off. Qed.

Lemma load_uv88_length : length (load_uv88 pixels data W H) = length pixels.
Proof. codec_length load_uv88. Qed.

Lemma load_uv88_at off c :
  fits_uint (W * H) -> off < W * H -> c < 4 -> 4 * (W * H) <= length pixels ->
  get (load_uv88 pixels data W H) (4 * off + c) =
    default pixels.[4 * off + c]
      (mjoin ([Some (to_byte data.[2 * off + 0]);
               Some (to_byte data.[2 * off + 1]);
               Some 0%Z;
               Some 255%Z] !! c)).
Proof. codec_at load_uv88 off. Qed.

Lemma save_uv88_length : length (save_uv88 pixels data W H) = length data.
Proof. codec_length save_uv88. Qed.

Lemma save_uv88_at off c :
  fits_uint (W * H) -> off < W * H -> c < 2 -> 2 * (W * H) <= length data ->
  get (save_uv88 pixels data W H) (2 * off + c) =
    default data.[2 * off + c]
      (mjoin ([Some (to_byte pixels.[4 * off + R]);
               Some (to_byte pixels.[4 * off + G])] !! c)).
Proof. codec_at save_uv88 off. Qed.

Lemma load_ia88_length : length (load_ia88 pixels data W H) = length pixels.
Proof. codec_length load_ia88. Qed.

Lemma load_ia88_at off c :
  fits_uint (W * H) -> off < W * H -> c < 4 -> 4 * (W * H) <= length pixels ->
  get (load_ia88 pixels data W H) (4 * off + c) =
    default pixels.[4 * off + c]
      (mjoin ([Some (to_byte (to_byte data.[2 * off + 0]));
               Some (to_byte (to_byte data.[2 * off + 0]));
               Some (to_byte (to_byte data.[2 * off + 0]));
               Some (to_byte data.[2 * off + 1])] !! c)).
Proof. codec_at load_ia88 off. Qed.

Lemma save_ia88_length : length (save_ia88 pixels data W H) = length data.
Proof. codec_length save_ia88. Qed.

Lemma save_ia88_at off c :
  fits_uint (W * H) -> off < W * H -> c < 2 -> 2 * (W * H) <= length data ->
  get (save_ia88 pixels data W H) (2 * off + c) =
    default data.[2 * off + c]
      (mjoin ([Some (to_byte ((to_byte pixels.[4 * off + R] + to_byte pixels.[4 * off + G] + to_byte pixels.[4 * off + B]) / 3));
               Some (to_byte pixels.[4 * off + A])] !! c)).
Proof. codec_at save_ia88 off. Qed.

Lemma save_a8_length : length (save_a8 pixels data W H) = length data.
Proof. codec_length save_a8. Qed.

Lemma save_a8_at off c :
  fits_uint (W * H) -> off < W * H -> c < 1 -> 1 * (W * H) <= length data ->
  get (save_a8 pixels data W H) (1 * off + c) =
    default data.[1 * off + c]
      (mjoin ([Some (to_byte pixels.[4 * off + A])] !! c)).
Proof. codec_at save_a8 off. Qed.

End CodecSpecs.

Lemma length_memset dst c n : length (memset dst c n) = length dst.
Proof. unfold memset. rewrite length_app, length_replicate, length_drop. lia. Qed.

Lemma get_memset dst c n j :
  j < length dst ->
  get (memset dst c n) j = if decide (j < n) then to_byte c else get dst j.
Proof.
  intros Hj. unfold memset, get. case_decide.
  - rewrite lookup_app_l by (rewrite length_replicate; lia).
    by rewrite lookup_replicate_2 by lia.
  - rewrite lookup_app_r by (rewrite length_replicate; lia).
    rewrite length_replicate, lookup_drop. do 2 f_equal. lia.
Qed.

Lemma memcpy_all dst src n :
  length src = n -> length dst = n -> memcpy dst src n = src.
Proof.
  intros Hs Hd. unfold memcpy.
  rewrite take_ge, drop_ge by lia. apply app_nil_r.
Qed.

Lemma get_replicate_0 n j : get (replicate n 0%Z) j = 0%Z.
Proof.
  unfold get. destruct (decide (j < n)).
  - by rewrite lookup_replicate_2.
  - by rewrite lookup_ge_None_2 by (rewrite length_replicate; lia).
Qed.

Section A8.
Context (pixels data : bytebuf) (W H : nat).

Lemma load_a8_length : length (load_a8 pixels data W H) = length pixels.
Proof.
  unfold load_a8. rewrite prange_length; [apply length_memset|].
  intros. cbv zeta. by rewrite length_store.
Qed.

(** [load_a8] writes the alpha byte of every pixel; the [memset] clears
    the first [W * H] bytes of the buffer and no others. *)
Lemma load_a8_at off c :
  fits_uint (W * H) -> off < W * H -> c < 4 -> 4 * (W * H) <= length pixels ->
  get (load_a8 pixels data W H) (4 * off + c) =
    if decide (c = 3) then to_byte data.[off]
    else if decide (4 * off + c < W * H) then 0%Z
    else pixels.[4 * off + c].
Proof.
  intros Hfit Hoff Hc Hlen. unfold load_a8. rewrite uint_small by done.
  rewrite (prange_writes_at0 4 (fun off => [None; None; None; Some (to_byte data.[off])]));
    [ | solve_writes | lia | lia | rewrite length_memset; lia ].
  rewrite get_memset by lia.
  do 4 (try destruct c as [|c]); try lia;
    cbn [lookup list_lookup mjoin option_join default from_option id];
    repeat case_decide; first [ lia | reflexivity ].
Qed.
End A8.

(** * Round trips of the formats that lose nothing *)

Ltac px_cases c :=
  do 4 (try destruct c as [|c]); [ .. | lia ];
  cbn [lookup list_lookup mjoin option_join default from_option id].

Ltac byte_of_pixels :=
  unfold R, G, B, A in *;
  rewrite ?to_byte_idem;
  try (rewrite to_byte_small by (apply get_is_byte; assumption));
  try reflexivity.

Section RoundTrip.
Context (pixels : bytebuf) (W H : nat).
Context (Hfit : fits_uint (4 * (W * H))).
Context (Hbytes : bytes pixels).
Context (Hpixels : length pixels = 4 * (W * H)).

Local Lemma fits_count : fits_uint (W * H).
Proof. unfold fits_uint in *. lia. Qed.

Lemma round_trip_copy dest data0 :
  length data0 = 4 * (W * H) -> length dest = 4 * (W * H) ->
  load_copy dest (save_copy pixels data0 W H) W H = pixels.
Proof.
  intros Hd Hdest. unfold load_copy, save_copy.
  replace (4 * W * H) with (4 * (W * H)) by lia.
  rewrite uint_small by done.
  rewrite (memcpy_all data0 pixels) by done. by apply memcpy_all.
Qed.

Lemma round_trip_bgra8888 dest data0 :
  length data0 = 4 * (W * H) -> length dest = 4 * (W * H) ->
  load_bgra8888 dest (save_bgra8888 pixels data0 W H) W H = pixels.
Proof.
  intros Hd Hdest. pose proof fits_count.
  apply (bytebuf_ext_px 4 (W * H)); [lia | by rewrite load_bgra8888_length | done |].
  intros off c Hoff Hc. rewrite load_bgra8888_at by (done || lia).
  px_cases c; rewrite save_bgra8888_at by (done || lia);
    cbn [lookup list_lookup mjoin option_join default from_option id]; byte_of_pixels.
Qed.

Ltac round_trip_with len_lemma load_at save_at :=
  let off := fresh "off" in
  let c := fresh "c" in
  intros; pose proof fits_count;
  apply (bytebuf_ext_px 4 (W * H)); [ lia | by rewrite len_lemma | done | ];
  intros off c ? ?; rewrite load_at by (done || lia);
  px_cases c; rewrite ?save_at by (done || lia);
  cbn [lookup list_lookup mjoin option_join default from_option id];
  byte_of_pixels.

Lemma round_trip_abgr8888 dest data0 :
  length data0 = 4 * (W * H) -> length dest = 4 * (W * H) ->
  load_abgr8888 dest (save_abgr8888 pixels data0 W H) W H = pixels.
Proof. round_trip_with load_abgr8888_length load_abgr8888_at save_abgr8888_at. Qed.

Lemma round_trip_argb8888 dest data0 :
  length data0 = 4 * (W * H) -> length dest = 4 * (W * H) ->
  load_argb8888 dest (save_argb8888 pixels data0 W H) W H = pixels.
Proof. round_trip_with load_argb8888_length load_argb8888_at save_argb8888_at. Qed.

Lemma round_trip_bgrx8888 dest data0 :
  (forall off, off < W * H -> pixels.[4 * off + A] = 255%Z) ->
  length data0 = 4 * (W * H) -> length dest = 4 * (W * H) ->
  load_bgrx8888 dest (save_bgrx8888 pixels data0 W H) W H = pixels.
Proof.
  intros Ha. round_trip_with load_bgrx8888_length load_bgrx8888_at save_bgrx8888_at.
  symmetry. by apply Ha.
Qed.

Lemma round_trip_rgb888 dest data0 :
  (forall off, off < W * H -> pixels.[4 * off + A] = 255%Z) ->
  length data0 = 3 * (W * H) -> length dest = 4 * (W * H) ->
  load_rgb888 dest (save_rgb888 pixels data0 W H) W H = pixels.
Proof.
  intros Ha. round_trip_with load_rgb888_length load_rgb888_at save_rgb888_at.
  symmetry. by apply Ha.
Qed.

Lemma round_trip_bgr888 dest data0 :
  (forall off, off < W * H -> pixels.[4 * off + A] = 255%Z) ->
  length data0 = 3 * (W * H) -> length dest = 4 * (W * H) ->
  load_bgr888 dest (save_bgr888 pixels data0 W H) W H = pixels.
Proof.
  intros Ha. round_trip_with load_bgr888_length load_bgr888_at save_bgr888_at.
  symmetry. by apply Ha.
Qed.

Lemma round_trip_uv88 dest data0 :
  (forall off, off < W * H -> pixels.[4 * off + B] = 0%Z /\ pixels.[4 * off + A] = 255%Z) ->
  length data0 = 2 * (W * H) -> length dest = 4 * (W * H) ->
  load_uv88 dest (save_uv88 pixels data0 W H) W H = pixels.
Proof.
  intros Ha. round_trip_with load_uv88_length load_uv88_at save_uv88_at.
  - symmetry. by apply Ha.
  - symmetry. by apply Ha.
Qed.

Lemma round_trip_ia88 dest data0 :
  (forall off, off < W * H ->
     pixels.[4 * off + R] = pixels.[4 * off + G] /\ pixels.[4 * off + G] = pixels.[4 * off + B]) ->
  length data0 = 2 * (W * H) -> length dest = 4 * (W * H) ->
  load_ia88 dest (save_ia88 pixels data0 W H) W H = pixels.
Proof.
  intros Hgrey. round_trip_with load_ia88_length load_ia88_at save_ia88_at.
  all: match goal with Hoff : ?off < W * H |- _ =>
         destruct (Hgrey off Hoff) as [Hrg Hgb]; unfold R, G, B in Hrg, Hgb;
         pose proof (get_is_byte pixels (4 * off + 0) Hbytes) as Hr
       end;
       rewrite <- ?Hgb, <- ?Hrg; unfold is_byte, to_byte in *; lia.
Qed.

Lemma save_a8_get data0 off :
  off < W * H -> W * H <= length data0 ->
  get (save_a8 pixels data0 W H) off = to_byte pixels.[4 * off + A].
Proof.
  intros Hoff Hlen.
  pose proof (save_a8_at pixels data0 W H off 0 fits_count Hoff) as E.
  rewrite !Nat.mul_1_l, !Nat.add_0_r in E. rewrite E by lia. done.
Qed.

(** A8 is the one loader whose result depends on what the destination
    held: the colour bytes come out zero because they went in zero. *)
Lemma round_trip_a8 dest data0 :
  (forall off, off < W * H ->
     pixels.[4 * off + R] = 0%Z /\ pixels.[4 * off + G] = 0%Z /\ pixels.[4 * off + B] = 0%Z) ->
  colour_clear dest ->
  length data0 = W * H -> length dest = 4 * (W * H) ->
  load_a8 dest (save_a8 pixels data0 W H) W H = pixels.
Proof.
  intros Hzero Hclear Hd Hdest. pose proof fits_count.
  apply (bytebuf_ext_px 4 (W * H)); [ lia | by rewrite load_a8_length | done | ].
  intros off c Hoff Hc.
  rewrite load_a8_at by (done || lia).
  destruct (Hzero off Hoff) as (Hr & Hg & Hb).
  unfold R, G, B in *.
  destruct (decide (c = 3)) as [->|Hc3].
  - rewrite save_a8_get by lia. byte_of_pixels.
  - rewrite (Hclear off c) by lia.
    px_cases c; try case_decide; try lia; congruence.
Qed.

Lemma colour_clear_replicate n : colour_clear (replicate n 0%Z).
Proof. intros off c _. apply get_replicate_0. Qed.
End RoundTrip.

Section Dispatch.
Context `{Squish}.

Lemma as_int_tag index : (0 <= index < FORMATS_size)%Z -> as_int index = Ok index.
Proof. unfold as_int, FORMATS_size. intros. case_bool_decide || idtac.
  destruct (_ && _)%bool eqn:E; [done|]. lia. Qed.

Lemma load_dispatch fmt pixels data width height :
  (0 <= ImageFormats.ind fmt < FORMATS_size)%Z ->
  load fmt pixels data width height =
    match Format.load (FORMATS_at (ImageFormats.ind fmt)) with
    | Some load_fn => Ok (load_fn pixels data width height)
    | None => Raise (NotImplementedError
                       ("Loading " ++ ImageFormats.name fmt ++ " not implemented!"))
    end.
Proof.
  intros Hind. unfold load. rewrite as_int_tag by done. simpl.
  destruct (_ && _)%bool eqn:E; [done|]. lia.
Qed.

Lemma save_dispatch fmt pixels data width height :
  (0 <= ImageFormats.ind fmt < FORMATS_size)%Z ->
  save fmt pixels data width height =
    match Format.save (FORMATS_at (ImageFormats.ind fmt)) with
    | Some save_fn => Ok (save_fn pixels data width height)
    | None => Raise (NotImplementedError
                       ("Saving " ++ ImageFormats.name fmt ++ " not implemented!"))
    end.
Proof.
  intros Hind. unfold save. rewrite as_int_tag by done. simpl.
  destruct (_ && _)%bool eqn:E; [done|]. lia.
Qed.
End Dispatch.

Ltac not_listed Hname :=
  exfalso; revert Hname; apply (bool_decide_eq_false_1 _); vm_compute; reflexivity.

(** The registry entries with a lossless name. *)
Lemma lossless_tags `{Squish} (index : Z) :
  (0 <= index < FORMATS_size)%Z ->
  Format.name (FORMATS_at index) ∈ lossless_formats ->
  index ∈ [0; 1; 2; 3; 6; 8; 11; 12; 16; 22; 23; 26]%Z.
Proof.
  intros Hind Hname.
  assert (exists n, index = Z.of_nat n /\ n < 30) as (n & -> & Hn).
  { exists (Z.to_nat index). unfold FORMATS_size in Hind. lia. }
  clear Hind.
  do 30 (destruct n as [|n];
         [ first [ not_listed Hname | apply (bool_decide_unpack _); vm_compute; exact I ] | ]).
  lia.
Qed.

Ltac entry_whnf :=
  repeat match goal with
  | |- context [ Format.load (FORMATS_at ?k) ] =>
      let v := eval hnf in (Format.load (FORMATS_at k)) in
      change (Format.load (FORMATS_at k)) with v
  | |- context [ Format.save (FORMATS_at ?k) ] =>
      let v := eval hnf in (Format.save (FORMATS_at k)) in
      change (Format.save (FORMATS_at k)) with v
  end; cbv beta iota.

(** The round trip into any destination of the right size; only A8 needs
    one whose colour bytes are zero. *)
Lemma lossless_round_trip_into `{Squish} (fmt : ImageFormats.t) (width height : nat)
    (pixels data0 dest : bytebuf) :
  (0 <= ImageFormats.ind fmt < FORMATS_size)%Z ->
  registry_name (ImageFormats.ind fmt) ∈ lossless_formats ->
  fits_uint (4 * width * height) ->
  bytes pixels -> length pixels = 4 * width * height ->
  (forall off, off < width * height ->
     representable (registry_name (ImageFormats.ind fmt))
       pixels.[4 * off + R] pixels.[4 * off + G]
       pixels.[4 * off + B] pixels.[4 * off + A]) ->
  length data0 = bytes_per_pixel (registry_name (ImageFormats.ind fmt)) * width * height ->
  length dest = 4 * width * height ->
  (registry_name (ImageFormats.ind fmt) = "A8"%string -> colour_clear dest) ->
  exists saved,
    save fmt pixels data0 width height = Ok saved /\
    load fmt dest saved width height = Ok pixels.
Proof.
  intros Hind Hname Hfit Hbytes Hlen Hrep Hdata Hdest Hfresh.
  unfold registry_name in *.
  rewrite save_dispatch by done.
  setoid_rewrite load_dispatch; [|done].
  pose proof (lossless_tags _ Hind Hname) as Htag.
  destruct fmt as [ind fname].
  cbn [ImageFormats.ind ImageFormats.name] in *.
  replace (4 * width * height) with (4 * (width * height)) in * by lia.
  replace (bytes_per_pixel (Format.name (FORMATS_at ind)) * width * height)
    with (bytes_per_pixel (Format.name (FORMATS_at ind)) * (width * height)) in Hdata by lia.
  repeat (apply elem_of_cons in Htag as [->|Htag]); [ .. | by apply elem_of_nil in Htag ];
    (eexists; split; [ reflexivity | ]); entry_whnf; f_equal.
  - by apply round_trip_copy.
  - by apply round_trip_abgr8888.
  - by apply round_trip_rgb888.
  - by apply round_trip_bgr888.
  - by apply round_trip_ia88.
  - apply round_trip_a8; try done; [by apply Hfresh|].
    change (bytes_per_pixel _) with 1 in Hdata. lia.
  - by apply round_trip_argb8888.
  - by apply round_trip_bgra8888.
  - by apply round_trip_bgrx8888.
  - by apply round_trip_uv88.
  - by apply round_trip_copy.
  - by apply round_trip_copy.
Qed.

(** Claim C1.  For each of the formats RGBA8888, BGRA8888, ABGR8888,
    ARGB8888, BGRX8888, RGB888, BGR888, UV88, A8, IA88, UVWQ8888 and
    UVLX8888, every width and height of at least 1 and every canonical
    buffer of [4 * width * height] bytes in the format's representable subspace:
    [save] for that format, then [load] of the saved bytes into a
    newly allocated destination, gives back the canonical buffer byte
    for byte.  The encoded destination may hold anything; the frame's
    byte size is one the C [unsigned int] of the size arithmetic can
    hold. *)
Theorem lossless_round_trip `{Squish} (fmt : ImageFormats.t) (width height : nat)
    (pixels data0 : bytebuf) :
  (0 <= ImageFormats.ind fmt < FORMATS_size)%Z ->
  registry_name (ImageFormats.ind fmt) ∈ lossless_formats ->
  1 <= width -> 1 <= height -> fits_uint (4 * width * height) ->
  bytes pixels -> length pixels = 4 * width * height ->
  (forall off, off < width * height ->
     representable (registry_name (ImageFormats.ind fmt))
       pixels.[4 * off + R] pixels.[4 * off + G]
       pixels.[4 * off + B] pixels.[4 * off + A]) ->
  length data0 = bytes_per_pixel (registry_name (ImageFormats.ind fmt)) * width * height ->
  exists saved,
    save fmt pixels data0 width height = Ok saved /\
    load fmt (fresh (4 * width * height)) saved width height = Ok pixels.
Proof.
  intros Hind Hname _ _ Hfit Hbytes Hlen Hrep Hdata.
  apply lossless_round_trip_into; try done.
  - unfold fresh. by rewrite length_replicate.
  - intros _. apply colour_clear_replicate.
Qed.

Lemma lossless_round_trip_witness :
  exists saved,
    @save squish_none (ImageFormats.mk 12 "BGRA8888")
      [11; 22; 33; 44]%Z [0; 0; 0; 0]%Z 1 1 = Ok saved /\
    @load squish_none (ImageFormats.mk 12 "BGRA8888")
      (fresh (4 * 1 * 1)) saved 1 1 = Ok [11; 22; 33; 44]%Z.
Proof.
  apply (@lossless_round_trip squish_none (ImageFormats.mk 12 "BGRA8888") 1 1
           [11; 22; 33; 44]%Z [0; 0; 0; 0]%Z).
  - vm_compute. split; [discriminate | reflexivity].
  - apply (bool_decide_unpack _). vm_compute. exact I.
  - lia.
  - lia.
  - vm_compute. reflexivity.
  - repeat constructor; unfold is_byte; lia.
  - reflexivity.
  - intros off Hoff. vm_compute. exact I.
  - reflexivity.
Defined.

(** * The bilinear walk of [scale_down] *)

Section Bilinear.
Context (src : bytebuf) (width per_row per_column horiz_off vert_off : nat).

Local Abbreviation value := (bilinear_value src per_row per_column horiz_off vert_off).
Local Abbreviation pixel := (bilinear_pixel src width per_row per_column horiz_off vert_off).
Local Abbreviation row := (bilinear_row src width per_row per_column horiz_off vert_off).

Lemma bilinear_pixel_writes y :
  writes_fn (4 * (width * y)) 4
    (fun x c => Some (to_byte (value y x c))) (pixel y).
Proof.
  intros x p. unfold bilinear_pixel, bilinear_value, range. cbn [prange]. cbv zeta. split.
  - by rewrite !length_store.
  - intros j Hj. rewrite !get_store by (rewrite ?length_store; exact Hj).
    destruct (decide (4 * (width * y) + 4 * x <= j < 4 * (width * y) + 4 * x + 4)) as [Hin|Hout].
    + remember (j - (4 * (width * y) + 4 * x)) as c eqn:Hc.
      do 4 (destruct c as [|c]; [ repeat case_decide; first [ lia | reflexivity ] | ]).
      lia.
    + repeat case_decide; first [ lia | reflexivity ].
Qed.

Lemma bilinear_row_writes :
  writes_fn 0 (4 * width)
    (fun y c => Some (to_byte (value y (c / 4) (c mod 4)))) row.
Proof.
  intros y p. unfold bilinear_row, range. split.
  - apply (writes_fn_length _ _ _ _ _ _ (bilinear_pixel_writes y)).
  - intros j Hj.
    rewrite (prange_writes_fn _ 4 _ _ ltac:(lia) (bilinear_pixel_writes y)) by done.
    replace (0 + 4 * width * y) with (4 * (width * y)) by lia.
    by destruct (decide (4 * (width * y) <= j < 4 * (width * y) + 4 * width)).
Qed.

Lemma bilinear_walk_length height dest :
  length (prange height row dest) = length dest.
Proof. apply (writes_fn_length _ _ _ _ _ _ bilinear_row_writes). Qed.

Lemma bilinear_walk_at height dest x y c :
  x < width -> y < height -> c < 4 -> 4 * (width * height) <= length dest ->
  get (prange height row dest) (4 * (width * y + x) + c) =
    to_byte (value y x c).
Proof.
  intros Hx Hy Hc Hlen.
  replace (4 * (width * y + x) + c) with (0 + 4 * width * y + (4 * x + c)) by lia.
  rewrite (prange_writes_fn_at _ _ _ _ _ _ _ _ bilinear_row_writes) by (lia || nia).
  cbn [default from_option id].
  replace ((4 * x + c) / 4) with x by lia.
  replace ((4 * x + c) mod 4) with c by lia. done.
Qed.
End Bilinear.

Lemma scale_down_filter4 filt src_width src_height width height src dest :
  FilterMode.value filt = 4%Z ->
  scale_down filt src_width src_height width height src dest =
    let '(horiz_off, per_column, vert_off, per_row) :=
      scale_offsets src_width src_height width height in
    Ok (prange height (bilinear_row src width per_row per_column horiz_off vert_off) dest).
Proof.
  intros Hfilt. unfold scale_down, scale_offsets. rewrite Hfilt.
  change (as_int 4) with (Ok 4%Z). cbn [mbind result_bind].
  by destruct (negb (width =? src_width)), (negb (height =? src_height)).
Qed.

Lemma average_is_byte a b c d :
  is_byte a -> is_byte b -> is_byte c -> is_byte d -> is_byte ((a + b + c + d) / 4).
Proof. unfold is_byte. lia. Qed.

(** Claim C7.  When the target is exactly half the source in both
    dimensions, [scale_down] with the bilinear filter (value 4) writes,
    for every output pixel [(x, y)] and each of the four channels, the
    truncated average [(s0 + s1 + s2 + s3) / 4] of that channel over the
    source pixels (2x, 2y), (2x+1, 2y), (2x, 2y+1) and (2x+1, 2y+1). *)
Theorem scale_down_bilinear_half (filt : FilterMode.t)
    (src_width src_height width height : nat) (src dest : bytebuf) :
  FilterMode.value filt = 4%Z ->
  src_width = 2 * width -> src_height = 2 * height ->
  bytes src ->
  length src = 4 * src_width * src_height ->
  length dest = 4 * width * height ->
  exists out,
    scale_down filt src_width src_height width height src dest = Ok out /\
    length out = length dest /\
    forall x y c, x < width -> y < height -> c < 4 ->
      out.[4 * (width * y + x) + c] =
        ((src_pixel src src_width (2 * x) (2 * y) c +
          src_pixel src src_width (2 * x + 1) (2 * y) c +
          src_pixel src src_width (2 * x) (2 * y + 1) c +
          src_pixel src src_width (2 * x + 1) (2 * y + 1) c) / 4)%Z.
Proof.
  intros Hfilt Hw Hh Hbytes Hsrc Hdest.
  rewrite scale_down_filter4 by done.
  destruct (scale_offsets src_width src_height width height)
    as [[[horiz_off per_column] vert_off] per_row] eqn:Hoffs.
  eexists. split; [reflexivity|]. split; [apply bilinear_walk_length|].
  intros x y c Hx Hy Hc.
  rewrite bilinear_walk_at by (done || lia).
  unfold scale_offsets in Hoffs.
  rewrite (proj2 (Nat.eqb_neq width src_width)) in Hoffs by lia.
  rewrite (proj2 (Nat.eqb_neq height src_height)) in Hoffs by lia.
  cbn [negb] in Hoffs. injection Hoffs as <- <- <- <-.
  unfold bilinear_value, src_pixel. cbv zeta.
  rewrite to_byte_small by (apply average_is_byte; by apply get_is_byte).
  subst src_width.
  match goal with
  | |- ((src.[?i0] + src.[?i1] + src.[?i2] + src.[?i3]) / 4 =
        (src.[?j0] + src.[?j1] + src.[?j2] + src.[?j3]) / 4)%Z =>
      replace i3 with j3 by lia; replace i2 with j2 by lia;
      replace i1 with j1 by lia; replace i0 with j0 by lia
  end.
  reflexivity.
Qed.

Lemma scale_down_bilinear_half_witness :
  exists out,
    scale_down (FilterMode.mk 4) 2 2 1 1
      [10; 20; 30; 40; 30; 40; 50; 60; 50; 60; 70; 80; 70; 80; 90; 100]%Z
      [0; 0; 0; 0]%Z = Ok out /\
    length out = length [0; 0; 0; 0]%Z /\
    forall x y c, x < 1 -> y < 1 -> c < 4 ->
      out.[4 * (1 * y + x) + c] =
        ((src_pixel [10; 20; 30; 40; 30; 40; 50; 60; 50; 60; 70; 80; 70; 80; 90; 100]%Z
            2 (2 * x) (2 * y) c +
          src_pixel [10; 20; 30; 40; 30; 40; 50; 60; 50; 60; 70; 80; 70; 80; 90; 100]%Z
            2 (2 * x + 1) (2 * y) c +
          src_pixel [10; 20; 30; 40; 30; 40; 50; 60; 50; 60; 70; 80; 70; 80; 90; 100]%Z
            2 (2 * x) (2 * y + 1) c +
          src_pixel [10; 20; 30; 40; 30; 40; 50; 60; 50; 60; 70; 80; 70; 80; 90; 100]%Z
            2 (2 * x + 1) (2 * y + 1) c) / 4)%Z.
Proof.
  apply (scale_down_bilinear_half (FilterMode.mk 4) 2 2 1 1).
  - reflexivity.
  - reflexivity.
  - reflexivity.
  - repeat constructor; unfold is_byte; lia.
  - reflexivity.
  - reflexivity.
Defined.

(** Scenario S5 of the specification. *)
Example scale_down_S5 :
  scale_down (FilterMode.mk 4) 2 2 1 1
    [10; 20; 30; 40; 30; 40; 50; 60; 50; 60; 70; 80; 70; 80; 90; 100]%Z
    [0; 0; 0; 0]%Z = Ok [40; 50; 60; 70]%Z.
Proof. vm_compute. reflexivity. Qed.

Section BluescreenSpecs.
Context (pixels data : bytebuf) (width height : nat).

Lemma load_rgb888_bluescreen_length :
  length (load_rgb888_bluescreen pixels data width height) = length pixels.
Proof. codec_length load_rgb888_bluescreen. Qed.

Lemma load_rgb888_bluescreen_at off c :
  fits_uint (width * height) -> off < width * height -> c < 4 -> 4 * (width * height) <= length pixels ->
  get (load_rgb888_bluescreen pixels data width height) (4 * off + c) =
    default pixels.[4 * off + c]
      (mjoin ((if ((to_byte data.[3 * off] =? to_byte data.[3 * off + 1])%Z &&
                   (to_byte data.[3 * off + 1] =? 0)%Z) &&
                  (to_byte data.[3 * off + 2] =? 255)%Z
               then [Some 0%Z; Some 0%Z; Some 0%Z; Some 0%Z]
               else [Some (to_byte (to_byte data.[3 * off]));
                     Some (to_byte (to_byte data.[3 * off + 1]));
                     Some (to_byte (to_byte data.[3 * off + 2]));
                     Some 255%Z]) !! c)).
Proof. codec_at load_rgb888_bluescreen off. Qed.

Lemma load_bgr888_bluescreen_length :
  length (load_bgr888_bluescreen pixels data width height) = length pixels.
Proof. codec_length load_bgr888_bluescreen. Qed.

Lemma load_bgr888_bluescreen_at off c :
  fits_uint (width * height) -> off < width * height -> c < 4 -> 4 * (width * height) <= length pixels ->
  get (load_bgr888_bluescreen pixels data width height) (4 * off + c) =
    default pixels.[4 * off + c]
      (mjoin ((if ((to_byte data.[3 * off + 2] =? to_byte data.[3 * off + 1])%Z &&
                   (to_byte data.[3 * off + 1] =? 0)%Z) &&
                  (to_byte data.[3 * off] =? 255)%Z
               then [Some 0%Z; Some 0%Z; Some 0%Z; Some 0%Z]
               else [Some (to_byte (to_byte data.[3 * off + 2]));
                     Some (to_byte (to_byte data.[3 * off + 1]));
                     Some (to_byte (to_byte data.[3 * off]));
                     Some 255%Z]) !! c)).
Proof. codec_at load_bgr888_bluescreen off. Qed.

Lemma save_rgb888_bluescreen_length :
  length (save_rgb888_bluescreen pixels data width height) = length data.
Proof. codec_length save_rgb888_bluescreen. Qed.

Lemma save_rgb888_bluescreen_at off c :
  fits_uint (width * height) -> off < width * height -> c < 3 -> 3 * (width * height) <= length data ->
  get (save_rgb888_bluescreen pixels data width height) (3 * off + c) =
    default data.[3 * off + c]
      (mjoin ((if (pixels.[4 * off + A] <? 128)%Z
               then [Some 0%Z; Some 0%Z; Some 255%Z]
               else [Some (to_byte pixels.[4 * off + R]);
                     Some (to_byte pixels.[4 * off + G]);
                     Some (to_byte pixels.[4 * off + B])]) !! c)).
Proof. codec_at save_rgb888_bluescreen off. Qed.

Lemma save_bgr888_bluescreen_length :
  length (save_bgr888_bluescreen pixels data width height) = length data.
Proof. codec_length save_bgr888_bluescreen. Qed.

Lemma save_bgr888_bluescreen_at off c :
  fits_uint (width * height) -> off < width * height -> c < 3 -> 3 * (width * height) <= length data ->
  get (save_bgr888_bluescreen pixels data width height) (3 * off + c) =
    default data.[3 * off + c]
      (mjoin ((if (pixels.[4 * off + A] <? 128)%Z
               then [Some 255%Z; Some 0%Z; Some 0%Z]
               else [Some (to_byte pixels.[4 * off + B]);
                     Some (to_byte pixels.[4 * off + G]);
                     Some (to_byte pixels.[4 * off + R])]) !! c)).
Proof. codec_at save_bgr888_bluescreen off. Qed.
End BluescreenSpecs.

Lemma bluescreen_tags `{Squish} (index : Z) :
  (0 <= index < FORMATS_size)%Z ->
  Format.name (FORMATS_at index) ∈ ["RGB888_BLUESCREEN"; "BGR888_BLUESCREEN"]%string ->
  index ∈ [9; 10]%Z.
Proof.
  intros Hind Hname.
  assert (exists n, index = Z.of_nat n /\ n < 30) as (n & -> & Hn).
  { exists (Z.to_nat index). unfold FORMATS_size in Hind. lia. }
  clear Hind.
  do 30 (destruct n as [|n];
         [ first [ not_listed Hname | apply (bool_decide_unpack _); vm_compute; exact I ] | ]).
  lia.
Qed.

Lemma pure_blue_test r g b :
  ((r =? g)%Z && (g =? 0)%Z) && (b =? 255)%Z = bool_decide (is_pure_blue r g b).
Proof.
  unfold is_pure_blue. case_bool_decide as Hb.
  - destruct Hb as (-> & -> & ->). reflexivity.
  - destruct (Z.eqb_spec r g), (Z.eqb_spec g 0), (Z.eqb_spec b 255); simpl; try reflexivity.
    exfalso. apply Hb. lia.
Qed.

Ltac bluescreen_channels :=
  cbn [lookup list_lookup mjoin option_join default from_option id];
  rewrite ?to_byte_idem;
  repeat (rewrite to_byte_small by (apply get_is_byte; assumption)).

(** Claim C6.  For RGB888_BLUESCREEN and BGR888_BLUESCREEN: [load] turns
    a source pixel that is exactly pure blue (R = 0, G = 0, B = 255 in
    the format's byte order) into the canonical bytes (0, 0, 0, 0) and
    any other source pixel into its R, G, B with A = 255; [save] writes a
    canonical pixel with A < 128 as pure blue in the format's byte order
    and any other pixel as its R, G, B in that order, without the
    alpha.  The frame's pixel count is one the C [unsigned int] of the
    loop bound can hold. *)
Theorem bluescreen_rule `{Squish} (fmt : ImageFormats.t) (width height : nat)
    (pixels data : bytebuf) :
  (0 <= ImageFormats.ind fmt < FORMATS_size)%Z ->
  registry_name (ImageFormats.ind fmt)
    ∈ ["RGB888_BLUESCREEN"; "BGR888_BLUESCREEN"]%string ->
  fits_uint (width * height) ->
  bytes pixels -> bytes data ->
  length pixels = 4 * width * height -> length data = 3 * width * height ->
  (exists out,
     load fmt pixels data width height = Ok out /\ length out = 4 * width * height /\
     forall off, off < width * height ->
       let nm := registry_name (ImageFormats.ind fmt) in
       let r := data.[3 * off + bluescreen_byte nm R] in
       let g := data.[3 * off + bluescreen_byte nm G] in
       let b := data.[3 * off + bluescreen_byte nm B] in
       pixel_at out off =
         if decide (is_pure_blue r g b) then (0, 0, 0, 0)%Z else (r, g, b, 255%Z)) /\
  (exists enc,
     save fmt pixels data width height = Ok enc /\ length enc = 3 * width * height /\
     forall off, off < width * height ->
       let nm := registry_name (ImageFormats.ind fmt) in
       let written := (enc.[3 * off + bluescreen_byte nm R],
                       enc.[3 * off + bluescreen_byte nm G],
                       enc.[3 * off + bluescreen_byte nm B]) in
       written =
         if decide (pixels.[4 * off + A] < 128)%Z then (0, 0, 255)%Z
         else (pixels.[4 * off + R], pixels.[4 * off + G], pixels.[4 * off + B])).
Proof.
  intros Hind Hname Hfit Hpx Hdata Hlen Hdlen.
  unfold registry_name in *.
  rewrite save_dispatch, load_dispatch by done.
  pose proof (bluescreen_tags _ Hind Hname) as Htag.
  destruct fmt as [ind fname].
  cbn [ImageFormats.ind ImageFormats.name] in *.
  replace (4 * width * height) with (4 * (width * height)) in * by lia.
  replace (3 * width * height) with (3 * (width * height)) in * by lia.
  repeat (apply elem_of_cons in Htag as [->|Htag]); [ .. | by apply elem_of_nil in Htag ];
    entry_whnf.
  - change (Format.name (FORMATS_at 9)) with "RGB888_BLUESCREEN"%string.
    change (bluescreen_byte "RGB888_BLUESCREEN" R) with 0.
    change (bluescreen_byte "RGB888_BLUESCREEN" G) with 1.
    change (bluescreen_byte "RGB888_BLUESCREEN" B) with 2.
    split; (eexists; split; [reflexivity|]; split).
    + by rewrite load_rgb888_bluescreen_length.
    + intros off Hoff. cbv zeta. unfold pixel_at.
      rewrite !load_rgb888_bluescreen_at by (done || (unfold R, G, B, A; lia)).
      rewrite !Nat.add_0_r, pure_blue_test. unfold R, G, B, A. rewrite ?Nat.add_0_r.
      bluescreen_channels.
      case_bool_decide;
        cbn [lookup list_lookup mjoin option_join default from_option id];
        [ by rewrite decide_True | by rewrite decide_False ].
    + by rewrite save_rgb888_bluescreen_length.
    + intros off Hoff. cbv zeta.
      rewrite !save_rgb888_bluescreen_at by (done || lia).
      destruct (Z.ltb_spec pixels.[4 * off + A] 128);
        [ rewrite decide_True by done | rewrite decide_False by lia ];
        unfold R, G, B, A; bluescreen_channels; by rewrite ?Nat.add_0_r.
  - change (Format.name (FORMATS_at 10)) with "BGR888_BLUESCREEN"%string.
    change (bluescreen_byte "BGR888_BLUESCREEN" R) with 2.
    change (bluescreen_byte "BGR888_BLUESCREEN" G) with 1.
    change (bluescreen_byte "BGR888_BLUESCREEN" B) with 0.
    split; (eexists; split; [reflexivity|]; split).
    + by rewrite load_bgr888_bluescreen_length.
    + intros off Hoff. cbv zeta. unfold pixel_at.
      rewrite !load_bgr888_bluescreen_at by (done || (unfold R, G, B, A; lia)).
      rewrite !Nat.add_0_r, pure_blue_test. unfold R, G, B, A. rewrite ?Nat.add_0_r.
      bluescreen_channels.
      case_bool_decide;
        cbn [lookup list_lookup mjoin option_join default from_option id];
        [ by rewrite decide_True | by rewrite decide_False ].
    + by rewrite save_bgr888_bluescreen_length.
    + intros off Hoff. cbv zeta.
      rewrite !save_bgr888_bluescreen_at by (done || lia).
      destruct (Z.ltb_spec pixels.[4 * off + A] 128);
        [ rewrite decide_True by done | rewrite decide_False by lia ];
        unfold R, G, B, A; bluescreen_channels; by rewrite ?Nat.add_0_r.
Qed.

Lemma bluescreen_rule_witness :
  (exists out,
     @load squish_none (ImageFormats.mk 9 "RGB888_BLUESCREEN")
       [1; 2; 3; 4]%Z [0; 0; 255]%Z 1 1 = Ok out /\ length out = 4 * 1 * 1 /\
     forall off, off < 1 * 1 ->
       let nm := @registry_name squish_none 9 in
       let r := [0; 0; 255]%Z.[3 * off + bluescreen_byte nm R] in
       let g := [0; 0; 255]%Z.[3 * off + bluescreen_byte nm G] in
       let b := [0; 0; 255]%Z.[3 * off + bluescreen_byte nm B] in
       pixel_at out off =
         if decide (is_pure_blue r g b) then (0, 0, 0, 0)%Z else (r, g, b, 255%Z)) /\
  (exists enc,
     @save squish_none (ImageFormats.mk 9 "RGB888_BLUESCREEN")
       [1; 2; 3; 4]%Z [0; 0; 255]%Z 1 1 = Ok enc /\ length enc = 3 * 1 * 1 /\
     forall off, off < 1 * 1 ->
       let nm := @registry_name squish_none 9 in
       let written := (enc.[3 * off + bluescreen_byte nm R],
                       enc.[3 * off + bluescreen_byte nm G],
                       enc.[3 * off + bluescreen_byte nm B]) in
       written =
         if decide ([1; 2; 3; 4]%Z.[4 * off + A] < 128)%Z then (0, 0, 255)%Z
         else ([1; 2; 3; 4]%Z.[4 * off + R], [1; 2; 3; 4]%Z.[4 * off + G],
               [1; 2; 3; 4]%Z.[4 * off + B])).
Proof.
  apply (@bluescreen_rule squish_none (ImageFormats.mk 9 "RGB888_BLUESCREEN") 1 1
           [1; 2; 3; 4]%Z [0; 0; 255]%Z).
  - vm_compute. split; [discriminate | reflexivity].
  - apply (bool_decide_unpack _). vm_compute. exact I.
  - vm_compute. reflexivity.
  - repeat constructor; unfold is_byte; lia.
  - repeat constructor; unfold is_byte; lia.
  - reflexivity.
  - reflexivity.
Defined.

(** * The size of the PPM header *)

Lemma string_of_uint_length d :
  String.length (NilEmpty.string_of_uint d) = Decimal.nb_digits d.
Proof. induction d; simpl; congruence. Qed.

Lemma little_succ_digits d :
  Decimal.nb_digits (Decimal.Little.succ d) <= S (Decimal.nb_digits d).
Proof. induction d; simpl; lia. Qed.

Lemma to_little_uint_digits n acc :
  Decimal.nb_digits (Nat.to_little_uint n acc) <= n + Decimal.nb_digits acc.
Proof.
  revert acc. induction n as [|n IH]; intros acc; simpl; [lia|].
  specialize (IH (Decimal.Little.succ acc)).
  pose proof (little_succ_digits acc). lia.
Qed.

Lemma fmt_u_length n : String.length (fmt_u n) <= n + 1.
Proof.
  unfold fmt_u, NilZero.string_of_uint.
  destruct (Nat.to_uint n) eqn:E; try (simpl; lia);
    rewrite <- E, string_of_uint_length; unfold Nat.to_uint;
    rewrite nb_digits_rev;
    pose proof (to_little_uint_digits n Decimal.zero); simpl in *; lia.
Qed.

Lemma string_length_app s1 s2 :
  String.length (s1 ++ s2)%string = String.length s1 + String.length s2.
Proof.
  induction s1 as [|a s1 IH]; [reflexivity|].
  change (S (String.length (s1 ++ s2)%string) = S (String.length s1 + String.length s2)).
  by rewrite IH.
Qed.

Lemma PPM_HEADER_length width height :
  String.length (PPM_HEADER width height) <= width + height + 11.
Proof.
  unfold PPM_HEADER. rewrite !string_length_app.
  pose proof (fmt_u_length width). pose proof (fmt_u_length height).
  cbn [String.length]. lia.
Qed.

Lemma length_bytes_of_string s : length (bytes_of_string s) = String.length s.
Proof.
  unfold bytes_of_string. rewrite length_fmap.
  induction s; simpl; congruence.
Qed.

Lemma get_app_l (p q : bytebuf) j : j < length p -> get (p ++ q) j = get p j.
Proof. intros. unfold get. by rewrite lookup_app_l. Qed.

Lemma get_app_r (p q : bytebuf) j : length p <= j -> get (p ++ q) j = get q (j - length p).
Proof. intros. unfold get. by rewrite lookup_app_r. Qed.

Lemma get_drop (p : bytebuf) n j : get (drop n p) j = get p (n + j).
Proof. unfold get. by rewrite lookup_drop. Qed.

Lemma length_alloc n uninit : length (PyBytes_FromStringAndSize_NULL n uninit) = n.
Proof. unfold PyBytes_FromStringAndSize_NULL. by rewrite length_fmap, length_seq. Qed.

Lemma length_sprintf buf text : length (sprintf buf text) = length buf.
Proof. apply length_inserts. Qed.

(** [sprintf] leaves the text at the start of the buffer. *)
Lemma get_sprintf buf text j :
  j < String.length text -> j < length buf ->
  get (sprintf buf text) j = get (bytes_of_string text) j.
Proof.
  intros Hj Hlen. unfold sprintf, c_str, get.
  rewrite list_lookup_inserts by (rewrite ?length_app, ?length_bytes_of_string; simpl; lia).
  rewrite Nat.sub_0_r. by rewrite lookup_app_l by (rewrite length_bytes_of_string; lia).
Qed.

Section Ppm.
Context `{CFloat}.
Context (pixels : bytebuf) (width height : nat) (uninit : nat -> Z).
Context (HW : 1 <= width) (HH : 1 <= height) (Hfit : fits_uint (3 * width * height)).

Local Abbreviation header := (PPM_HEADER width height).
Local Abbreviation hl := (String.length (PPM_HEADER width height)).

Lemma ppm_sizes :
  uint (3 * width * height) = 3 * (width * height) /\ uint hl = hl /\
  uint (width * height) = width * height.
Proof.
  pose proof (PPM_HEADER_length width height) as Hhl.
  assert (width + height <= width * height + 1) by nia.
  rewrite !uint_small; unfold fits_uint in *; lia.
Qed.

Lemma ppm_body_writes base :
  writes base 3 (fun off => [Some (to_byte pixels.[4 * off]);
                             Some (to_byte pixels.[4 * off + 1]);
                             Some (to_byte pixels.[4 * off + 2])])
    (fun off buffer =>
      let buffer := store buffer (base + 3 * off + R) pixels.[4 * off] in
      let buffer := store buffer (base + 3 * off + G) pixels.[4 * off + 1] in
      let buffer := store buffer (base + 3 * off + B) pixels.[4 * off + 2] in
      buffer).
Proof. solve_writes. Qed.

Lemma ppm_convert_from_length :
  length (ppm_convert_from hl pixels width height None uninit) = hl + 3 * (width * height).
Proof.
  destruct ppm_sizes as (Es & _ & Ec).
  unfold ppm_convert_from. cbv zeta. rewrite Es, Ec.
  rewrite (writes_fn_length _ _ _ _ _ _ (ppm_body_writes hl)).
  rewrite length_sprintf, length_alloc. lia.
Qed.

Lemma ppm_convert_from_header j :
  j < hl ->
  get (ppm_convert_from hl pixels width height None uninit) j = get (bytes_of_string header) j.
Proof.
  intros Hj. destruct ppm_sizes as (Es & _ & Ec).
  unfold ppm_convert_from. cbv zeta. rewrite Es, Ec.
  rewrite (prange_writes_fn _ 3 _ _ ltac:(lia) (ppm_body_writes hl))
    by (rewrite length_sprintf, length_alloc; lia).
  rewrite decide_False by lia.
  apply get_sprintf; [done | rewrite length_alloc; lia].
Qed.

Lemma ppm_convert_from_rgb off c :
  bytes pixels -> off < width * height -> c < 3 ->
  get (ppm_convert_from hl pixels width height None uninit) (hl + 3 * off + c) =
    pixels.[4 * off + c].
Proof.
  intros Hb Hoff Hc. destruct ppm_sizes as (Es & _ & Ec).
  unfold ppm_convert_from. cbv zeta. rewrite Es, Ec.
  rewrite (prange_writes_at _ _ _ _ _ _ _ _ (ppm_body_writes hl))
    by (rewrite ?length_sprintf, ?length_alloc; lia).
  do 3 (try destruct c as [|c]); try lia;
    cbn [lookup list_lookup mjoin option_join default from_option id];
    rewrite ?Nat.add_0_r; by rewrite to_byte_small by (by apply get_is_byte).
Qed.
End Ppm.

(** What the rest of [ppm_convert] does once [header_size] is the length
    of the header text, the value [snprintf(NULL, 0, ...)] gives: for a
    width and a height of at least 1, [3 * width * height] below 2^32 and
    a canonical buffer of [4 * width * height] bytes, and without
    background, the result is the ASCII header [P6 <width> <height> 255]
    and a newline, with both numbers in decimal, then exactly
    [3 * width * height] bytes: the R, G, B of each pixel in buffer
    order, the alpha dropped, and nothing after them. *)
Lemma ppm_convert_from_no_background `{CFloat} (pixels : bytebuf) (width height : nat)
    (uninit : nat -> Z) :
  1 <= width -> 1 <= height -> fits_uint (3 * width * height) ->
  bytes pixels -> length pixels = 4 * width * height ->
  exists rgb,
    ppm_convert_from (String.length (PPM_HEADER width height)) pixels width height None uninit =
      bytes_of_string ("P6 " ++ fmt_u width ++ " " ++ fmt_u height ++ " 255"
                         ++ String "010" EmptyString)%string ++ rgb /\
    length rgb = 3 * width * height /\
    forall off c, off < width * height -> c < 3 -> rgb.[3 * off + c] = pixels.[4 * off + c].
Proof.
  intros HW HH Hfit Hbytes Hlen.
  pose proof (ppm_convert_from_length pixels width height uninit HW HH Hfit) as Hres.
  exists (drop (String.length (PPM_HEADER width height))
            (ppm_convert_from (String.length (PPM_HEADER width height))
               pixels width height None uninit)).
  split; [|split].
  - apply bytebuf_ext.
    + rewrite length_app, length_drop, length_bytes_of_string. fold (PPM_HEADER width height). lia.
    + intros j Hj. fold (PPM_HEADER width height).
      destruct (decide (j < String.length (PPM_HEADER width height))) as [Hlt|Hge].
      * rewrite get_app_l by (by rewrite length_bytes_of_string).
        by apply ppm_convert_from_header.
      * rewrite get_app_r by (rewrite length_bytes_of_string; lia).
        rewrite get_drop, length_bytes_of_string. f_equal. lia.
  - rewrite length_drop, Hres. lia.
  - intros off c Hoff Hc. rewrite get_drop, Nat.add_assoc.
    by apply ppm_convert_from_rgb.
Qed.

(** Scenario S6 of the specification, a 3 by 2 frame, from the
    allocation on. *)
Example ppm_convert_from_S6 :
  @ppm_convert_from cfloat_none (String.length (PPM_HEADER 3 2))
    [1; 2; 3; 4; 5; 6; 7; 8; 9; 10; 11; 12; 13; 14; 15; 16; 17; 18; 19; 20; 21; 22; 23; 24]%Z
    3 2 None (fun _ => 77%Z) =
  bytes_of_string ("P6 3 2 255" ++ String "010" EmptyString)%string ++
    [1; 2; 3; 5; 6; 7; 9; 10; 11; 13; 14; 15; 17; 18; 19; 21; 22; 23]%Z.
Proof. vm_compute. reflexivity. Qed.

(** Claim C8, at the call where the code departs from it.  The claim
    describes the bytes [ppm_convert] returns.  The function takes
    [header_size] from [sprintf(NULL, PPM_HEADER, width, height)], a
    [sprintf] with the null pointer for destination where the length of
    the text was wanted: the call is undefined in C, so for no frame, no
    size and no background does [ppm_convert] come to return the header
    and the pixel bytes. *)
Theorem ppm_convert_null_destination `{CFloat} (pixels : bytebuf) (width height : nat)
    (bg : option (Z * Z * Z)) (uninit : nat -> Z) :
  ppm_convert pixels width height bg uninit = Undefined.
Proof. unfold ppm_convert, sprintf_NULL. reflexivity. Qed.

(** * Dispatch *)

(** Runs [tac] on each of the thirty tags [0 .. 29]. *)
Ltac each_tag index Hind tac :=
  let rec go n k :=
    lazymatch k with
    | O => idtac
    | S ?k' => destruct n as [|n]; [ tac | go n k' ]
    end in
  let E := fresh "E" in
  let Hn := fresh "Hn" in
  assert (exists n, index = Z.of_nat n /\ n < 30) as [n [E Hn]]
    by (exists (Z.to_nat index); unfold FORMATS_size in Hind; lia);
  subst index; clear Hind;
  go n 30; [ .. | lia ].

Lemma unimplemented_entries `{Squish} (index : Z) :
  (0 <= index < FORMATS_size)%Z ->
  (Format.load (FORMATS_at index) = NULL <-> index ∈ unimplemented_tags) /\
  (Format.save (FORMATS_at index) = NULL <-> index ∈ unimplemented_tags) /\
  (Format.name (FORMATS_at index) ∈ unimplemented_formats <-> index ∈ unimplemented_tags).
Proof.
  intros Hind. each_tag index Hind ltac:(idtac;
    match goal with
    | |- context [ FORMATS_at ?i ] =>
        first
          [ (* a tag with both codecs *)
            assert (i ∉ unimplemented_tags)
              by (apply (bool_decide_eq_false_1 _); vm_compute; reflexivity);
            split; [|split]; (split; [ | by intros ? ]);
            [ discriminate | discriminate
            | intros Hname; exfalso; revert Hname;
              apply (bool_decide_eq_false_1 _); vm_compute; reflexivity ]
          | (* a tag registered by name only *)
            assert (i ∈ unimplemented_tags)
              by (apply (bool_decide_unpack _); vm_compute; exact I);
            split; [|split]; (split; [ by intros _ | intros _ ]);
            [ reflexivity | reflexivity
            | apply (bool_decide_unpack _); vm_compute; exact I ] ]
    end).
Qed.

(** Claim C9.  For every format tag in [0, 30), [load] and [save] raise
    [NotImplementedError], with a message naming the format, exactly when
    the registry entry of the tag has no function for that direction;
    those entries are the tags 7, 24, 25, 27 and 28 (P8, RGBA16161616F,
    RGBA16161616, NONE, ATI1N) for both directions; for every other tag
    the call returns what the entry's codec computes. *)
Theorem unsupported_iff_no_codec `{Squish} (fmt : ImageFormats.t)
    (pixels data : bytebuf) (width height : nat) :
  (0 <= ImageFormats.ind fmt < FORMATS_size)%Z ->
  (* the tags without a codec are the same five for either direction *)
  (Format.load (FORMATS_at (ImageFormats.ind fmt)) = NULL
     <-> ImageFormats.ind fmt ∈ unimplemented_tags) /\
  (Format.save (FORMATS_at (ImageFormats.ind fmt)) = NULL
     <-> ImageFormats.ind fmt ∈ unimplemented_tags) /\
  (ImageFormats.ind fmt ∈ unimplemented_tags
     <-> registry_name (ImageFormats.ind fmt) ∈ unimplemented_formats) /\
  (* load and save raise for exactly those, and run the codec otherwise *)
  load fmt pixels data width height =
    match Format.load (FORMATS_at (ImageFormats.ind fmt)) with
    | Some load_fn => Ok (load_fn pixels data width height)
    | None => Raise (NotImplementedError
                       ("Loading " ++ ImageFormats.name fmt ++ " not implemented!"))
    end /\
  save fmt pixels data width height =
    match Format.save (FORMATS_at (ImageFormats.ind fmt)) with
    | Some save_fn => Ok (save_fn pixels data width height)
    | None => Raise (NotImplementedError
                       ("Saving " ++ ImageFormats.name fmt ++ " not implemented!"))
    end.
Proof.
  intros Hind.
  destruct (unimplemented_entries (ImageFormats.ind fmt) Hind) as (Hl & Hs & Hn).
  split; [done|]. split; [done|]. split; [by symmetry|].
  split; [by apply load_dispatch | by apply save_dispatch].
Qed.

Lemma unsupported_iff_no_codec_witness :
  (@Format.load (@FORMATS_at squish_none 7) = NULL <-> 7%Z ∈ unimplemented_tags) /\
  (@Format.save (@FORMATS_at squish_none 7) = NULL <-> 7%Z ∈ unimplemented_tags) /\
  (7%Z ∈ unimplemented_tags <-> @registry_name squish_none 7 ∈ unimplemented_formats) /\
  @load squish_none (ImageFormats.mk 7 "P8") [0; 0; 0; 0]%Z [0]%Z 1 1 =
    match Format.load (@FORMATS_at squish_none 7) with
    | Some load_fn => Ok (load_fn [0; 0; 0; 0]%Z [0]%Z 1 1)
    | None => Raise (NotImplementedError ("Loading " ++ "P8" ++ " not implemented!"))
    end /\
  @save squish_none (ImageFormats.mk 7 "P8") [0; 0; 0; 0]%Z [0]%Z 1 1 =
    match Format.save (@FORMATS_at squish_none 7) with
    | Some save_fn => Ok (save_fn [0; 0; 0; 0]%Z [0]%Z 1 1)
    | None => Raise (NotImplementedError ("Saving " ++ "P8" ++ " not implemented!"))
    end.
Proof.
  apply (@unsupported_iff_no_codec squish_none (ImageFormats.mk 7 "P8")
           [0; 0; 0; 0]%Z [0]%Z 1 1).
  vm_compute. split; [discriminate | reflexivity].
Defined.

(** The two directions at work: a tag without codec and one with. *)
Example load_P8_raises `{Squish} pixels data width height :
  load (ImageFormats.mk 7 "P8") pixels data width height =
    Raise (NotImplementedError "Loading P8 not implemented!").
Proof. reflexivity. Qed.

Example save_UV88_dispatches `{Squish} pixels data width height :
  save (ImageFormats.mk 22 "UV88") pixels data width height = Ok (save_uv88 pixels data width height).
Proof. reflexivity. Qed.

(** * The start-up check *)

Lemma bytes_of_string_inj s1 s2 : bytes_of_string s1 = bytes_of_string s2 -> s1 = s2.
Proof.
  unfold bytes_of_string. intros E.
  rewrite <- (string_of_list_ascii_of_string s1), <- (string_of_list_ascii_of_string s2).
  f_equal. revert E. generalize (list_ascii_of_string s1) (list_ascii_of_string s2).
  induction l as [|c1 l1 IH]; intros [|c2 l2] E; simplify_eq/=; [done|].
  f_equal; [|by apply IH].
  rewrite <- (ascii_nat_embedding c1), <- (ascii_nat_embedding c2). by f_equal.
Qed.

Lemma strcmp_refl raw : strcmp (c_str raw) (c_str raw) = 0%Z.
Proof.
  unfold c_str. induction raw as [|c raw IH]; cbn [strcmp app]; [done|].
  rewrite Z.eqb_refl. by destruct (c =? 0)%Z.
Qed.

(** On C strings without an inner NUL, [strcmp] is zero only for equal
    strings. *)
Lemma strcmp_zero raw1 raw2 :
  0%Z ∉ raw1 -> 0%Z ∉ raw2 -> strcmp (c_str raw1) (c_str raw2) = 0%Z -> raw1 = raw2.
Proof.
  unfold c_str. revert raw2.
  induction raw1 as [|c1 raw1 IH]; intros [|c2 raw2] H1 H2 E; cbn [strcmp app] in E.
  - done.
  - apply not_elem_of_cons in H2 as [Hc2 _].
    destruct (Z.eqb_spec 0 c2); [congruence | lia].
  - apply not_elem_of_cons in H1 as [Hc1 _].
    destruct (Z.eqb_spec c1 0); [congruence | lia].
  - apply not_elem_of_cons in H1 as [Hc1 H1].
    apply not_elem_of_cons in H2 as [Hc2 H2].
    destruct (Z.eqb_spec c1 c2) as [->|Hne]; [|lia].
    destruct (Z.eqb_spec c2 0); [congruence|].
    f_equal. by apply IH.
Qed.

Lemma encode_ascii_ok s raw : encode_ascii s = Ok raw -> raw = bytes_of_string s.
Proof. unfold encode_ascii. destruct (forallb _ _); congruence. Qed.

Lemma encode_ascii_ascii s :
  forallb (fun c => c <? 128)%Z (bytes_of_string s) = true ->
  encode_ascii s = Ok (bytes_of_string s).
Proof. unfold encode_ascii. by intros ->. Qed.

(** Every name of the registry is ASCII and holds no NUL. *)
Lemma registry_names `{Squish} (index : Z) :
  (0 <= index < FORMATS_size)%Z ->
  forallb (fun c => c <? 128)%Z (bytes_of_string (Format.name (FORMATS_at index))) = true /\
  nul_free (Format.name (FORMATS_at index)).
Proof.
  intros Hind. each_tag index Hind ltac:(idtac;
    split; [ vm_compute; reflexivity
           | apply (bool_decide_eq_false_1 _); vm_compute; reflexivity ]).
Qed.

(** What [init] does with one member, and then with the rest. *)
Lemma init_cons `{Squish} fmt formats :
  nul_free (ImageFormats.name fmt) ->
  (entry_matches fmt /\ init (fmt :: formats) = init formats) \/
  (~ entry_matches fmt /\ exists e, init (fmt :: formats) = Raise e).
Proof.
  intros Hnul. destruct fmt as [index name]. unfold entry_matches.
  cbn [init ImageFormats.ind ImageFormats.name].
  unfold as_int, FORMATS_size.
  destruct ((-2147483648 <=? index) && (index <=? 2147483647))%Z eqn:Eint;
    cbn [mbind result_bind]; [ | right; split; [lia | eauto] ].
  destruct ((0 <=? index) && (index <? 30))%Z eqn:Erange;
    cbn [assert mbind result_bind]; [ | right; split; [lia | eauto] ].
  assert (0 <= index < FORMATS_size)%Z as Hind by (unfold FORMATS_size; lia).
  destruct (registry_names index Hind) as [Hascii Hreg].
  destruct (encode_ascii name) as [raw|e] eqn:Eenc; cbn [mbind result_bind].
  - apply encode_ascii_ok in Eenc as ->.
    destruct (Z.eqb_spec
      (strcmp (c_str (bytes_of_string name))
              (c_str (bytes_of_string (Format.name (FORMATS_at index))))) 0) as [Ecmp|Ecmp];
      cbn [assert mbind result_bind].
    + left. split; [|done]. split; [unfold FORMATS_size; lia|].
      apply bytes_of_string_inj. by apply strcmp_zero.
    + right. split; [|eauto]. intros [_ ->]. by rewrite strcmp_refl in Ecmp.
  - right. split; [|eauto]. intros [_ ->].
    by rewrite encode_ascii_ascii in Eenc.
Qed.

Lemma init_ok_iff `{Squish} (formats : list ImageFormats.t) :
  Forall (fun fmt => nul_free (ImageFormats.name fmt)) formats ->
  (init formats = Ok tt <-> Forall entry_matches formats) /\
  ((exists e, init formats = Raise e) <-> Exists (fun fmt => ~ entry_matches fmt) formats).
Proof.
  induction 1 as [|fmt formats Hnul _ [IHok IHfail]].
  - split; split; try done.
    + intros [e He]. discriminate.
    + intros Hex. by apply Exists_nil in Hex.
  - destruct (init_cons fmt formats Hnul) as [[Hm ->]|[Hm [e ->]]].
    + split.
      * rewrite IHok. split; [by constructor | by inversion 1].
      * rewrite IHfail. split; [by right | ]. inversion 1; [done | done].
    + split.
      * split; [discriminate | by inversion 1].
      * split; [by left | eauto].
Qed.

(** Any list of registry members passes: the empty one, a partial one,
    one with repetitions. *)
Lemma init_partial `{Squish} (tags : list Z) :
  Forall (fun index => 0 <= index < FORMATS_size)%Z tags ->
  init (registry_member <$> tags) = Ok tt.
Proof.
  intros Htags.
  apply init_ok_iff.
  - apply Forall_fmap. eapply Forall_impl; [exact Htags|].
    intros index Hind. by apply registry_names.
  - apply Forall_fmap. eapply Forall_impl; [exact Htags|].
    intros index Hind. by split.
Qed.

(** Claim C10.  [init] checks the members it is given and nothing else:
    it succeeds exactly when every supplied member has an index in
    [0, 30) and the name the registry holds at that index, it raises
    exactly when some supplied member has not, and so it succeeds on the
    empty enumeration and on any part of the registry's own enumeration.
    The names compared are C strings: the statement is for supplied
    names without a NUL character. *)
Theorem init_checks_supplied_entries `{Squish} (formats : list ImageFormats.t) :
  Forall (fun fmt => nul_free (ImageFormats.name fmt)) formats ->
  (* success: every supplied member agrees with the registry *)
  (init formats = Ok tt <-> Forall entry_matches formats) /\
  (* failure: some supplied member does not *)
  ((exists e, init formats = Raise e) <->
     Exists (fun fmt => ~ (0 <= ImageFormats.ind fmt < FORMATS_size)%Z \/
                        ImageFormats.name fmt <> registry_name (ImageFormats.ind fmt))
            formats) /\
  (* no coverage check: the empty enumeration and any part of the
     registry's own enumeration pass *)
  init [] = Ok tt /\
  (forall tags, Forall (fun index => 0 <= index < FORMATS_size)%Z tags ->
                init (registry_member <$> tags) = Ok tt).
Proof.
  intros Hnul. destruct (init_ok_iff formats Hnul) as [Hok Hfail].
  split; [done|]. split; [|split; [done | apply init_partial]].
  rewrite Hfail, !Exists_exists. unfold entry_matches, registry_name.
  split; intros (fmt & Hin & Hfmt); exists fmt; (split; [done|]).
  - destruct (decide (0 <= ImageFormats.ind fmt < FORMATS_size)%Z); [|by left].
    right. intros Hname. by apply Hfmt.
  - destruct Hfmt as [Hout|Hne]; intros [Hind Hname]; [by apply Hout | by apply Hne].
Qed.

Lemma init_checks_supplied_entries_witness :
  (@init squish_none [ImageFormats.mk 0 "RGBA8888"; ImageFormats.mk 29 "ATI2N"] = Ok tt <->
     Forall (@entry_matches squish_none)
       [ImageFormats.mk 0 "RGBA8888"; ImageFormats.mk 29 "ATI2N"]) /\
  ((exists e, @init squish_none
                [ImageFormats.mk 0 "RGBA8888"; ImageFormats.mk 29 "ATI2N"] = Raise e) <->
     Exists (fun fmt => ~ (0 <= ImageFormats.ind fmt < FORMATS_size)%Z \/
                        ImageFormats.name fmt <> @registry_name squish_none (ImageFormats.ind fmt))
            [ImageFormats.mk 0 "RGBA8888"; ImageFormats.mk 29 "ATI2N"]) /\
  @init squish_none [] = Ok tt /\
  (forall tags, Forall (fun index => 0 <= index < FORMATS_size)%Z tags ->
                @init squish_none (@registry_member squish_none <$> tags) = Ok tt).
Proof.
  apply (@init_checks_supplied_entries squish_none
           [ImageFormats.mk 0 "RGBA8888"; ImageFormats.mk 29 "ATI2N"]).
  repeat constructor; apply (bool_decide_eq_false_1 _); vm_compute; reflexivity.
Defined.

(** The check at work. *)
Example init_empty `{Squish} : init [] = Ok tt.
Proof. reflexivity. Qed.

Example init_two_members `{Squish} :
  init [ImageFormats.mk 12 "BGRA8888"; ImageFormats.mk 7 "P8"] = Ok tt.
Proof. vm_compute. reflexivity. Qed.

Example init_wrong_name `{Squish} :
  init [ImageFormats.mk 12 "BGRA8888"; ImageFormats.mk 7 "A8"] = Raise AssertionError.
Proof. vm_compute. reflexivity. Qed.

Example init_index_out_of_range `{Squish} :
  init [ImageFormats.mk 30 "ATI2N"] = Raise AssertionError.
Proof. vm_compute. reflexivity. Qed.

(** * Where the packed savers and loaders disagree *)

(** What [compress565] packs, [decomp565] unpacks with the two five bit
    channels exchanged. *)
Lemma decomp565_compress565_swap :
  let packed := compress565 255 0 0 in
  packed = (0, 248)%Z /\
  decomp565 (fst packed) (snd packed) = {| RGB.r := 0; RGB.g := 0; RGB.b := 255 |}.
Proof. split; vm_compute; reflexivity. Qed.

(** Claim C2, at the inputs where the code departs from it.  A 1 by 1
    frame with A = 255 comes back from [save] then [load] in BGRA5551
    with alpha 0, and one with A = 0 and G = 2 comes back with alpha 255:
    [save_bgra5551] stores the alpha bit in bit 0 of the second byte and
    bit 1 of green in bit 7, and [load_bgra5551] reads alpha from bit 7. *)
Theorem bgra5551_alpha_from_green_bit `{Squish} :
  let fmt := ImageFormats.mk 21 "BGRA5551" in
  save fmt [0; 0; 0; 255]%Z [0; 0]%Z 1 1 = Ok [0; 1]%Z /\
  save_then_load fmt 2 [0; 0; 0; 255]%Z 1 1 = Ok [0; 66; 0; 0]%Z /\
  save fmt [0; 2; 0; 0]%Z [0; 0]%Z 1 1 = Ok [0; 128]%Z /\
  save_then_load fmt 2 [0; 2; 0; 0]%Z 1 1 = Ok [0; 0; 0; 255]%Z.
Proof. repeat split; vm_compute; reflexivity. Qed.

(** Claim C3, at the inputs where the code departs from it.  [save] then
    [load] exchanges red and blue in RGB565 and BGR565, so a second pass
    undoes the first instead of repeating it; in the 5551 formats the
    second pass differs from the first as well, and the reconstructed
    blue of BGRX5551 falls from 198 to 0 when the blue input rises from
    24 to 32. *)
Theorem packed_round_trip_not_idempotent `{Squish} :
  let rgb565 := ImageFormats.mk 4 "RGB565" in
  let bgr565 := ImageFormats.mk 17 "BGR565" in
  let bgrx5551 := ImageFormats.mk 18 "BGRX5551" in
  let bgra5551 := ImageFormats.mk 21 "BGRA5551" in
  (* once and twice through RGB565 and BGR565: red and blue change places *)
  save_then_load rgb565 2 [255; 0; 0; 255]%Z 1 1 = Ok [0; 0; 255; 255]%Z /\
  save_then_load rgb565 2 [0; 0; 255; 255]%Z 1 1 = Ok [255; 0; 0; 255]%Z /\
  save_then_load bgr565 2 [255; 0; 0; 255]%Z 1 1 = Ok [0; 0; 255; 255]%Z /\
  save_then_load bgr565 2 [0; 0; 255; 255]%Z 1 1 = Ok [255; 0; 0; 255]%Z /\
  (* once and twice through the 5551 formats *)
  save_then_load bgrx5551 2 [255; 0; 0; 255]%Z 1 1 = Ok [123; 132; 0; 255]%Z /\
  save_then_load bgrx5551 2 [123; 132; 0; 255]%Z 1 1 = Ok [57; 132; 33; 255]%Z /\
  save_then_load bgra5551 2 [255; 0; 0; 255]%Z 1 1 = Ok [123; 198; 0; 0]%Z /\
  save_then_load bgra5551 2 [123; 198; 0; 0]%Z 1 1 = Ok [57; 132; 49; 255]%Z /\
  (* a larger blue input reconstructed as a smaller blue *)
  save_then_load bgrx5551 2 [0; 0; 24; 255]%Z 1 1 = Ok [0; 0; 198; 255]%Z /\
  save_then_load bgrx5551 2 [0; 0; 32; 255]%Z 1 1 = Ok [0; 8; 0; 255]%Z.
Proof. repeat split; vm_compute; reflexivity. Qed.

(** Claim C4, at the inputs where the code departs from it.  For each
    block-compressed format and a frame below four pixels in a dimension,
    [save] leaves the encoded buffer as it was, as claimed; [load] writes
    R = G = 0 and B = 255 and leaves the alpha byte untouched, where the
    claim has R = G = B = 0 and A = 255: the fourth store of the loop
    goes to offset 2 a second time. *)
Theorem block_small_frame_load `{Squish} :
  let block_formats :=
    [ImageFormats.mk 13 "DXT1"; ImageFormats.mk 20 "DXT1_ONEBITALPHA";
     ImageFormats.mk 14 "DXT3"; ImageFormats.mk 15 "DXT5"; ImageFormats.mk 29 "ATI2N"] in
  Forall (fun fmt =>
    load fmt [7; 7; 7; 7]%Z [] 1 1 = Ok [0; 0; 255; 7]%Z /\
    load fmt (fresh 24) [] 3 2 =
      Ok [0; 0; 255; 0; 0; 0; 255; 0; 0; 0; 255; 0;
          0; 0; 255; 0; 0; 0; 255; 0; 0; 0; 255; 0]%Z /\
    save fmt [1; 2; 3; 4]%Z [9; 9]%Z 1 1 = Ok [9; 9]%Z) block_formats.
Proof. repeat constructor; vm_compute; reflexivity. Qed.

(** Claim C5, at the inputs where the code departs from it.  [load] in
    format A8 sets the alpha byte of every pixel to its source byte, but
    its [memset] clears [width * height] bytes, not [4 * width * height]: colour bytes
    past the first quarter of the buffer keep what the destination
    held. *)
Theorem load_a8_partial_clear `{Squish} :
  let fmt := ImageFormats.mk 8 "A8" in
  load fmt [9; 9; 9; 9]%Z [5]%Z 1 1 = Ok [0; 9; 9; 5]%Z /\
  load fmt [9; 9; 9; 9; 9; 9; 9; 9]%Z [5; 6]%Z 2 1 = Ok [0; 0; 9; 5; 9; 9; 9; 6]%Z.
Proof. split; vm_compute; reflexivity. Qed.

(** * What the defective paths do on every frame *)

Section BlockSmall.
Context `{Squish}.
Context (pixels data : bytebuf) (width height : nat).
Context (Hsmall : width < 4 \/ height < 4).

Local Lemma small_test : (width <? 4) || (height <? 4) = true.
Proof. destruct (Nat.ltb_spec width 4), (Nat.ltb_spec height 4); simpl; try done; lia. Qed.

Local Lemma large_test : (4 <=? width) && (4 <=? height) = false.
Proof. destruct (Nat.leb_spec 4 width), (Nat.leb_spec 4 height); simpl; try done; lia. Qed.

Ltac small_load_at f off :=
  intros; unfold f; rewrite small_test, uint_small by assumption;
  apply (prange_writes_at0 4 (fun _ => [Some 0%Z; Some 0%Z; Some 255%Z; None]));
  [ solve_writes | lia .. ].

(** Below four pixels a loader writes R = G = 0 and B = 255, and leaves
    the alpha byte as it found it. *)
Lemma load_dxt1_small_at off c :
  fits_uint (width * height) -> off < width * height -> c < 4 -> 4 * (width * height) <= length pixels ->
  get (load_dxt1 pixels data width height) (4 * off + c) =
    default pixels.[4 * off + c] (mjoin ([Some 0%Z; Some 0%Z; Some 255%Z; None] !! c)).
Proof. small_load_at @load_dxt1 off. Qed.

Lemma load_dxt1_alpha_small_at off c :
  fits_uint (width * height) -> off < width * height -> c < 4 -> 4 * (width * height) <= length pixels ->
  get (load_dxt1_alpha pixels data width height) (4 * off + c) =
    default pixels.[4 * off + c] (mjoin ([Some 0%Z; Some 0%Z; Some 255%Z; None] !! c)).
Proof. small_load_at @load_dxt1_alpha off. Qed.

Lemma load_dxt5_small_at off c :
  fits_uint (width * height) -> off < width * height -> c < 4 -> 4 * (width * height) <= length pixels ->
  get (load_dxt5 pixels data width height) (4 * off + c) =
    default pixels.[4 * off + c] (mjoin ([Some 0%Z; Some 0%Z; Some 255%Z; None] !! c)).
Proof. small_load_at @load_dxt5 off. Qed.

Lemma load_ati2n_small_at off c :
  fits_uint (width * height) -> off < width * height -> c < 4 -> 4 * (width * height) <= length pixels ->
  get (load_ati2n pixels data width height) (4 * off + c) =
    default pixels.[4 * off + c] (mjoin ([Some 0%Z; Some 0%Z; Some 255%Z; None] !! c)).
Proof. small_load_at @load_ati2n off. Qed.

Lemma load_dxt3_small_at off c :
  fits_uint (4 * (width * height)) -> off < width * height -> c < 4 -> 4 * (width * height) <= length pixels ->
  get (load_dxt3 pixels data width height) (4 * off + c) =
    default pixels.[4 * off + c] (mjoin ([Some 0%Z; Some 0%Z; Some 255%Z; None] !! c)).
Proof.
  intros Hfit Hoff Hc Hlen. unfold load_dxt3, range_step. rewrite small_test.
  replace (4 * width * height) with (4 * (width * height)) by lia. rewrite uint_small by done.
  replace ((4 * (width * height) + 4 - 1) / 4) with (width * height) by lia.
  apply (prange_writes_at0 4 (fun _ => [Some 0%Z; Some 0%Z; Some 255%Z; None]));
    [ solve_writes | lia .. ].
Qed.

(** Below four pixels a saver writes nothing. *)
Lemma save_block_small :
  save_dxt1 pixels data width height = data /\ save_dxt1_alpha pixels data width height = data /\
  save_dxt3 pixels data width height = data /\ save_dxt5 pixels data width height = data /\
  save_ati2n pixels data width height = data.
Proof.
  unfold save_dxt1, save_dxt1_alpha, save_dxt3, save_dxt5, save_ati2n.
  by rewrite large_test.
Qed.
End BlockSmall.

Lemma land_bit7 x : Z.land x 128 = if Z.testbit x 7 then 128%Z else 0%Z.
Proof.
  apply Z.bits_inj'. intros i Hi. rewrite Z.land_spec.
  change 128%Z with (2 ^ 7)%Z at 1. rewrite Z.pow2_bits_eqb by lia.
  destruct (Z.eqb_spec 7 i) as [<-|Hne].
  - rewrite andb_true_r. destruct (Z.testbit x 7) eqn:E; [|by rewrite Z.bits_0].
    change 128%Z with (2 ^ 7)%Z. by rewrite Z.pow2_bits_eqb, Z.eqb_refl by lia.
  - rewrite andb_false_r. destruct (Z.testbit x 7); [|by rewrite Z.bits_0].
    change 128%Z with (2 ^ 7)%Z. rewrite Z.pow2_bits_eqb by lia.
    symmetry. by apply Z.eqb_neq.
Qed.

(** Bit 7 of the second byte [save_bgra5551] stores is bit 1 of green. *)
Lemma bgra5551_saved_bit7 r g a :
  is_byte r -> is_byte g -> is_byte a ->
  Z.testbit (to_byte (to_byte (((g << 6) & 192) .| ((r >> 2) & 62) .| (a >> 7)))) 7 =
    Z.testbit g 1.
Proof.
  intros Hr Hg Ha. rewrite to_byte_idem. unfold to_byte.
  change 256%Z with (2 ^ 8)%Z. rewrite Z.mod_pow2_bits_low by lia.
  rewrite !Z.lor_spec, !Z.land_spec, Z.shiftl_spec, !Z.shiftr_spec by lia.
  change (7 - 6)%Z with 1%Z. change (7 + 7)%Z with 14%Z.
  change (Z.testbit 192 7) with true. change (Z.testbit 62 7) with false.
  assert (Z.testbit a 14 = false) as ->.
  { destruct (Z.eq_dec a 0%Z) as [->|]; [apply Z.bits_0|].
    apply Z.bits_above_log2; [unfold is_byte in Ha; lia|].
    assert (Z.log2 a < 8)%Z by (apply Z.log2_lt_pow2; unfold is_byte in Ha; lia). lia. }
  by destruct (Z.testbit g 1), (Z.testbit r (7 + 2)).
Qed.

Section Bgra5551.
Context (pixels data : bytebuf) (width height : nat).

Lemma save_bgra5551_length : length (save_bgra5551 pixels data width height) = length data.
Proof. codec_length save_bgra5551. Qed.

Lemma save_bgra5551_at off c :
  fits_uint (width * height) -> off < width * height -> c < 2 -> 2 * (width * height) <= length data ->
  get (save_bgra5551 pixels data width height) (2 * off + c) =
    default data.[2 * off + c]
      (mjoin ([Some (to_byte ((to_byte pixels.[4 * off + B] & 248) .|
                              (to_byte pixels.[4 * off + G] >> 5)));
               Some (to_byte (((to_byte pixels.[4 * off + G] << 6) & 192) .|
                              ((to_byte pixels.[4 * off + R] >> 2) & 62) .|
                              (to_byte pixels.[4 * off + A] >> 7)))] !! c)).
Proof. codec_at save_bgra5551 off. Qed.

Lemma load_bgra5551_alpha_at off :
  fits_uint (width * height) -> off < width * height -> 4 * (width * height) <= length pixels ->
  get (load_bgra5551 pixels data width height) (4 * off + A) =
    if (to_byte data.[2 * off + 1] & 128 =? 0)%Z then 0%Z else 255%Z.
Proof.
  intros Hfit Hoff Hlen. unfold load_bgra5551. rewrite uint_small by done.
  rewrite (prange_writes_at0 4 (fun off =>
    [Some (to_byte (upsample 5 ((to_byte data.[2 * off + 1] & 124) << 1)));
     Some (to_byte (upsample 5 (((to_byte data.[2 * off] & 224) >> 2) .|
                                ((to_byte data.[2 * off + 1] & 3) << 6))));
     Some (to_byte (upsample 5 ((to_byte data.[2 * off] & 31) << 3)));
     Some (to_byte (if (to_byte data.[2 * off + 1] & 128 =? 0)%Z then 0%Z else 255%Z))]));
    [ | solve_writes | lia | unfold A; lia | unfold A; lia ].
  cbn [A lookup list_lookup mjoin option_join default from_option id].
  by destruct (_ =? 0)%Z.
Qed.
End Bgra5551.

(** After [save_bgra5551] and [load_bgra5551] the alpha of a pixel is
    decided by bit 1 of its green input, whatever its alpha was. *)
Lemma bgra5551_alpha_round_trip pixels data0 dest width height off :
  fits_uint (width * height) -> bytes pixels ->
  length data0 = 2 * (width * height) -> length dest = 4 * (width * height) -> off < width * height ->
  get (load_bgra5551 dest (save_bgra5551 pixels data0 width height) width height) (4 * off + A) =
    if Z.testbit pixels.[4 * off + G] 1 then 255%Z else 0%Z.
Proof.
  intros Hfit Hbytes Hdata Hdest Hoff.
  rewrite load_bgra5551_alpha_at by (done || lia).
  rewrite save_bgra5551_at by (done || lia).
  cbn [lookup list_lookup mjoin option_join default from_option id].
  rewrite !(to_byte_small (get pixels _)) by (by apply get_is_byte).
  rewrite land_bit7, bgra5551_saved_bit7 by (by apply get_is_byte).
  by destruct (Z.testbit _ 1).
Qed.

(** * BGRA4444, the packed format whose two directions agree *)

(** The two nibbles of a stored byte, unpacked again; checked on all
    pairs of bytes. *)
Lemma nibbles_unpacked hi lo :
  is_byte hi -> is_byte lo ->
  let packed := to_byte (to_byte ((hi & 240) .| (lo >> 4))) in
  to_byte ((packed & 240) .| ((packed & 240) >> 4)) = nibble_quantise hi /\
  to_byte ((packed & 15) .| ((packed & 15) << 4)) = nibble_quantise lo.
Proof.
  intros Hhi Hlo.
  assert (forallb (fun hi => forallb (fun lo =>
            let packed := to_byte (to_byte ((hi & 240) .| (lo >> 4))) in
            (to_byte ((packed & 240) .| ((packed & 240) >> 4)) =? nibble_quantise hi)%Z &&
            (to_byte ((packed & 15) .| ((packed & 15) << 4)) =? nibble_quantise lo)%Z)
            (seqZ 0 256)) (seqZ 0 256) = true) as Hall by (vm_compute; reflexivity).
  rewrite forallb_forall in Hall.
  specialize (Hall hi). rewrite forallb_forall in Hall.
  assert (forall v, is_byte v -> In v (seqZ 0 256)) as Hin.
  { intros v Hv. apply list_elem_of_In, elem_of_seqZ. unfold is_byte in Hv. lia. }
  specialize (Hall (Hin hi Hhi) lo (Hin lo Hlo)). cbv zeta in Hall.
  apply andb_prop in Hall as [E1 E2]. split; by apply Z.eqb_eq.
Qed.

Section Bgra4444.
Context (pixels data : bytebuf) (width height : nat).

Lemma save_bgra4444_length : length (save_bgra4444 pixels data width height) = length data.
Proof. codec_length save_bgra4444. Qed.

Lemma save_bgra4444_at off c :
  fits_uint (width * height) -> off < width * height -> c < 2 ->
  2 * (width * height) <= length data ->
  get (save_bgra4444 pixels data width height) (2 * off + c) =
    default data.[2 * off + c]
      (mjoin ([Some (to_byte ((pixels.[4 * off + G] & 240) .| (pixels.[4 * off + B] >> 4)));
               Some (to_byte ((pixels.[4 * off + A] & 240) .| (pixels.[4 * off + R] >> 4)))]
              !! c)).
Proof. codec_at save_bgra4444 off. Qed.

Lemma load_bgra4444_length : length (load_bgra4444 pixels data width height) = length pixels.
Proof. codec_length load_bgra4444. Qed.

Lemma load_bgra4444_at off c :
  fits_uint (width * height) -> off < width * height -> c < 4 ->
  4 * (width * height) <= length pixels ->
  get (load_bgra4444 pixels data width height) (4 * off + c) =
    default pixels.[4 * off + c]
      (mjoin ([Some (to_byte ((to_byte data.[2 * off + 1] & 15) .|
                              ((to_byte data.[2 * off + 1] & 15) << 4)));
               Some (to_byte ((to_byte data.[2 * off + 0] & 240) .|
                              ((to_byte data.[2 * off + 0] & 240) >> 4)));
               Some (to_byte ((to_byte data.[2 * off + 0] & 15) .|
                              ((to_byte data.[2 * off + 0] & 15) << 4)));
               Some (to_byte ((to_byte data.[2 * off + 1] & 240) .|
                              ((to_byte data.[2 * off + 1] & 240) >> 4)))] !! c)).
Proof. codec_at load_bgra4444 off. Qed.
End Bgra4444.

(** [save] then [load] in BGRA4444 quantises every channel of every pixel
    by itself. *)
Lemma bgra4444_round_trip_at pixels data0 dest width height off c :
  fits_uint (width * height) -> bytes pixels ->
  length data0 = 2 * (width * height) -> length dest = 4 * (width * height) ->
  off < width * height -> c < 4 ->
  get (load_bgra4444 dest (save_bgra4444 pixels data0 width height) width height)
      (4 * off + c) = nibble_quantise pixels.[4 * off + c].
Proof.
  intros Hfit Hbytes Hdata Hdest Hoff Hc.
  rewrite load_bgra4444_at by (done || lia).
  pose proof (nibbles_unpacked pixels.[4 * off + G] pixels.[4 * off + B]
                (get_is_byte _ _ Hbytes) (get_is_byte _ _ Hbytes)) as [HG HB].
  pose proof (nibbles_unpacked pixels.[4 * off + A] pixels.[4 * off + R]
                (get_is_byte _ _ Hbytes) (get_is_byte _ _ Hbytes)) as [HA HR].
  cbv zeta in *. unfold R, G, B, A in *.
  do 4 (try destruct c as [|c]); [ .. | lia ];
    cbn [lookup list_lookup mjoin option_join default from_option id];
    rewrite save_bgra4444_at by (done || lia);
    cbn [lookup list_lookup mjoin option_join default from_option id];
    rewrite ?Nat.add_0_r in *; assumption.
Qed.

(** The quantiser is monotone and a second application changes nothing. *)
Lemma nibble_quantise_monotone u v :
  (u <= v)%Z -> (nibble_quantise u <= nibble_quantise v)%Z.
Proof. unfold nibble_quantise. lia. Qed.

Lemma nibble_quantise_idempotent v :
  is_byte v -> nibble_quantise (nibble_quantise v) = nibble_quantise v.
Proof. unfold nibble_quantise, is_byte. lia. Qed.

(** * Frames whose size the C [unsigned int] cannot hold *)

Lemma wrap_side_pos : 1 <= wrap_side.
Proof. exact (Pos2Nat.is_pos 65536). Qed.

Lemma uint_wrap_side (k : nat) : uint (k * wrap_side * wrap_side) = 0.
Proof.
  unfold uint. rewrite !Nat2N.inj_mul. unfold wrap_side. rewrite N2Nat.id.
  rewrite <- N.mul_assoc. change (65536 * 65536)%N with (1 * 4294967296)%N.
  rewrite N.mul_assoc, N.Div0.mod_mul. reflexivity.
Qed.

Lemma wrap_side_sizes :
  uint (wrap_side * wrap_side) = 0 /\ uint (3 * wrap_side * wrap_side) = 0 /\
  uint (4 * wrap_side * wrap_side) = 0 /\ 1 <= wrap_side /\ 0 < wrap_side * wrap_side.
Proof.
  pose proof wrap_side_pos as Hside.
  split; [|split; [|split; [|split]]].
  - rewrite <- (Nat.mul_1_l wrap_side) at 1. apply uint_wrap_side.
  - apply uint_wrap_side.
  - apply uint_wrap_side.
  - exact Hside.
  - apply Nat.mul_pos_pos; exact Hside.
Qed.

Lemma get_filled n v j : j < n -> get (filled n v) j = v.
Proof. intros. unfold get, filled. by rewrite lookup_replicate_2. Qed.

Lemma bytes_filled n v : is_byte v -> bytes (filled n v).
Proof. intros. by apply Forall_replicate. Qed.

Lemma length_filled n v : length (filled n v) = n.
Proof. apply length_replicate. Qed.

Section Wrapped.
Context `{Squish}.
Context (pixels data : bytebuf) (width height : nat).

(** With a byte count that wraps to zero the copying codecs copy nothing. *)
Lemma rgba8888_wrapped :
  uint (4 * width * height) = 0 ->
  save (ImageFormats.mk 0 "RGBA8888") pixels data width height = Ok data /\
  load (ImageFormats.mk 0 "RGBA8888") pixels data width height = Ok pixels.
Proof.
  intros Hwrap. split.
  - change (save (ImageFormats.mk 0 "RGBA8888") pixels data width height)
      with (Ok (memcpy data pixels (uint (4 * width * height)))).
    by rewrite Hwrap.
  - change (load (ImageFormats.mk 0 "RGBA8888") pixels data width height)
      with (Ok (memcpy pixels data (uint (4 * width * height)))).
    by rewrite Hwrap.
Qed.

(** With a pixel count that wraps to zero the loops do not run. *)
Lemma rgb888_bluescreen_wrapped :
  uint (width * height) = 0 ->
  load (ImageFormats.mk 9 "RGB888_BLUESCREEN") pixels data width height = Ok pixels.
Proof.
  intros Hwrap.
  change (load (ImageFormats.mk 9 "RGB888_BLUESCREEN") pixels data width height)
    with (Ok (load_rgb888_bluescreen pixels data width height)).
  unfold load_rgb888_bluescreen. by rewrite Hwrap.
Qed.
End Wrapped.

Lemma wrap_count_ge (k : nat) : k <= k * wrap_side * wrap_side.
Proof.
  pose proof wrap_side_pos as Hside.
  rewrite <- Nat.mul_assoc. rewrite <- (Nat.mul_1_r k) at 1.
  apply Nat.mul_le_mono_l. change 1 with (1 * 1). by apply Nat.mul_le_mono.
Qed.

Lemma fresh_not_filled n v : 0 < n -> v <> 0%Z -> fresh n <> filled n v.
Proof.
  intros Hn Hv E. apply (f_equal (fun buf => get buf 0)) in E.
  unfold fresh in E. rewrite get_replicate_0, get_filled in E by done. by symmetry in E.
Qed.

Lemma pixel_at_filled n v : 4 <= n -> pixel_at (filled n v) 0 = (v, v, v, v).
Proof. intros. unfold pixel_at, R, G, B, A. by rewrite !get_filled by lia. Qed.

Lemma filled_not_pure_blue n : 3 <= n ->
  ~ is_pure_blue (filled n 0).[0] (filled n 0).[1] (filled n 0).[2].
Proof. intros. rewrite !get_filled by lia. unfold is_pure_blue. lia. Qed.

(** Against claim C1 as stated.  An RGBA8888 frame of 65536 by 65536
    pixels, every byte 255, meets the premises of the claim; the byte
    count [4 * width * height] wraps to zero, so [save] writes nothing
    and [load] leaves the new destination as allocated, which is not
    the frame. *)
Lemma lossless_round_trip_wraps :
  (1 <= wrap_side /\
   bytes (filled (4 * wrap_side * wrap_side) 255) /\
   length (filled (4 * wrap_side * wrap_side) 255) = 4 * wrap_side * wrap_side /\
   length (filled (4 * wrap_side * wrap_side) 0) = 4 * wrap_side * wrap_side) /\
  @save squish_none (ImageFormats.mk 0 "RGBA8888")
    (filled (4 * wrap_side * wrap_side) 255) (filled (4 * wrap_side * wrap_side) 0)
    wrap_side wrap_side = Ok (filled (4 * wrap_side * wrap_side) 0) /\
  @load squish_none (ImageFormats.mk 0 "RGBA8888")
    (fresh (4 * wrap_side * wrap_side)) (filled (4 * wrap_side * wrap_side) 0)
    wrap_side wrap_side = Ok (fresh (4 * wrap_side * wrap_side)) /\
  fresh (4 * wrap_side * wrap_side) <> filled (4 * wrap_side * wrap_side) 255.
Proof.
  pose proof (uint_wrap_side 4) as Hwrap. pose proof wrap_side_pos as Hside.
  pose proof (wrap_count_ge 4) as Hn.
  split; [|split; [|split]].
  - split; [exact Hside|]. split; [apply bytes_filled; unfold is_byte; lia|].
    split; apply length_filled.
  - exact (proj1 (@rgba8888_wrapped squish_none _ _ _ _ Hwrap)).
  - exact (proj2 (@rgba8888_wrapped squish_none _ _ _ _ Hwrap)).
  - apply fresh_not_filled; [lia | discriminate].
Qed.

(** Against claim C6 as stated.  In an RGB888_BLUESCREEN frame of 65536
    by 65536 pixels the pixel count wraps to zero and [load] writes
    nothing: source pixel 0 is (0, 0, 0), not pure blue, and its
    canonical bytes stay what the destination held, here (7, 7, 7, 7). *)
Lemma bluescreen_rule_wraps :
  (0 < wrap_side * wrap_side /\
   bytes (filled (4 * wrap_side * wrap_side) 7) /\
   bytes (filled (3 * wrap_side * wrap_side) 0) /\
   length (filled (4 * wrap_side * wrap_side) 7) = 4 * wrap_side * wrap_side /\
   length (filled (3 * wrap_side * wrap_side) 0) = 3 * wrap_side * wrap_side) /\
  @load squish_none (ImageFormats.mk 9 "RGB888_BLUESCREEN")
    (filled (4 * wrap_side * wrap_side) 7) (filled (3 * wrap_side * wrap_side) 0)
    wrap_side wrap_side = Ok (filled (4 * wrap_side * wrap_side) 7) /\
  ~ is_pure_blue (filled (3 * wrap_side * wrap_side) 0).[0]
                 (filled (3 * wrap_side * wrap_side) 0).[1]
                 (filled (3 * wrap_side * wrap_side) 0).[2] /\
  pixel_at (filled (4 * wrap_side * wrap_side) 7) 0 = (7, 7, 7, 7)%Z.
Proof.
  pose proof wrap_side_sizes as (Hwrap & _ & _ & Hside & Hcount).
  pose proof (wrap_count_ge 4) as Hn4. pose proof (wrap_count_ge 3) as Hn3.
  split; [|split; [|split]].
  - split; [exact Hcount|]. split; [apply bytes_filled; unfold is_byte; lia|].
    split; [apply bytes_filled; unfold is_byte; lia|]. split; apply length_filled.
  - exact (@rgb888_bluescreen_wrapped squish_none _ _ _ _ Hwrap).
  - apply filled_not_pure_blue; exact Hn3.
  - apply pixel_at_filled; exact Hn4.
Qed.

(** * Names with a NUL *)

(** Against claim C10 as stated.  A supplied name that goes on after a
    NUL differs from the registry's name, and [init] accepts it: [strcmp]
    reads both arguments up to their first NUL. *)
Lemma init_accepts_name_after_nul :
  @init squish_none [ImageFormats.mk 8 ("A8" ++ String "000" "x")%string] = Ok tt /\
  (0 <= 8 < FORMATS_size)%Z /\
  ("A8" ++ String "000" "x")%string <> @registry_name squish_none 8.
Proof.
  split; [vm_compute; reflexivity|]. split; [unfold FORMATS_size; lia|].
  vm_compute. discriminate.
Qed.

(** * Loops and the cells they leave alone *)

Lemma prange_writes_fn_outside base k g body n p j :
  writes_fn base k g body -> j < length p -> ~ (base <= j < base + k * n) ->
  get (prange n body p) j = get p j.
Proof.
  intros Hw Hj. induction n as [|n IH]; intros Hout; simpl; [done|].
  destruct (Hw n (prange n body p)) as [_ Hget].
  rewrite Hget by (by rewrite (writes_fn_length base k g)).
  rewrite decide_False by lia. apply IH. lia.
Qed.

(** * The walk of [scale_down] *)

Section FrameWalk.
Context (width : nat) (val : nat -> nat -> nat -> Z).

Local Abbreviation walk_pixel := (fun y x dest =>
  range 4 (fun channel dest =>
    store dest (4 * (width * y + x) + channel) (val y x channel)) dest).

Lemma walk_pixel_writes y :
  writes_fn (4 * (width * y)) 4 (fun x c => Some (to_byte (val y x c))) (walk_pixel y).
Proof.
  intros x p. unfold range. cbn [prange]. split.
  - by rewrite !length_store.
  - intros j Hj. rewrite !get_store by (rewrite ?length_store; exact Hj).
    destruct (decide (4 * (width * y) + 4 * x <= j < 4 * (width * y) + 4 * x + 4)) as [Hin|Hout].
    + remember (j - (4 * (width * y) + 4 * x)) as c eqn:Hc.
      do 4 (destruct c as [|c]; [ repeat case_decide; first [ lia | reflexivity ] | ]).
      lia.
    + repeat case_decide; first [ lia | reflexivity ].
Qed.

Lemma walk_row_writes :
  writes_fn 0 (4 * width) (fun y c => Some (to_byte (val y (c / 4) (c mod 4))))
    (fun y dest => range width (walk_pixel y) dest).
Proof.
  intros y p. unfold range at 1. split.
  - apply (writes_fn_length _ _ _ _ _ _ (walk_pixel_writes y)).
  - intros j Hj.
    rewrite (prange_writes_fn _ 4 _ _ ltac:(lia) (walk_pixel_writes y)) by done.
    replace (0 + 4 * width * y) with (4 * (width * y)) by lia.
    by destruct (decide (4 * (width * y) <= j < 4 * (width * y) + 4 * width)).
Qed.

Lemma frame_walk_length height dest :
  length (frame_walk width height val dest) = length dest.
Proof. apply (writes_fn_length _ _ _ _ _ _ walk_row_writes). Qed.

Lemma frame_walk_at height dest x y c :
  x < width -> y < height -> c < 4 -> 4 * (width * height) <= length dest ->
  get (frame_walk width height val dest) (4 * (width * y + x) + c) = to_byte (val y x c).
Proof.
  intros Hx Hy Hc Hlen. unfold frame_walk.
  replace (4 * (width * y + x) + c) with (0 + 4 * width * y + (4 * x + c)) by lia.
  rewrite (prange_writes_fn_at _ _ _ _ _ _ _ _ walk_row_writes) by (lia || nia).
  cbn [default from_option id].
  replace ((4 * x + c) / 4) with x by lia.
  replace ((4 * x + c) mod 4) with c by lia. done.
Qed.

Lemma frame_walk_outside height dest j :
  4 * (width * height) <= j ->
  get (frame_walk width height val dest) j = get dest j.
Proof.
  intros Hj. destruct (decide (j < length dest)) as [Hlt|Hge].
  - apply (prange_writes_fn_outside _ _ _ _ _ _ _ walk_row_writes); [done | lia].
  - rewrite !get_ge; [done | lia | rewrite frame_walk_length; lia].
Qed.
End FrameWalk.

(** [scale_down] as one walk, for each accepted filter value. *)
Lemma scale_down_walk filt src_width src_height width height src dest :
  (0 <= FilterMode.value filt <= 4)%Z ->
  scale_down filt src_width src_height width height src dest =
    Ok (frame_walk width height
          (if (FilterMode.value filt =? 4)%Z
           then bilinear_sample src (scale_offsets src_width src_height width height)
           else nearest_sample src (scale_offsets src_width src_height width height)
                  (filter_pos_off (FilterMode.value filt)
                     (scale_offsets src_width src_height width height)))
          dest).
Proof.
  intros Hv. unfold scale_down, scale_offsets, as_int.
  rewrite (proj2 (andb_true_iff _ _)) by lia. cbn [mbind result_bind].
  destruct (negb (width =? src_width)), (negb (height =? src_height));
    (destruct (Z.eqb_spec (FilterMode.value filt) 4) as [E4|E4]; [reflexivity|]);
    unfold filter_pos_off;
    (destruct (Z.eqb_spec (FilterMode.value filt) 0); [reflexivity|]);
    (destruct (Z.eqb_spec (FilterMode.value filt) 1); [reflexivity|]);
    (destruct (Z.eqb_spec (FilterMode.value filt) 2); [reflexivity|]);
    (destruct (Z.eqb_spec (FilterMode.value filt) 3); [reflexivity|lia]).
Qed.

(** The offsets in terms of the steps along the two dimensions. *)
Lemma scale_offsets_steps src_width src_height width height :
  scale_offsets src_width src_height width height =
    (4 * (scale_step width src_width - 1), scale_step width src_width,
     4 * (scale_step width src_width * width) * (scale_step height src_height - 1),
     scale_step height src_height * (scale_step width src_width * width)).
Proof.
  unfold scale_offsets, scale_step.
  destruct (width =? src_width), (height =? src_height); cbn [negb Nat.sub];
    repeat match goal with |- (_, _) = (_, _) => f_equal end; lia.
Qed.

Lemma scale_step_width width src_width :
  src_width = width \/ src_width = 2 * width ->
  src_width = scale_step width src_width * width.
Proof.
  intros Hw. unfold scale_step. destruct (Nat.eqb_spec width src_width); lia.
Qed.

Lemma scale_step_cases size src_size :
  scale_step size src_size = 1 \/ scale_step size src_size = 2.
Proof. unfold scale_step. destruct (size =? src_size); auto. Qed.

Lemma filter_corner_cases v :
  (0 <= v <= 3)%Z ->
  (v = 0%Z /\ filter_corner v = (0, 0)) \/ (v = 1%Z /\ filter_corner v = (1, 0)) \/
  (v = 2%Z /\ filter_corner v = (0, 1)) \/ (v = 3%Z /\ filter_corner v = (1, 1)).
Proof.
  intros Hv.
  assert (v = 0 \/ v = 1 \/ v = 2 \/ v = 3)%Z as [-> | [-> | [-> | ->]]] by lia; auto 10.
Qed.

(** A nearest-neighbour filter copies, for each target pixel, the source
    pixel at the filter's corner of the block the target pixel spans. *)
Theorem scale_down_nearest (filt : FilterMode.t)
    (src_width src_height width height : nat) (src dest : bytebuf) :
  (0 <= FilterMode.value filt <= 3)%Z ->
  src_width = width \/ src_width = 2 * width ->
  src_height = height \/ src_height = 2 * height ->
  bytes src ->
  length src = 4 * src_width * src_height ->
  length dest = 4 * width * height ->
  exists out,
    scale_down filt src_width src_height width height src dest = Ok out /\
    length out = length dest /\
    forall x y c, x < width -> y < height -> c < 4 ->
      out.[4 * (width * y + x) + c] =
        src_pixel src src_width
          (scale_step width src_width * x +
             fst (filter_corner (FilterMode.value filt)) * (scale_step width src_width - 1))
          (scale_step height src_height * y +
             snd (filter_corner (FilterMode.value filt)) * (scale_step height src_height - 1))
          c.
Proof.
  intros Hv Hw Hh Hbytes Hsrc Hdest.
  rewrite scale_down_walk by lia.
  eexists. split; [reflexivity|]. split; [apply frame_walk_length|].
  intros x y c Hx Hy Hc.
  rewrite frame_walk_at by (done || lia).
  rewrite (proj2 (Z.eqb_neq (FilterMode.value filt) 4)) by lia.
  rewrite scale_offsets_steps. unfold nearest_sample, filter_pos_off, src_pixel.
  rewrite to_byte_small by (by apply get_is_byte).
  apply scale_step_width in Hw.
  set (kx := scale_step width src_width) in *.
  set (ky := scale_step height src_height) in *.
  f_equal.
  destruct (filter_corner_cases _ ltac:(exact Hv)) as [[-> ->] | [[-> ->] | [[-> ->] | [-> ->]]]];
    cbn [fst snd Z.eqb Pos.eqb]; nia.
Qed.

Lemma scale_down_nearest_witness :
  exists out,
    scale_down (FilterMode.mk 1) 2 1 1 1 [1; 2; 3; 4; 5; 6; 7; 8]%Z [0; 0; 0; 0]%Z = Ok out /\
    length out = length [0; 0; 0; 0]%Z /\
    forall x y c, x < 1 -> y < 1 -> c < 4 ->
      out.[4 * (1 * y + x) + c] =
        src_pixel [1; 2; 3; 4; 5; 6; 7; 8]%Z 2
          (scale_step 1 2 * x +
             fst (filter_corner (FilterMode.value (FilterMode.mk 1))) * (scale_step 1 2 - 1))
          (scale_step 1 1 * y +
             snd (filter_corner (FilterMode.value (FilterMode.mk 1))) * (scale_step 1 1 - 1))
          c.
Proof.
  apply (scale_down_nearest (FilterMode.mk 1) 2 1 1 1 [1; 2; 3; 4; 5; 6; 7; 8]%Z [0; 0; 0; 0]%Z).
  - simpl. lia.
  - lia.
  - lia.
  - repeat constructor; unfold is_byte; lia.
  - reflexivity.
  - reflexivity.
Defined.

(** The bilinear filter averages the block a target pixel spans, whether
    the block is 2 by 2, 2 by 1, 1 by 2 or the pixel itself. *)
Theorem scale_down_bilinear_block (filt : FilterMode.t)
    (src_width src_height width height : nat) (src dest : bytebuf) :
  FilterMode.value filt = 4%Z ->
  src_width = width \/ src_width = 2 * width ->
  src_height = height \/ src_height = 2 * height ->
  bytes src ->
  length src = 4 * src_width * src_height ->
  length dest = 4 * width * height ->
  exists out,
    scale_down filt src_width src_height width height src dest = Ok out /\
    length out = length dest /\
    forall x y c, x < width -> y < height -> c < 4 ->
      let kx := scale_step width src_width in
      let ky := scale_step height src_height in
      out.[4 * (width * y + x) + c] =
        ((src_pixel src src_width (kx * x) (ky * y) c +
          src_pixel src src_width (kx * x + (kx - 1)) (ky * y) c +
          src_pixel src src_width (kx * x) (ky * y + (ky - 1)) c +
          src_pixel src src_width (kx * x + (kx - 1)) (ky * y + (ky - 1)) c) / 4)%Z.
Proof.
  intros Hv Hw Hh Hbytes Hsrc Hdest.
  rewrite scale_down_walk by lia.
  eexists. split; [reflexivity|]. split; [apply frame_walk_length|].
  intros x y c Hx Hy Hc kx ky.
  rewrite frame_walk_at by (done || lia).
  rewrite Hv. cbn [Z.eqb Pos.eqb].
  rewrite scale_offsets_steps. unfold bilinear_sample, src_pixel.
  rewrite to_byte_small by (apply average_is_byte; by apply get_is_byte).
  apply scale_step_width in Hw. fold kx in Hw |- *. fold ky.
  match goal with
  | |- ((src.[?i0] + src.[?i1] + src.[?i2] + src.[?i3]) / 4 =
        (src.[?j0] + src.[?j1] + src.[?j2] + src.[?j3]) / 4)%Z =>
      replace i3 with j3 by nia; replace i2 with j2 by nia;
      replace i1 with j1 by nia; replace i0 with j0 by nia
  end.
  reflexivity.
Qed.

Lemma scale_down_bilinear_block_witness :
  exists out,
    scale_down (FilterMode.mk 4) 2 1 1 1 [10; 20; 30; 40; 20; 30; 40; 51]%Z [0; 0; 0; 0]%Z
      = Ok out /\
    length out = length [0; 0; 0; 0]%Z /\
    forall x y c, x < 1 -> y < 1 -> c < 4 ->
      let kx := scale_step 1 2 in
      let ky := scale_step 1 1 in
      out.[4 * (1 * y + x) + c] =
        ((src_pixel [10; 20; 30; 40; 20; 30; 40; 51]%Z 2 (kx * x) (ky * y) c +
          src_pixel [10; 20; 30; 40; 20; 30; 40; 51]%Z 2 (kx * x + (kx - 1)) (ky * y) c +
          src_pixel [10; 20; 30; 40; 20; 30; 40; 51]%Z 2 (kx * x) (ky * y + (ky - 1)) c +
          src_pixel [10; 20; 30; 40; 20; 30; 40; 51]%Z 2 (kx * x + (kx - 1)) (ky * y + (ky - 1)) c)
         / 4)%Z.
Proof.
  apply (scale_down_bilinear_block (FilterMode.mk 4) 2 1 1 1
           [10; 20; 30; 40; 20; 30; 40; 51]%Z [0; 0; 0; 0]%Z).
  - reflexivity.
  - lia.
  - lia.
  - repeat constructor; unfold is_byte; lia.
  - reflexivity.
  - reflexivity.
Defined.

(** Scaling to the same size copies the frame, with every filter. *)
Theorem scale_down_same_size (filt : FilterMode.t) (width height : nat)
    (src dest : bytebuf) :
  (0 <= FilterMode.value filt <= 4)%Z ->
  bytes src ->
  length src = 4 * width * height ->
  length dest = 4 * width * height ->
  scale_down filt width height width height src dest = Ok src.
Proof.
  intros Hv Hbytes Hsrc Hdest.
  rewrite scale_down_walk by done. f_equal.
  apply (bytebuf_ext_px 4 (width * height)); [lia | rewrite frame_walk_length; lia | lia |].
  intros off c Hoff Hc.
  assert (off = width * (off / width) + off mod width) as Eoff
    by (apply Nat.div_mod; lia).
  assert (off mod width < width) by (apply Nat.mod_upper_bound; lia).
  assert (off / width < height) by (apply Nat.Div0.div_lt_upper_bound; lia).
  rewrite Eoff at 1.
  rewrite frame_walk_at by (done || lia).
  rewrite scale_offsets_steps. unfold scale_step. rewrite !Nat.eqb_refl.
  destruct (Z.eqb_spec (FilterMode.value filt) 4).
  - unfold bilinear_sample.
    replace (4 * (1 - 1)) with 0 by lia.
    replace (4 * (1 * width) * (1 - 1)) with 0 by lia.
    rewrite !Nat.add_0_r.
    replace (4 * (1 * (1 * width) * (off / width) + 1 * (off mod width)) + c)
      with (4 * off + c) by lia.
    pose proof (get_is_byte src (4 * off + c) Hbytes) as Hb.
    unfold to_byte, is_byte in *. lia.
  - unfold nearest_sample, filter_pos_off.
    replace (4 * (1 - 1)) with 0 by lia.
    replace (4 * (1 * width) * (1 - 1)) with 0 by lia.
    assert (forall b1 b2 b3 : bool,
              (if b1 then 0 else if b2 then 0 else if b3 then 0 else 0 + 0) = 0) as ->
      by (by intros [] [] []).
    rewrite to_byte_small by (by apply get_is_byte).
    f_equal. lia.
Qed.

Lemma scale_down_same_size_witness :
  scale_down (FilterMode.mk 4) 2 1 2 1 [1; 2; 3; 4; 5; 6; 7; 8]%Z
    [0; 0; 0; 0; 0; 0; 0; 0]%Z = Ok [1; 2; 3; 4; 5; 6; 7; 8]%Z.
Proof.
  apply (scale_down_same_size (FilterMode.mk 4) 2 1).
  - simpl. lia.
  - repeat constructor; unfold is_byte; lia.
  - reflexivity.
  - reflexivity.
Defined.

(** The filter value decides between the three outcomes before anything
    is read or written: a value outside the C [int] is an overflow and
    one outside 0..4 a [ValueError], whatever the sizes and the buffers
    are; a value in 0..4 gives a frame of the length of [dest] when the
    source frame has the size of the target or twice that along each
    axis, [src] holds its [4 * src_width * src_height] bytes and [dest]
    has room for the [4 * width * height] bytes of the target. *)
Theorem scale_down_filter_check (filt : FilterMode.t)
    (src_width src_height width height : nat) (src dest : bytebuf) :
  ((0 <= FilterMode.value filt <= 4)%Z /\
   (src_width = width \/ src_width = 2 * width) /\
   (src_height = height \/ src_height = 2 * height) /\
   length src = 4 * src_width * src_height /\
   4 * width * height <= length dest ->
     exists out, scale_down filt src_width src_height width height src dest = Ok out /\
                 length out = length dest) /\
  (int_range (FilterMode.value filt) /\ ~ (0 <= FilterMode.value filt <= 4)%Z ->
     scale_down filt src_width src_height width height src dest = Raise ValueError) /\
  (~ int_range (FilterMode.value filt) ->
     scale_down filt src_width src_height width height src dest = Raise OverflowError).
Proof.
  split; [|split].
  - intros (Hv & _ & _ & _ & _). rewrite scale_down_walk by done.
    eexists. split; [reflexivity | apply frame_walk_length].
  - intros [Hint Hv]. unfold int_range in Hint. unfold scale_down, as_int.
    rewrite (proj2 (andb_true_iff _ _)) by lia. cbn [mbind result_bind].
    destruct (negb (width =? src_width)), (negb (height =? src_height));
      (destruct (Z.eqb_spec (FilterMode.value filt) 4); [lia|]);
      (destruct (Z.eqb_spec (FilterMode.value filt) 0); [lia|]);
      (destruct (Z.eqb_spec (FilterMode.value filt) 1); [lia|]);
      (destruct (Z.eqb_spec (FilterMode.value filt) 2); [lia|]);
      (destruct (Z.eqb_spec (FilterMode.value filt) 3); [lia|reflexivity]).
  - intros Hint. unfold int_range in Hint. unfold scale_down, as_int.
    rewrite (proj2 (andb_false_iff _ _)); [reflexivity|].
    destruct (Z.leb_spec (-2147483648) (FilterMode.value filt)); [|by left].
    right. apply Z.leb_gt. lia.
Qed.

Lemma scale_down_filter_check_witness :
  (exists out,
     scale_down (FilterMode.mk 0) 2 1 1 1 [1; 2; 3; 4; 5; 6; 7; 8]%Z [0; 0; 0; 0; 9; 9]%Z
       = Ok out /\
     length out = length [0; 0; 0; 0; 9; 9]%Z) /\
  scale_down (FilterMode.mk 7) 2 1 1 1 [1; 2; 3; 4; 5; 6; 7; 8]%Z [0; 0; 0; 0; 9; 9]%Z
    = Raise ValueError /\
  scale_down (FilterMode.mk 2147483648) 2 1 1 1 [1; 2; 3; 4; 5; 6; 7; 8]%Z
    [0; 0; 0; 0; 9; 9]%Z = Raise OverflowError.
Proof.
  split; [|split].
  - apply (proj1 (scale_down_filter_check (FilterMode.mk 0) 2 1 1 1
                    [1; 2; 3; 4; 5; 6; 7; 8]%Z [0; 0; 0; 0; 9; 9]%Z)).
    simpl. repeat split; lia.
  - apply (proj1 (proj2 (scale_down_filter_check (FilterMode.mk 7) 2 1 1 1
                           [1; 2; 3; 4; 5; 6; 7; 8]%Z [0; 0; 0; 0; 9; 9]%Z))).
    unfold int_range. simpl. lia.
  - apply (proj2 (proj2 (scale_down_filter_check (FilterMode.mk 2147483648) 2 1 1 1
                           [1; 2; 3; 4; 5; 6; 7; 8]%Z [0; 0; 0; 0; 9; 9]%Z))).
    unfold int_range. simpl. lia.
Defined.

(** [scale_down] writes the [4 * width * height] bytes of the target
    frame and nothing after them. *)
Theorem scale_down_frame (filt : FilterMode.t)
    (src_width src_height width height : nat) (src dest : bytebuf) :
  (0 <= FilterMode.value filt <= 4)%Z ->
  src_width = width \/ src_width = 2 * width ->
  src_height = height \/ src_height = 2 * height ->
  length src = 4 * src_width * src_height ->
  4 * width * height <= length dest ->
  exists out,
    scale_down filt src_width src_height width height src dest = Ok out /\
    length out = length dest /\
    bytes (take (4 * width * height) out) /\
    forall j, 4 * width * height <= j -> out.[j] = dest.[j].
Proof.
  intros Hv _ _ _ Hdest.
  rewrite scale_down_walk by done.
  eexists. split; [reflexivity|]. split; [apply frame_walk_length|]. split.
  - apply Forall_lookup_2. intros j v Hjv.
    assert (j < 4 * width * height) as Hj.
    { apply lookup_lt_Some in Hjv. rewrite length_take in Hjv. lia. }
    rewrite lookup_take_lt in Hjv by done.
    apply get_lookup in Hjv. subst v.
    assert (j = 4 * (width * (j / 4 / width) + j / 4 mod width) + j mod 4) as Ej.
    { assert (j / 4 = width * (j / 4 / width) + j / 4 mod width) as <-
        by (apply Nat.div_mod; lia). lia. }
    assert (j / 4 < width * height) by lia.
    assert (j / 4 mod width < width) by (apply Nat.mod_upper_bound; lia).
    assert (j / 4 / width < height) by (apply Nat.Div0.div_lt_upper_bound; lia).
    rewrite Ej. rewrite frame_walk_at by (lia || done). apply to_byte_is_byte.
  - intros j Hj. apply frame_walk_outside. lia.
Qed.

Lemma scale_down_frame_witness :
  exists out,
    scale_down (FilterMode.mk 0) 2 1 1 1 [1; 2; 3; 4; 5; 6; 7; 8]%Z [0; 0; 0; 0; 9; 9]%Z
      = Ok out /\
    length out = length [0; 0; 0; 0; 9; 9]%Z /\
    bytes (take (4 * 1 * 1) out) /\
    forall j, 4 * 1 * 1 <= j -> out.[j] = [0; 0; 0; 0; 9; 9]%Z.[j].
Proof.
  apply (scale_down_frame (FilterMode.mk 0) 2 1 1 1 [1; 2; 3; 4; 5; 6; 7; 8]%Z
           [0; 0; 0; 0; 9; 9]%Z).
  - simpl. lia.
  - lia.
  - lia.
  - reflexivity.
  - simpl. lia.
Defined.

(** * Flattening to RGB *)

Lemma prange_ext n body1 body2 p :
  (forall off q, body1 off q = body2 off q) -> prange n body1 p = prange n body2 p.
Proof. intros Hb. induction n as [|n IH]; simpl; [done|]. by rewrite IH, Hb. Qed.

Section Flatten.
Context `{CFloat}.
Context (pixels : bytebuf) (bg : option (Z * Z * Z)).

(** The loop body of both functions, writing at [base]. *)
Lemma flatten_body_writes base r g b :
  writes base 3 (fun off => [Some (to_byte (flattened pixels (Some (r, g, b)) off 0));
                             Some (to_byte (flattened pixels (Some (r, g, b)) off 1));
                             Some (to_byte (flattened pixels (Some (r, g, b)) off 2))])
    (fun off buffer =>
      let a := pixels.[4 * off + 3] in
      let buffer := store buffer (base + 3 * off + R) (composite pixels.[4 * off] a r) in
      let buffer := store buffer (base + 3 * off + G) (composite pixels.[4 * off + 1] a g) in
      let buffer := store buffer (base + 3 * off + B) (composite pixels.[4 * off + 2] a b) in
      buffer).
Proof. unfold flattened. cbn [nth]. solve_writes. Qed.

Lemma copy_body_writes base :
  writes base 3 (fun off => [Some (to_byte (flattened pixels None off 0));
                             Some (to_byte (flattened pixels None off 1));
                             Some (to_byte (flattened pixels None off 2))])
    (fun off buffer =>
      let buffer := store buffer (base + 3 * off + R) pixels.[4 * off] in
      let buffer := store buffer (base + 3 * off + G) pixels.[4 * off + 1] in
      let buffer := store buffer (base + 3 * off + B) pixels.[4 * off + 2] in
      buffer).
Proof. unfold flattened. solve_writes. Qed.

(** [alpha_flatten] is the loop of [ppm_convert] at base 0. *)
Lemma alpha_flatten_loop buffer width height :
  alpha_flatten pixels buffer width height bg =
    match bg with
    | Some (r, g, b) =>
        prange (uint (width * height)) (fun off buffer =>
          let a := pixels.[4 * off + 3] in
          let buffer := store buffer (0 + 3 * off + R) (composite pixels.[4 * off] a r) in
          let buffer := store buffer (0 + 3 * off + G) (composite pixels.[4 * off + 1] a g) in
          let buffer := store buffer (0 + 3 * off + B) (composite pixels.[4 * off + 2] a b) in
          buffer) buffer
    | None =>
        prange (uint (width * height)) (fun off buffer =>
          let buffer := store buffer (0 + 3 * off + R) pixels.[4 * off] in
          let buffer := store buffer (0 + 3 * off + G) pixels.[4 * off + 1] in
          let buffer := store buffer (0 + 3 * off + B) pixels.[4 * off + 2] in
          buffer) buffer
    end.
Proof. unfold alpha_flatten. by destruct bg as [[[r g] b]|]. Qed.

Lemma alpha_flatten_length buffer width height :
  length (alpha_flatten pixels buffer width height bg) = length buffer.
Proof.
  rewrite alpha_flatten_loop. destruct bg as [[[r g] b]|].
  - apply (writes_fn_length _ _ _ _ _ _ (flatten_body_writes 0 r g b)).
  - apply (writes_fn_length _ _ _ _ _ _ (copy_body_writes 0)).
Qed.

Lemma alpha_flatten_at buffer width height off c :
  fits_uint (width * height) -> off < width * height -> c < 3 ->
  3 * (width * height) <= length buffer ->
  get (alpha_flatten pixels buffer width height bg) (3 * off + c) =
    to_byte (flattened pixels bg off c).
Proof.
  intros Hfit Hoff Hc Hlen. rewrite alpha_flatten_loop, uint_small by done.
  change (3 * off + c) with (0 + 3 * off + c).
  destruct bg as [[[r g] b]|].
  - rewrite (prange_writes_at 0 _ _ _ _ _ _ _ (flatten_body_writes 0 r g b)) by lia.
    do 3 (try destruct c as [|c]); try lia; reflexivity.
  - rewrite (prange_writes_at 0 _ _ _ _ _ _ _ (copy_body_writes 0)) by lia.
    do 3 (try destruct c as [|c]); try lia; reflexivity.
Qed.

Lemma alpha_flatten_outside buffer width height j :
  3 * (uint (width * height)) <= j ->
  get (alpha_flatten pixels buffer width height bg) j = get buffer j.
Proof.
  intros Hj. destruct (decide (j < length buffer)) as [Hlt|Hge].
  - rewrite alpha_flatten_loop. destruct bg as [[[r g] b]|].
    + apply (prange_writes_fn_outside _ _ _ _ _ _ _ (flatten_body_writes 0 r g b)); [done | lia].
    + apply (prange_writes_fn_outside _ _ _ _ _ _ _ (copy_body_writes 0)); [done | lia].
  - rewrite !get_ge; [done | lia | rewrite alpha_flatten_length; lia].
Qed.



End Flatten.

(** Without a background [alpha_flatten] copies the R, G, B of every
    pixel into [buffer], three bytes per pixel, and leaves the rest of
    [buffer] as it was. *)
Theorem alpha_flatten_strips_alpha `{CFloat} (pixels buffer : bytebuf)
    (width height : nat) :
  fits_uint (width * height) ->
  bytes pixels ->
  length pixels = 4 * width * height ->
  3 * width * height <= length buffer ->
  length (alpha_flatten pixels buffer width height None) = length buffer /\
  (forall off c, off < width * height -> c < 3 ->
     (alpha_flatten pixels buffer width height None).[3 * off + c] = pixels.[4 * off + c]) /\
  (forall j, 3 * width * height <= j ->
     (alpha_flatten pixels buffer width height None).[j] = buffer.[j]).
Proof.
  intros Hfit Hbytes Hlen Hbuf. split; [apply alpha_flatten_length|]. split.
  - intros off c Hoff Hc. rewrite alpha_flatten_at by (done || lia).
    unfold flattened. by rewrite to_byte_small by (by apply get_is_byte).
  - intros j Hj. apply alpha_flatten_outside. rewrite uint_small by done. lia.
Qed.

Lemma alpha_flatten_strips_alpha_witness :
  length (@alpha_flatten cfloat_none [1; 2; 3; 4; 5; 6; 7; 8]%Z
            [0; 0; 0; 0; 0; 0; 9]%Z 2 1 None) = length [0; 0; 0; 0; 0; 0; 9]%Z /\
  (forall off c, off < 2 * 1 -> c < 3 ->
     (@alpha_flatten cfloat_none [1; 2; 3; 4; 5; 6; 7; 8]%Z
        [0; 0; 0; 0; 0; 0; 9]%Z 2 1 None).[3 * off + c] =
       [1; 2; 3; 4; 5; 6; 7; 8]%Z.[4 * off + c]) /\
  (forall j, 3 * 2 * 1 <= j ->
     (@alpha_flatten cfloat_none [1; 2; 3; 4; 5; 6; 7; 8]%Z
        [0; 0; 0; 0; 0; 0; 9]%Z 2 1 None).[j] = [0; 0; 0; 0; 0; 0; 9]%Z.[j]).
Proof.
  apply (@alpha_flatten_strips_alpha cfloat_none [1; 2; 3; 4; 5; 6; 7; 8]%Z
           [0; 0; 0; 0; 0; 0; 9]%Z 2 1).
  - vm_compute. reflexivity.
  - repeat constructor; unfold is_byte; lia.
  - reflexivity.
  - simpl. lia.
Defined.



(** [save] in format RGB888 and [alpha_flatten] without a background
    write the same bytes. *)
Theorem save_rgb888_is_alpha_flatten `{Squish} `{CFloat} (fmt : ImageFormats.t)
    (pixels buffer : bytebuf) (width height : nat) :
  ImageFormats.ind fmt = 2%Z ->
  save fmt pixels buffer width height =
    Ok (alpha_flatten pixels buffer width height None).
Proof.
  intros Hind. rewrite save_dispatch by (rewrite Hind; unfold FORMATS_size; lia).
  rewrite Hind. entry_whnf. f_equal.
  unfold save_rgb888, alpha_flatten. cbv zeta.
  apply prange_ext. intros off q. unfold R, G, B. by rewrite !Nat.add_0_r.
Qed.

Lemma save_rgb888_is_alpha_flatten_witness :
  @save squish_none (ImageFormats.mk 2 "RGB888") [1; 2; 3; 4]%Z [0; 0; 0]%Z 1 1 =
    Ok (@alpha_flatten cfloat_none [1; 2; 3; 4]%Z [0; 0; 0]%Z 1 1 None).
Proof.
  apply (@save_rgb888_is_alpha_flatten squish_none cfloat_none (ImageFormats.mk 2 "RGB888")).
  reflexivity.
Defined.

(** * What the remaining codecs write, pixel by pixel *)

Section MoreCodecSpecs.
Context (pixels data : bytebuf) (W H : nat).

Lemma load_i8_length : length (load_i8 pixels data W H) = length pixels.
Proof. codec_length load_i8. Qed.

Lemma load_i8_at off c :
  fits_uint (W * H) -> off < W * H -> c < 4 -> 4 * (W * H) <= length pixels ->
  get (load_i8 pixels data W H) (4 * off + c) =
    default pixels.[4 * off + c]
      (mjoin ([Some (to_byte (to_byte data.[off]));
               Some (to_byte (to_byte data.[off]));
               Some (to_byte (to_byte data.[off]));
               Some 255%Z] !! c)).
Proof. codec_at load_i8 off. Qed.

Lemma save_i8_length : length (save_i8 pixels data W H) = length data.
Proof. codec_length save_i8. Qed.

Lemma save_i8_at off c :
  fits_uint (W * H) -> off < W * H -> c < 1 -> 1 * (W * H) <= length data ->
  get (save_i8 pixels data W H) (1 * off + c) =
    default data.[1 * off + c]
      (mjoin ([Some (to_byte ((to_byte pixels.[4 * off + R] + to_byte pixels.[4 * off + G] +
                               to_byte pixels.[4 * off + B]) / 3))] !! c)).
Proof. codec_at save_i8 off. Qed.

Lemma load_rgb565_length : length (load_rgb565 pixels data W H) = length pixels.
Proof. codec_length load_rgb565. Qed.

Lemma load_rgb565_at off c :
  fits_uint (W * H) -> off < W * H -> c < 4 -> 4 * (W * H) <= length pixels ->
  get (load_rgb565 pixels data W H) (4 * off + c) =
    default pixels.[4 * off + c]
      (mjoin ([Some (to_byte (RGB.r (decomp565 data.[2 * off] data.[2 * off + 1])));
               Some (to_byte (RGB.g (decomp565 data.[2 * off] data.[2 * off + 1])));
               Some (to_byte (RGB.b (decomp565 data.[2 * off] data.[2 * off + 1])));
               Some 255%Z] !! c)).
Proof. codec_at load_rgb565 off. Qed.

Lemma save_rgb565_length : length (save_rgb565 pixels data W H) = length data.
Proof. codec_length save_rgb565. Qed.

Lemma save_rgb565_at off c :
  fits_uint (W * H) -> off < W * H -> c < 2 -> 2 * (W * H) <= length data ->
  get (save_rgb565 pixels data W H) (2 * off + c) =
    default data.[2 * off + c]
      (mjoin ([Some (to_byte (fst (compress565 pixels.[4 * off + R] pixels.[4 * off + G]
                                     pixels.[4 * off + B])));
               Some (to_byte (snd (compress565 pixels.[4 * off + R] pixels.[4 * off + G]
                                     pixels.[4 * off + B])))] !! c)).
Proof. codec_at save_rgb565 off. Qed.

Lemma load_bgr565_length : length (load_bgr565 pixels data W H) = length pixels.
Proof. codec_length load_bgr565. Qed.

Lemma load_bgr565_at off c :
  fits_uint (W * H) -> off < W * H -> c < 4 -> 4 * (W * H) <= length pixels ->
  get (load_bgr565 pixels data W H) (4 * off + c) =
    default pixels.[4 * off + c]
      (mjoin ([Some (to_byte (RGB.b (decomp565 data.[2 * off] data.[2 * off + 1])));
               Some (to_byte (RGB.g (decomp565 data.[2 * off] data.[2 * off + 1])));
               Some (to_byte (RGB.r (decomp565 data.[2 * off] data.[2 * off + 1])));
               Some 255%Z] !! c)).
Proof. codec_at load_bgr565 off. Qed.

Lemma save_bgr565_length : length (save_bgr565 pixels data W H) = length data.
Proof. codec_length save_bgr565. Qed.

Lemma save_bgr565_at off c :
  fits_uint (W * H) -> off < W * H -> c < 2 -> 2 * (W * H) <= length data ->
  get (save_bgr565 pixels data W H) (2 * off + c) =
    default data.[2 * off + c]
      (mjoin ([Some (to_byte (fst (compress565 pixels.[4 * off + B] pixels.[4 * off + G]
                                     pixels.[4 * off + R])));
               Some (to_byte (snd (compress565 pixels.[4 * off + B] pixels.[4 * off + G]
                                     pixels.[4 * off + R])))] !! c)).
Proof. codec_at save_bgr565 off. Qed.

Lemma load_bgrx5551_length : length (load_bgrx5551 pixels data W H) = length pixels.
Proof. codec_length load_bgrx5551. Qed.

Lemma load_bgrx5551_at off c :
  fits_uint (W * H) -> off < W * H -> c < 4 -> 4 * (W * H) <= length pixels ->
  get (load_bgrx5551 pixels data W H) (4 * off + c) =
    default pixels.[4 * off + c]
      (mjoin ([Some (to_byte (upsample 5 ((to_byte data.[2 * off + 1] & 124) << 1)));
               Some (to_byte (upsample 5 (((to_byte data.[2 * off] & 224) >> 2) .|
                                          ((to_byte data.[2 * off + 1] & 3) << 6))));
               Some (to_byte (upsample 5 ((to_byte data.[2 * off] & 31) << 3)));
               Some 255%Z] !! c)).
Proof. codec_at load_bgrx5551 off. Qed.

Lemma load_bgra5551_length : length (load_bgra5551 pixels data W H) = length pixels.
Proof. codec_length load_bgra5551. Qed.

Lemma save_bgrx5551_length : length (save_bgrx5551 pixels data W H) = length data.
Proof. codec_length save_bgrx5551. Qed.
End MoreCodecSpecs.

(** * Checks over all bytes *)

Lemma all_bytes (P : Z -> bool) :
  forallb P (seqZ 0 256) = true -> forall x, is_byte x -> P x = true.
Proof.
  intros Hall x Hx. rewrite forallb_forall in Hall. apply Hall.
  apply list_elem_of_In, elem_of_seqZ. unfold is_byte in Hx. lia.
Qed.

Lemma all_byte_pairs (P : Z -> Z -> bool) :
  forallb (fun x => forallb (P x) (seqZ 0 256)) (seqZ 0 256) = true ->
  forall x y, is_byte x -> is_byte y -> P x y = true.
Proof.
  intros Hall x y Hx Hy.
  pose proof (all_bytes _ Hall x Hx) as Hrow. cbv beta in Hrow.
  exact (all_bytes _ Hrow y Hy).
Qed.

(** * The 565 formats *)

Lemma pack565_low g b :
  is_byte g -> is_byte b ->
  upsample 5 ((to_byte (g << 3 & 224 .| b >> 3) & 31) << 3) = quantise5 b /\
  to_byte (g << 3 & 224 .| b >> 3) & 224 = g << 3 & 224.
Proof.
  intros Hg Hb.
  pose proof (all_byte_pairs (fun g b =>
    (upsample 5 ((to_byte (g << 3 & 224 .| b >> 3) & 31) << 3) =? quantise5 b)%Z &&
    (to_byte (g << 3 & 224 .| b >> 3) & 224 =? g << 3 & 224)%Z)
    ltac:(vm_compute; reflexivity) g b Hg Hb) as E.
  cbv beta in E. apply andb_prop in E as [E1 E2]. split; by apply Z.eqb_eq.
Qed.

Lemma pack565_high r g :
  is_byte r -> is_byte g ->
  upsample 5 (to_byte (r & 248 .| g >> 5) & 248) = quantise5 r /\
  to_byte (r & 248 .| g >> 5) & 7 = g >> 5.
Proof.
  intros Hr Hg.
  pose proof (all_byte_pairs (fun r g =>
    (upsample 5 (to_byte (r & 248 .| g >> 5) & 248) =? quantise5 r)%Z &&
    (to_byte (r & 248 .| g >> 5) & 7 =? g >> 5)%Z)
    ltac:(vm_compute; reflexivity) r g Hr Hg) as E.
  cbv beta in E. apply andb_prop in E as [E1 E2]. split; by apply Z.eqb_eq.
Qed.

Lemma pack565_green g :
  is_byte g -> upsample 6 ((g >> 5) << 5 .| (g << 3 & 224) >> 3) = quantise6 g.
Proof.
  intros Hg. apply Z.eqb_eq.
  apply (all_bytes (fun g =>
    (upsample 6 ((g >> 5) << 5 .| (g << 3 & 224) >> 3) =? quantise6 g)%Z)
    ltac:(vm_compute; reflexivity) g Hg).
Qed.

(** [decomp565] after [compress565]: each channel is quantised, and the
    first and the third argument come back in each other's place. *)
Lemma decomp565_compress565 r g b :
  is_byte r -> is_byte g -> is_byte b ->
  decomp565 (to_byte (fst (compress565 r g b))) (to_byte (snd (compress565 r g b))) =
    {| RGB.r := quantise5 b; RGB.g := quantise6 g; RGB.b := quantise5 r |}.
Proof.
  intros Hr Hg Hb. unfold decomp565, compress565. cbn [fst snd]. cbv zeta.
  rewrite !to_byte_idem.
  rewrite !(to_byte_small r), !(to_byte_small g), !(to_byte_small b) by done.
  destruct (pack565_low g b Hg Hb) as [-> ->].
  destruct (pack565_high r g Hr Hg) as [-> ->].
  by rewrite pack565_green.
Qed.

Lemma quantise5_is_byte v : is_byte v -> is_byte (quantise5 v).
Proof. unfold quantise5, is_byte. lia. Qed.

Lemma quantise6_is_byte v : is_byte v -> is_byte (quantise6 v).
Proof. unfold quantise6, is_byte. lia. Qed.

Lemma quantise5_idempotent v : is_byte v -> quantise5 (quantise5 v) = quantise5 v.
Proof. unfold quantise5, is_byte. lia. Qed.

Lemma quantise6_idempotent v : is_byte v -> quantise6 (quantise6 v) = quantise6 v.
Proof. unfold quantise6, is_byte. lia. Qed.

Section Packed565.
Context (pixels data0 dest : bytebuf) (W H : nat).
Context (Hfit : fits_uint (W * H)) (Hbytes : bytes pixels).
Context (Hdata : length data0 = 2 * (W * H)) (Hdest : length dest = 4 * (W * H)).

Lemma rgb565_round_trip_at off c :
  off < W * H -> c < 4 ->
  get (load_rgb565 dest (save_rgb565 pixels data0 W H) W H) (4 * off + c) =
    default 0%Z ([quantise5 pixels.[4 * off + B]; quantise6 pixels.[4 * off + G];
                  quantise5 pixels.[4 * off + R]; 255%Z] !! c).
Proof.
  intros Hoff Hc. rewrite load_rgb565_at by (done || lia).
  pose proof (save_rgb565_at pixels data0 W H off 0 Hfit Hoff ltac:(lia) ltac:(lia)) as E0.
  pose proof (save_rgb565_at pixels data0 W H off 1 Hfit Hoff ltac:(lia) ltac:(lia)) as E1.
  rewrite Nat.add_0_r in E0.
  cbn [lookup list_lookup mjoin option_join default from_option id] in E0, E1.
  rewrite E0, E1.
  rewrite decomp565_compress565 by (by apply get_is_byte).
  cbn [RGB.r RGB.g RGB.b].
  do 4 (try destruct c as [|c]); [ .. | lia ];
    cbn [lookup list_lookup mjoin option_join default from_option id]; try reflexivity;
    apply to_byte_small; (apply quantise5_is_byte || apply quantise6_is_byte);
    by apply get_is_byte.
Qed.

Lemma bgr565_round_trip_at off c :
  off < W * H -> c < 4 ->
  get (load_bgr565 dest (save_bgr565 pixels data0 W H) W H) (4 * off + c) =
    default 0%Z ([quantise5 pixels.[4 * off + B]; quantise6 pixels.[4 * off + G];
                  quantise5 pixels.[4 * off + R]; 255%Z] !! c).
Proof.
  intros Hoff Hc. rewrite load_bgr565_at by (done || lia).
  pose proof (save_bgr565_at pixels data0 W H off 0 Hfit Hoff ltac:(lia) ltac:(lia)) as E0.
  pose proof (save_bgr565_at pixels data0 W H off 1 Hfit Hoff ltac:(lia) ltac:(lia)) as E1.
  rewrite Nat.add_0_r in E0.
  cbn [lookup list_lookup mjoin option_join default from_option id] in E0, E1.
  rewrite E0, E1.
  rewrite decomp565_compress565 by (by apply get_is_byte).
  cbn [RGB.r RGB.g RGB.b].
  do 4 (try destruct c as [|c]); [ .. | lia ];
    cbn [lookup list_lookup mjoin option_join default from_option id]; try reflexivity;
    apply to_byte_small; (apply quantise5_is_byte || apply quantise6_is_byte);
    by apply get_is_byte.
Qed.
End Packed565.

(** * The grey formats *)

Lemma grey_level_is_byte r g b :
  is_byte r -> is_byte g -> is_byte b -> is_byte (grey_level r g b).
Proof. unfold grey_level, is_byte. lia. Qed.

Lemma grey_level_grey v : grey_level v v v = v.
Proof. unfold grey_level. lia. Qed.

Section Grey.
Context (pixels data0 dest : bytebuf) (W H : nat).
Context (Hfit : fits_uint (W * H)) (Hbytes : bytes pixels).
Context (Hdest : length dest = 4 * (W * H)).

Lemma i8_round_trip_at off c :
  length data0 = W * H -> off < W * H -> c < 4 ->
  get (load_i8 dest (save_i8 pixels data0 W H) W H) (4 * off + c) =
    default 0%Z
      ([grey_level pixels.[4 * off + R] pixels.[4 * off + G] pixels.[4 * off + B];
        grey_level pixels.[4 * off + R] pixels.[4 * off + G] pixels.[4 * off + B];
        grey_level pixels.[4 * off + R] pixels.[4 * off + G] pixels.[4 * off + B];
        255%Z] !! c).
Proof.
  intros Hdata Hoff Hc. rewrite load_i8_at by (done || lia).
  pose proof (save_i8_at pixels data0 W H off 0 Hfit Hoff ltac:(lia) ltac:(lia)) as E0.
  rewrite !Nat.mul_1_l, !Nat.add_0_r in E0.
  cbn [lookup list_lookup mjoin option_join default from_option id] in E0.
  rewrite E0, !to_byte_idem.
  rewrite !(to_byte_small (get pixels _)) by (by apply get_is_byte).
  unfold R, G, B, A; rewrite ?Nat.add_0_r.
  fold (grey_level pixels.[4 * off] pixels.[4 * off + 1] pixels.[4 * off + 2]).
  do 4 (try destruct c as [|c]); [ .. | lia ];
    cbn [lookup list_lookup mjoin option_join default from_option id]; try reflexivity;
    apply to_byte_small, grey_level_is_byte; by apply get_is_byte.
Qed.

Lemma ia88_round_trip_at off c :
  length data0 = 2 * (W * H) -> off < W * H -> c < 4 ->
  get (load_ia88 dest (save_ia88 pixels data0 W H) W H) (4 * off + c) =
    default 0%Z
      ([grey_level pixels.[4 * off + R] pixels.[4 * off + G] pixels.[4 * off + B];
        grey_level pixels.[4 * off + R] pixels.[4 * off + G] pixels.[4 * off + B];
        grey_level pixels.[4 * off + R] pixels.[4 * off + G] pixels.[4 * off + B];
        pixels.[4 * off + A]] !! c).
Proof.
  intros Hdata Hoff Hc. rewrite load_ia88_at by (done || lia).
  rewrite !save_ia88_at by (done || lia).
  cbn [lookup list_lookup mjoin option_join default from_option id].
  rewrite !to_byte_idem.
  rewrite !(to_byte_small (get pixels _)) by (by apply get_is_byte).
  unfold R, G, B, A; rewrite ?Nat.add_0_r.
  fold (grey_level pixels.[4 * off] pixels.[4 * off + 1] pixels.[4 * off + 2]).
  do 4 (try destruct c as [|c]); [ .. | lia ];
    cbn [lookup list_lookup mjoin option_join default from_option id]; try reflexivity;
    try (apply to_byte_small, grey_level_is_byte; by apply get_is_byte).
Qed.
End Grey.

(** * The bluescreen formats, there and back *)

Section BluescreenRoundTrip.
Context (pixels data0 dest : bytebuf) (W H : nat).
Context (Hfit : fits_uint (W * H)) (Hbytes : bytes pixels).
Context (Hdata : length data0 = 3 * (W * H)) (Hdest : length dest = 4 * (W * H)).

Lemma rgb888_bluescreen_round_trip_at off c :
  off < W * H -> c < 4 ->
  get (load_rgb888_bluescreen dest (save_rgb888_bluescreen pixels data0 W H) W H)
      (4 * off + c) =
    if decide ((pixels.[4 * off + A] < 128)%Z \/
               is_pure_blue pixels.[4 * off + R] pixels.[4 * off + G] pixels.[4 * off + B])
    then 0%Z
    else default 0%Z ([pixels.[4 * off + R]; pixels.[4 * off + G];
                       pixels.[4 * off + B]; 255%Z] !! c).
Proof.
  intros Hoff Hc. rewrite load_rgb888_bluescreen_at by (done || lia).
  pose proof (save_rgb888_bluescreen_at pixels data0 W H off 0 Hfit Hoff ltac:(lia) ltac:(lia)) as E0.
  pose proof (save_rgb888_bluescreen_at pixels data0 W H off 1 Hfit Hoff ltac:(lia) ltac:(lia)) as E1.
  pose proof (save_rgb888_bluescreen_at pixels data0 W H off 2 Hfit Hoff ltac:(lia) ltac:(lia)) as E2.
  rewrite Nat.add_0_r in E0. rewrite E0, E1, E2. clear E0 E1 E2.
  rewrite pure_blue_test. unfold R, G, B, A. rewrite ?Nat.add_0_r.
  pose proof (get_is_byte pixels (4 * off) Hbytes) as Hr.
  pose proof (get_is_byte pixels (4 * off + 1) Hbytes) as Hg.
  pose proof (get_is_byte pixels (4 * off + 2) Hbytes) as Hb.
  destruct (Z.ltb_spec pixels.[4 * off + 3] 128) as [Ha|Ha];
    cbn [lookup list_lookup mjoin option_join default from_option id].
  - rewrite decide_True by (by left).
    rewrite bool_decide_eq_true_2 by done.
    do 4 (try destruct c as [|c]); [ .. | lia ]; reflexivity.
  - rewrite !to_byte_idem, !(to_byte_small (get pixels _)) by done.
    case_bool_decide as Hblue.
    + rewrite decide_True by (by right).
      do 4 (try destruct c as [|c]); [ .. | lia ]; reflexivity.
    + rewrite decide_False by (intros [?|?]; [lia | done]).
      do 4 (try destruct c as [|c]); [ .. | lia ]; reflexivity.
Qed.

Lemma bgr888_bluescreen_round_trip_at off c :
  off < W * H -> c < 4 ->
  get (load_bgr888_bluescreen dest (save_bgr888_bluescreen pixels data0 W H) W H)
      (4 * off + c) =
    if decide ((pixels.[4 * off + A] < 128)%Z \/
               is_pure_blue pixels.[4 * off + R] pixels.[4 * off + G] pixels.[4 * off + B])
    then 0%Z
    else default 0%Z ([pixels.[4 * off + R]; pixels.[4 * off + G];
                       pixels.[4 * off + B]; 255%Z] !! c).
Proof.
  intros Hoff Hc. rewrite load_bgr888_bluescreen_at by (done || lia).
  pose proof (save_bgr888_bluescreen_at pixels data0 W H off 0 Hfit Hoff ltac:(lia) ltac:(lia)) as E0.
  pose proof (save_bgr888_bluescreen_at pixels data0 W H off 1 Hfit Hoff ltac:(lia) ltac:(lia)) as E1.
  pose proof (save_bgr888_bluescreen_at pixels data0 W H off 2 Hfit Hoff ltac:(lia) ltac:(lia)) as E2.
  rewrite Nat.add_0_r in E0. rewrite E0, E1, E2. clear E0 E1 E2.
  rewrite pure_blue_test. unfold R, G, B, A. rewrite ?Nat.add_0_r.
  pose proof (get_is_byte pixels (4 * off) Hbytes) as Hr.
  pose proof (get_is_byte pixels (4 * off + 1) Hbytes) as Hg.
  pose proof (get_is_byte pixels (4 * off + 2) Hbytes) as Hb.
  destruct (Z.ltb_spec pixels.[4 * off + 3] 128) as [Ha|Ha];
    cbn [lookup list_lookup mjoin option_join default from_option id].
  - rewrite decide_True by (by left).
    rewrite bool_decide_eq_true_2 by done.
    do 4 (try destruct c as [|c]); [ .. | lia ]; reflexivity.
  - rewrite !to_byte_idem, !(to_byte_small (get pixels _)) by done.
    case_bool_decide as Hblue.
    + rewrite decide_True by (by right).
      do 4 (try destruct c as [|c]); [ .. | lia ]; reflexivity.
    + rewrite decide_False by (intros [?|?]; [lia | done]).
      do 4 (try destruct c as [|c]); [ .. | lia ]; reflexivity.
Qed.
End BluescreenRoundTrip.

(** * Decoding, then encoding again *)

(** A nibble pair survives being unpacked by [load_bgra4444] and packed
    by [save_bgra4444]; checked on all bytes. *)
Lemma nibbles_repacked a :
  is_byte a ->
  to_byte ((to_byte ((to_byte a & 240) .| ((to_byte a & 240) >> 4)) & 240) .|
           (to_byte ((to_byte a & 15) .| ((to_byte a & 15) << 4)) >> 4)) = a.
Proof.
  intros Ha. apply Z.eqb_eq.
  apply (all_bytes (fun a =>
    (to_byte ((to_byte ((to_byte a & 240) .| ((to_byte a & 240) >> 4)) & 240) .|
              (to_byte ((to_byte a & 15) .| ((to_byte a & 15) << 4)) >> 4)) =? a)%Z)
    ltac:(vm_compute; reflexivity) a Ha).
Qed.

Ltac cells c :=
  do 4 (try destruct c as [|c]); try lia;
  cbn [lookup list_lookup mjoin option_join default from_option id].

Ltac byte_of_data :=
  rewrite ?to_byte_idem;
  repeat (rewrite to_byte_small by (apply get_is_byte; assumption));
  try reflexivity.

Section Reencode.
Context (data data0 dest : bytebuf) (W H : nat).
Context (Hfit : fits_uint (4 * (W * H))).
Context (Hbytes : bytes data).
Context (Hdest : length dest = 4 * (W * H)).

Local Lemma fits_pixels : fits_uint (W * H).
Proof. unfold fits_uint in *. lia. Qed.

Ltac reencode k save_len save_at load_at :=
  let off := fresh "off" in
  let c := fresh "c" in
  intros; pose proof fits_pixels;
  apply (bytebuf_ext_px k (W * H)); [ lia | rewrite save_len; lia | lia | ];
  intros off c ? ?; rewrite save_at by (done || lia);
  cells c; unfold R, G, B, A;
  rewrite ?load_at by (done || lia);
  cbn [lookup list_lookup mjoin option_join default from_option id];
  rewrite ?Nat.add_0_r, ?Nat.mul_1_l; byte_of_data.

Lemma reencode_copy :
  length data = 4 * (W * H) -> length data0 = 4 * (W * H) ->
  save_copy (load_copy dest data W H) data0 W H = data.
Proof.
  intros Hd Hd0. unfold load_copy, save_copy.
  replace (4 * W * H) with (4 * (W * H)) by lia.
  rewrite uint_small by done.
  rewrite (memcpy_all dest data) by done. by apply memcpy_all.
Qed.

Lemma reencode_bgra8888 :
  length data = 4 * (W * H) -> length data0 = 4 * (W * H) ->
  save_bgra8888 (load_bgra8888 dest data W H) data0 W H = data.
Proof. reencode 4 save_bgra8888_length save_bgra8888_at load_bgra8888_at. Qed.

Lemma reencode_abgr8888 :
  length data = 4 * (W * H) -> length data0 = 4 * (W * H) ->
  save_abgr8888 (load_abgr8888 dest data W H) data0 W H = data.
Proof. reencode 4 save_abgr8888_length save_abgr8888_at load_abgr8888_at. Qed.

Lemma reencode_argb8888 :
  length data = 4 * (W * H) -> length data0 = 4 * (W * H) ->
  save_argb8888 (load_argb8888 dest data W H) data0 W H = data.
Proof. reencode 4 save_argb8888_length save_argb8888_at load_argb8888_at. Qed.

Lemma reencode_rgb888 :
  length data = 3 * (W * H) -> length data0 = 3 * (W * H) ->
  save_rgb888 (load_rgb888 dest data W H) data0 W H = data.
Proof. reencode 3 save_rgb888_length save_rgb888_at load_rgb888_at. Qed.

Lemma reencode_bgr888 :
  length data = 3 * (W * H) -> length data0 = 3 * (W * H) ->
  save_bgr888 (load_bgr888 dest data W H) data0 W H = data.
Proof. reencode 3 save_bgr888_length save_bgr888_at load_bgr888_at. Qed.

Lemma reencode_uv88 :
  length data = 2 * (W * H) -> length data0 = 2 * (W * H) ->
  save_uv88 (load_uv88 dest data W H) data0 W H = data.
Proof. reencode 2 save_uv88_length save_uv88_at load_uv88_at. Qed.

Lemma third_of_three d : is_byte d -> to_byte ((d + d + d) / 3) = d.
Proof. unfold is_byte, to_byte. lia. Qed.

Lemma reencode_ia88 :
  length data = 2 * (W * H) -> length data0 = 2 * (W * H) ->
  save_ia88 (load_ia88 dest data W H) data0 W H = data.
Proof.
  reencode 2 save_ia88_length save_ia88_at load_ia88_at.
  rewrite ?(to_byte_small (get data _)) by (by apply get_is_byte).
  apply third_of_three. by apply get_is_byte.
Qed.

Lemma reencode_i8 :
  length data = W * H -> length data0 = W * H ->
  save_i8 (load_i8 dest data W H) data0 W H = data.
Proof.
  reencode 1 save_i8_length save_i8_at load_i8_at.
  rewrite ?(to_byte_small (get data _)) by (by apply get_is_byte).
  apply third_of_three. by apply get_is_byte.
Qed.

Lemma reencode_a8 :
  length data = W * H -> length data0 = W * H ->
  save_a8 (load_a8 dest data W H) data0 W H = data.
Proof.
  reencode 1 save_a8_length save_a8_at load_a8_at.
  rewrite decide_True by done. byte_of_data.
Qed.

Lemma reencode_bgra4444 :
  length data = 2 * (W * H) -> length data0 = 2 * (W * H) ->
  save_bgra4444 (load_bgra4444 dest data W H) data0 W H = data.
Proof.
  intros Hd Hd0. pose proof fits_pixels.
  apply (bytebuf_ext_px 2 (W * H)); [ lia | rewrite save_bgra4444_length; lia | lia | ].
  intros off c Hoff Hc. rewrite save_bgra4444_at by (done || lia).
  cells c; unfold R, G, B, A;
    rewrite !load_bgra4444_at by (done || lia);
    cbn [lookup list_lookup mjoin option_join default from_option id];
    apply nibbles_repacked; by apply get_is_byte.
Qed.

Lemma reencode_rgb888_bluescreen :
  length data = 3 * (W * H) -> length data0 = 3 * (W * H) ->
  save_rgb888_bluescreen (load_rgb888_bluescreen dest data W H) data0 W H = data.
Proof.
  intros Hd Hd0. pose proof fits_pixels.
  apply (bytebuf_ext_px 3 (W * H));
    [ lia | rewrite save_rgb888_bluescreen_length; lia | lia | ].
  intros off c Hoff Hc. rewrite save_rgb888_bluescreen_at by (done || lia).
  unfold R, G, B, A. rewrite !load_rgb888_bluescreen_at by (done || lia).
  rewrite pure_blue_test, !to_byte_idem.
  pose proof (get_is_byte data (3 * off) Hbytes) as Hr.
  pose proof (get_is_byte data (3 * off + 1) Hbytes) as Hg.
  pose proof (get_is_byte data (3 * off + 2) Hbytes) as Hb.
  rewrite !(to_byte_small (get data _)) by done.
  case_bool_decide as Hblue;
    cbn [lookup list_lookup mjoin option_join default from_option id Z.ltb Z.compare Pos.compare Pos.compare_cont].
  - destruct Hblue as (Er & Eg & Eb). cells c; rewrite ?Nat.add_0_r; congruence.
  - cells c; rewrite ?Nat.add_0_r; by rewrite to_byte_small.
Qed.

Lemma reencode_bgr888_bluescreen :
  length data = 3 * (W * H) -> length data0 = 3 * (W * H) ->
  save_bgr888_bluescreen (load_bgr888_bluescreen dest data W H) data0 W H = data.
Proof.
  intros Hd Hd0. pose proof fits_pixels.
  apply (bytebuf_ext_px 3 (W * H));
    [ lia | rewrite save_bgr888_bluescreen_length; lia | lia | ].
  intros off c Hoff Hc. rewrite save_bgr888_bluescreen_at by (done || lia).
  unfold R, G, B, A. rewrite !load_bgr888_bluescreen_at by (done || lia).
  rewrite pure_blue_test, !to_byte_idem.
  pose proof (get_is_byte data (3 * off) Hbytes) as Hr.
  pose proof (get_is_byte data (3 * off + 1) Hbytes) as Hg.
  pose proof (get_is_byte data (3 * off + 2) Hbytes) as Hb.
  rewrite !(to_byte_small (get data _)) by done.
  case_bool_decide as Hblue;
    cbn [lookup list_lookup mjoin option_join default from_option id Z.ltb Z.compare Pos.compare Pos.compare_cont].
  - destruct Hblue as (Er & Eg & Eb). cells c; rewrite ?Nat.add_0_r; congruence.
  - cells c; rewrite ?Nat.add_0_r; by rewrite to_byte_small.
Qed.
End Reencode.

(** * Names and tags *)

Ltac solve_tags :=
  let Hind := fresh "Hind" in
  let Hname := fresh "Hname" in
  let n := fresh "n" in
  let Hn := fresh "Hn" in
  intros Hind Hname;
  match type of Hind with
  | (0 <= ?index < FORMATS_size)%Z =>
      assert (exists n, index = Z.of_nat n /\ n < 30) as (n & -> & Hn)
        by (exists (Z.to_nat index); unfold FORMATS_size in Hind; lia)
  end;
  clear Hind;
  do 30 (destruct n as [|n];
         [ first [ not_listed Hname | apply (bool_decide_unpack _); vm_compute; exact I ] | ]);
  lia.

Lemma reencodable_tags `{Squish} (index : Z) :
  (0 <= index < FORMATS_size)%Z ->
  Format.name (FORMATS_at index) ∈ reencodable_formats ->
  index ∈ [0; 1; 2; 3; 5; 6; 8; 9; 10; 11; 12; 19; 22; 23; 26]%Z.
Proof. solve_tags. Qed.

Lemma opaque_tags `{Squish} (index : Z) :
  (0 <= index < FORMATS_size)%Z ->
  Format.name (FORMATS_at index) ∈ opaque_formats ->
  index ∈ [2; 3; 4; 5; 16; 17; 18; 22]%Z.
Proof. solve_tags. Qed.

Lemma block_tags `{Squish} (index : Z) :
  (0 <= index < FORMATS_size)%Z ->
  Format.name (FORMATS_at index) ∈ block_formats ->
  index ∈ [13; 14; 15; 20; 29]%Z.
Proof. solve_tags. Qed.

Lemma pixel_tags `{Squish} (index : Z) :
  (0 <= index < FORMATS_size)%Z ->
  Format.name (FORMATS_at index) ∈ pixel_formats ->
  index ∈ [0; 1; 2; 3; 4; 5; 6; 8; 9; 10; 11; 12; 16; 17; 18; 19; 21; 22; 23; 26]%Z.
Proof. solve_tags. Qed.

Lemma grey_tags `{Squish} (index : Z) :
  (0 <= index < FORMATS_size)%Z ->
  Format.name (FORMATS_at index) ∈ ["I8"; "IA88"]%string ->
  index ∈ [5; 6]%Z.
Proof. solve_tags. Qed.

Lemma packed565_tags `{Squish} (index : Z) :
  (0 <= index < FORMATS_size)%Z ->
  Format.name (FORMATS_at index) ∈ ["RGB565"; "BGR565"]%string ->
  index ∈ [4; 17]%Z.
Proof. solve_tags. Qed.

(** Brings the theorem to one goal per tag, with the registry entry of
    the tag evaluated. *)
Ltac size_whnf :=
  repeat match goal with
  | H : context [ pixel_bytes (Format.name (FORMATS_at ?k)) ] |- _ =>
      let v := eval vm_compute in (pixel_bytes (Format.name (FORMATS_at k))) in
      change (pixel_bytes (Format.name (FORMATS_at k))) with v in H
  | |- context [ pixel_bytes (Format.name (FORMATS_at ?k)) ] =>
      let v := eval vm_compute in (pixel_bytes (Format.name (FORMATS_at k))) in
      change (pixel_bytes (Format.name (FORMATS_at k))) with v
  end.

Ltac per_tag Htag :=
  repeat (apply elem_of_cons in Htag as [->|Htag]); [ .. | by apply elem_of_nil in Htag ];
  size_whnf; entry_whnf.

Ltac flat_sizes width height :=
  repeat match goal with
  | H : context [ ?k * width * height ] |- _ =>
      replace (k * width * height) with (k * (width * height)) in H by lia
  | |- context [ ?k * width * height ] =>
      replace (k * width * height) with (k * (width * height)) by lia
  end.

(** [load] then [save] gives back the encoded bytes, in fifteen formats. *)
Theorem load_then_save_identity `{Squish} (fmt : ImageFormats.t) (width height : nat)
    (data data0 dest : bytebuf) :
  (0 <= ImageFormats.ind fmt < FORMATS_size)%Z ->
  registry_name (ImageFormats.ind fmt) ∈ reencodable_formats ->
  fits_uint (4 * width * height) ->
  bytes data ->
  length data = pixel_bytes (registry_name (ImageFormats.ind fmt)) * width * height ->
  length data0 = pixel_bytes (registry_name (ImageFormats.ind fmt)) * width * height ->
  length dest = 4 * width * height ->
  exists loaded,
    load fmt dest data width height = Ok loaded /\
    save fmt loaded data0 width height = Ok data.
Proof.
  intros Hind Hname Hfit Hbytes Hdata Hdata0 Hdest.
  unfold registry_name in *.
  rewrite load_dispatch by done.
  setoid_rewrite save_dispatch; [|done].
  pose proof (reencodable_tags _ Hind Hname) as Htag.
  destruct fmt as [ind fname].
  cbn [ImageFormats.ind ImageFormats.name] in *.
  flat_sizes width height.
  per_tag Htag; (eexists; split; [ reflexivity | ]); f_equal.
  - by apply reencode_copy.
  - by apply reencode_abgr8888.
  - by apply reencode_rgb888.
  - by apply reencode_bgr888.
  - apply reencode_i8; (done || lia).
  - by apply reencode_ia88.
  - apply reencode_a8; (done || lia).
  - by apply reencode_rgb888_bluescreen.
  - by apply reencode_bgr888_bluescreen.
  - by apply reencode_argb8888.
  - by apply reencode_bgra8888.
  - by apply reencode_bgra4444.
  - by apply reencode_uv88.
  - by apply reencode_copy.
  - by apply reencode_copy.
Qed.

Lemma load_then_save_identity_witness :
  exists loaded,
    @load squish_none (ImageFormats.mk 19 "BGRA4444") [0; 0; 0; 0]%Z [18; 52]%Z 1 1
      = Ok loaded /\
    @save squish_none (ImageFormats.mk 19 "BGRA4444") loaded [0; 0]%Z 1 1 = Ok [18; 52]%Z.
Proof.
  apply (@load_then_save_identity squish_none (ImageFormats.mk 19 "BGRA4444") 1 1
           [18; 52]%Z [0; 0]%Z [0; 0; 0; 0]%Z).
  - vm_compute. split; [discriminate | reflexivity].
  - apply (bool_decide_unpack _). vm_compute. exact I.
  - vm_compute. reflexivity.
  - repeat constructor; unfold is_byte; lia.
  - reflexivity.
  - reflexivity.
  - reflexivity.
Defined.

(** * [save] then [load] in the formats that lose something *)

Lemma get_fmap (f : Z -> Z) (buf : bytebuf) j :
  j < length buf -> get (f <$> buf) j = f (get buf j).
Proof.
  intros Hj. unfold get. rewrite list_lookup_fmap.
  destruct (lookup_lt_is_Some_2 buf j Hj) as [v ->]. reflexivity.
Qed.

(** For a frame of bytes whose byte count [4 * width * height] is below
    2^32, with buffers of the frame's sizes: in the grey formats the
    frame comes back with every colour channel at the truncated mean of
    the three, opaque in I8 and with its own alpha in IA88. *)
Theorem grey_round_trip `{Squish} (fmt : ImageFormats.t) (width height : nat)
    (pixels data0 dest : bytebuf) :
  (0 <= ImageFormats.ind fmt < FORMATS_size)%Z ->
  registry_name (ImageFormats.ind fmt) ∈ ["I8"; "IA88"]%string ->
  fits_uint (4 * width * height) ->
  bytes pixels ->
  length pixels = 4 * width * height ->
  length data0 = pixel_bytes (registry_name (ImageFormats.ind fmt)) * width * height ->
  length dest = 4 * width * height ->
  exists saved out,
    save fmt pixels data0 width height = Ok saved /\
    load fmt dest saved width height = Ok out /\
    length out = 4 * width * height /\
    forall off, off < width * height ->
      pixel_at out off =
        (grey_level pixels.[4 * off + R] pixels.[4 * off + G] pixels.[4 * off + B],
         grey_level pixels.[4 * off + R] pixels.[4 * off + G] pixels.[4 * off + B],
         grey_level pixels.[4 * off + R] pixels.[4 * off + G] pixels.[4 * off + B],
         if bool_decide (registry_name (ImageFormats.ind fmt) = "I8"%string)
         then 255%Z else pixels.[4 * off + A]).
Proof.
  intros Hind Hname Hfit Hbytes Hlen Hdata Hdest.
  unfold registry_name in *.
  rewrite save_dispatch by done.
  setoid_rewrite load_dispatch; [|done].
  pose proof (grey_tags _ Hind Hname) as Htag.
  destruct fmt as [ind fname].
  cbn [ImageFormats.ind ImageFormats.name] in *.
  flat_sizes width height.
  assert (fits_uint (width * height)) by (unfold fits_uint in *; lia).
  per_tag Htag; (do 2 eexists; split; [ reflexivity | split; [ reflexivity | split ] ]).
  - rewrite load_i8_length. lia.
  - intros off Hoff. unfold pixel_at.
    rewrite !i8_round_trip_at by (done || lia || (unfold R, G, B, A; lia)).
    reflexivity.
  - rewrite load_ia88_length. lia.
  - intros off Hoff. unfold pixel_at.
    rewrite !ia88_round_trip_at by (done || lia || (unfold R, G, B, A; lia)).
    reflexivity.
Qed.

Lemma grey_round_trip_witness :
  exists saved out,
    @save squish_none (ImageFormats.mk 5 "I8") [10; 20; 33; 7]%Z [0]%Z 1 1 = Ok saved /\
    @load squish_none (ImageFormats.mk 5 "I8") [0; 0; 0; 0]%Z saved 1 1 = Ok out /\
    length out = 4 * 1 * 1 /\
    forall off, off < 1 * 1 ->
      pixel_at out off =
        (grey_level [10; 20; 33; 7]%Z.[4 * off + R] [10; 20; 33; 7]%Z.[4 * off + G]
           [10; 20; 33; 7]%Z.[4 * off + B],
         grey_level [10; 20; 33; 7]%Z.[4 * off + R] [10; 20; 33; 7]%Z.[4 * off + G]
           [10; 20; 33; 7]%Z.[4 * off + B],
         grey_level [10; 20; 33; 7]%Z.[4 * off + R] [10; 20; 33; 7]%Z.[4 * off + G]
           [10; 20; 33; 7]%Z.[4 * off + B],
         if bool_decide (@registry_name squish_none
                           (ImageFormats.ind (ImageFormats.mk 5 "I8")) = "I8"%string)
         then 255%Z else [10; 20; 33; 7]%Z.[4 * off + A]).
Proof.
  apply (@grey_round_trip squish_none (ImageFormats.mk 5 "I8") 1 1
           [10; 20; 33; 7]%Z [0]%Z [0; 0; 0; 0]%Z).
  - vm_compute. split; [discriminate | reflexivity].
  - apply (bool_decide_unpack _). vm_compute. exact I.
  - vm_compute. reflexivity.
  - repeat constructor; unfold is_byte; lia.
  - reflexivity.
  - reflexivity.
  - reflexivity.
Defined.

(** For a frame of bytes whose byte count [4 * width * height] is below
    2^32, with buffers of the frame's sizes: I8 loses nothing on an
    opaque grey frame. *)
Theorem i8_round_trip_opaque_grey `{Squish} (fmt : ImageFormats.t) (width height : nat)
    (pixels data0 dest : bytebuf) :
  ImageFormats.ind fmt = 5%Z ->
  fits_uint (4 * width * height) ->
  bytes pixels ->
  length pixels = 4 * width * height ->
  (forall off, off < width * height ->
     pixels.[4 * off + R] = pixels.[4 * off + G] /\
     pixels.[4 * off + G] = pixels.[4 * off + B] /\
     pixels.[4 * off + A] = 255%Z) ->
  length data0 = width * height ->
  length dest = 4 * width * height ->
  exists saved,
    save fmt pixels data0 width height = Ok saved /\
    load fmt dest saved width height = Ok pixels.
Proof.
  intros Hind Hfit Hbytes Hlen Hgrey Hdata Hdest.
  assert (0 <= ImageFormats.ind fmt < FORMATS_size)%Z as Hrange
    by (rewrite Hind; unfold FORMATS_size; lia).
  rewrite save_dispatch by done.
  setoid_rewrite load_dispatch; [|done].
  rewrite Hind. entry_whnf.
  eexists. split; [reflexivity|]. f_equal.
  flat_sizes width height.
  assert (fits_uint (width * height)) by (unfold fits_uint in *; lia).
  apply (bytebuf_ext_px 4 (width * height)); [lia | rewrite load_i8_length; lia | lia |].
  intros off c Hoff Hc.
  rewrite i8_round_trip_at by (done || lia).
  destruct (Hgrey off Hoff) as (Hrg & Hgb & Ha).
  rewrite <- Hgb, <- Hrg, grey_level_grey.
  unfold R, G, B, A in *. rewrite ?Nat.add_0_r in *.
  do 4 (try destruct c as [|c]); [ .. | lia ];
    cbn [lookup list_lookup default from_option id]; rewrite ?Nat.add_0_r; congruence.
Qed.

Lemma i8_round_trip_opaque_grey_witness :
  exists saved,
    @save squish_none (ImageFormats.mk 5 "I8") [9; 9; 9; 255]%Z [0]%Z 1 1 = Ok saved /\
    @load squish_none (ImageFormats.mk 5 "I8") [1; 2; 3; 4]%Z saved 1 1 = Ok [9; 9; 9; 255]%Z.
Proof.
  apply (@i8_round_trip_opaque_grey squish_none (ImageFormats.mk 5 "I8") 1 1
           [9; 9; 9; 255]%Z [0]%Z [1; 2; 3; 4]%Z).
  - reflexivity.
  - vm_compute. reflexivity.
  - repeat constructor; unfold is_byte; lia.
  - reflexivity.
  - intros off Hoff. assert (off = 0) as -> by lia. vm_compute. auto.
  - reflexivity.
  - reflexivity.
Defined.

(** For a frame of bytes whose byte count [4 * width * height] is below
    2^32, with buffers of the frame's sizes: in BGRA4444 the frame comes
    back with every byte reduced to its high nibble, written twice; a
    second pass changes nothing more. *)
Theorem bgra4444_round_trip `{Squish} (fmt : ImageFormats.t) (width height : nat)
    (pixels data0 dest : bytebuf) :
  ImageFormats.ind fmt = 19%Z ->
  fits_uint (4 * width * height) ->
  bytes pixels ->
  length pixels = 4 * width * height ->
  length data0 = 2 * width * height ->
  length dest = 4 * width * height ->
  (exists saved,
     save fmt pixels data0 width height = Ok saved /\
     load fmt dest saved width height = Ok (nibble_quantise <$> pixels)) /\
  nibble_quantise <$> (nibble_quantise <$> pixels) = nibble_quantise <$> pixels.
Proof.
  intros Hind Hfit Hbytes Hlen Hdata Hdest.
  assert (0 <= ImageFormats.ind fmt < FORMATS_size)%Z as Hrange
    by (rewrite Hind; unfold FORMATS_size; lia).
  split.
  - rewrite save_dispatch by done.
    setoid_rewrite load_dispatch; [|done].
    rewrite Hind. entry_whnf.
    eexists. split; [reflexivity|]. f_equal.
    flat_sizes width height.
    assert (fits_uint (width * height)) by (unfold fits_uint in *; lia).
    apply (bytebuf_ext_px 4 (width * height));
      [lia | rewrite load_bgra4444_length; lia | rewrite length_fmap; lia |].
    intros off c Hoff Hc.
    rewrite bgra4444_round_trip_at by (done || lia).
    by rewrite get_fmap by lia.
  - rewrite <- list_fmap_compose. apply list_fmap_ext.
    intros j v Hv. cbn. apply nibble_quantise_idempotent.
    eapply (Forall_lookup_1 _ _ _ _ Hbytes Hv).
Qed.

Lemma bgra4444_round_trip_witness :
  (exists saved,
     @save squish_none (ImageFormats.mk 19 "BGRA4444") [18; 52; 86; 120]%Z [0; 0]%Z 1 1
       = Ok saved /\
     @load squish_none (ImageFormats.mk 19 "BGRA4444") [0; 0; 0; 0]%Z saved 1 1
       = Ok (nibble_quantise <$> [18; 52; 86; 120]%Z)) /\
  nibble_quantise <$> (nibble_quantise <$> [18; 52; 86; 120]%Z) =
    nibble_quantise <$> [18; 52; 86; 120]%Z.
Proof.
  apply (@bgra4444_round_trip squish_none (ImageFormats.mk 19 "BGRA4444") 1 1
           [18; 52; 86; 120]%Z [0; 0]%Z [0; 0; 0; 0]%Z).
  - reflexivity.
  - vm_compute. reflexivity.
  - repeat constructor; unfold is_byte; lia.
  - reflexivity.
  - reflexivity.
  - reflexivity.
Defined.

(** For a frame of bytes whose byte count [4 * width * height] is below
    2^32, with buffers of the frame's sizes: in RGB565 and in BGR565 the
    frame comes back opaque, with green cut to six bits, red and blue
    cut to five, and red and blue in each other's place. *)
Theorem packed565_round_trip `{Squish} (fmt : ImageFormats.t) (width height : nat)
    (pixels data0 dest : bytebuf) :
  (0 <= ImageFormats.ind fmt < FORMATS_size)%Z ->
  registry_name (ImageFormats.ind fmt) ∈ ["RGB565"; "BGR565"]%string ->
  fits_uint (4 * width * height) ->
  bytes pixels ->
  length pixels = 4 * width * height ->
  length data0 = 2 * width * height ->
  length dest = 4 * width * height ->
  exists saved out,
    save fmt pixels data0 width height = Ok saved /\
    load fmt dest saved width height = Ok out /\
    length out = 4 * width * height /\
    forall off, off < width * height ->
      pixel_at out off =
        (quantise5 pixels.[4 * off + B], quantise6 pixels.[4 * off + G],
         quantise5 pixels.[4 * off + R], 255%Z).
Proof.
  intros Hind Hname Hfit Hbytes Hlen Hdata Hdest.
  unfold registry_name in *.
  rewrite save_dispatch by done.
  setoid_rewrite load_dispatch; [|done].
  pose proof (packed565_tags _ Hind Hname) as Htag.
  destruct fmt as [ind fname].
  cbn [ImageFormats.ind ImageFormats.name] in *.
  flat_sizes width height.
  assert (fits_uint (width * height)) by (unfold fits_uint in *; lia).
  per_tag Htag; (do 2 eexists; split; [ reflexivity | split; [ reflexivity | split ] ]).
  - rewrite load_rgb565_length. lia.
  - intros off Hoff. unfold pixel_at.
    rewrite !rgb565_round_trip_at by (done || lia || (unfold R, G, B, A; lia)).
    reflexivity.
  - rewrite load_bgr565_length. lia.
  - intros off Hoff. unfold pixel_at.
    rewrite !bgr565_round_trip_at by (done || lia || (unfold R, G, B, A; lia)).
    reflexivity.
Qed.

Lemma packed565_round_trip_witness :
  exists saved out,
    @save squish_none (ImageFormats.mk 4 "RGB565") [255; 0; 0; 255]%Z [0; 0]%Z 1 1
      = Ok saved /\
    @load squish_none (ImageFormats.mk 4 "RGB565") [0; 0; 0; 0]%Z saved 1 1 = Ok out /\
    length out = 4 * 1 * 1 /\
    forall off, off < 1 * 1 ->
      pixel_at out off =
        (quantise5 [255; 0; 0; 255]%Z.[4 * off + B], quantise6 [255; 0; 0; 255]%Z.[4 * off + G],
         quantise5 [255; 0; 0; 255]%Z.[4 * off + R], 255%Z).
Proof.
  apply (@packed565_round_trip squish_none (ImageFormats.mk 4 "RGB565") 1 1
           [255; 0; 0; 255]%Z [0; 0]%Z [0; 0; 0; 0]%Z).
  - vm_compute. split; [discriminate | reflexivity].
  - apply (bool_decide_unpack _). vm_compute. exact I.
  - vm_compute. reflexivity.
  - repeat constructor; unfold is_byte; lia.
  - reflexivity.
  - reflexivity.
  - reflexivity.
Defined.

(** For a frame of bytes whose byte count [4 * width * height] is below
    2^32, with buffers of the frame's sizes: in the bluescreen formats
    a pixel comes back as transparent black when its alpha was below
    128 or its colour was pure blue, and as its own colour, opaque,
    otherwise. *)
Theorem bluescreen_round_trip `{Squish} (fmt : ImageFormats.t) (width height : nat)
    (pixels data0 dest : bytebuf) :
  (0 <= ImageFormats.ind fmt < FORMATS_size)%Z ->
  registry_name (ImageFormats.ind fmt)
    ∈ ["RGB888_BLUESCREEN"; "BGR888_BLUESCREEN"]%string ->
  fits_uint (4 * width * height) ->
  bytes pixels ->
  length pixels = 4 * width * height ->
  length data0 = 3 * width * height ->
  length dest = 4 * width * height ->
  exists saved out,
    save fmt pixels data0 width height = Ok saved /\
    load fmt dest saved width height = Ok out /\
    length out = 4 * width * height /\
    forall off, off < width * height ->
      pixel_at out off =
        if decide ((pixels.[4 * off + A] < 128)%Z \/
                   is_pure_blue pixels.[4 * off + R] pixels.[4 * off + G] pixels.[4 * off + B])
        then (0, 0, 0, 0)%Z
        else (pixels.[4 * off + R], pixels.[4 * off + G], pixels.[4 * off + B], 255%Z).
Proof.
  intros Hind Hname Hfit Hbytes Hlen Hdata Hdest.
  unfold registry_name in *.
  rewrite save_dispatch by done.
  setoid_rewrite load_dispatch; [|done].
  pose proof (bluescreen_tags _ Hind Hname) as Htag.
  destruct fmt as [ind fname].
  cbn [ImageFormats.ind ImageFormats.name] in *.
  flat_sizes width height.
  assert (fits_uint (width * height)) by (unfold fits_uint in *; lia).
  per_tag Htag; (do 2 eexists; split; [ reflexivity | split; [ reflexivity | split ] ]).
  - rewrite load_rgb888_bluescreen_length. lia.
  - intros off Hoff. unfold pixel_at.
    rewrite !rgb888_bluescreen_round_trip_at by (done || lia || (unfold R, G, B, A; lia)).
    by case_decide.
  - rewrite load_bgr888_bluescreen_length. lia.
  - intros off Hoff. unfold pixel_at.
    rewrite !bgr888_bluescreen_round_trip_at by (done || lia || (unfold R, G, B, A; lia)).
    by case_decide.
Qed.

Lemma bluescreen_round_trip_witness :
  exists saved out,
    @save squish_none (ImageFormats.mk 9 "RGB888_BLUESCREEN") [0; 0; 255; 255]%Z
      [0; 0; 0]%Z 1 1 = Ok saved /\
    @load squish_none (ImageFormats.mk 9 "RGB888_BLUESCREEN") [0; 0; 0; 0]%Z saved 1 1
      = Ok out /\
    length out = 4 * 1 * 1 /\
    forall off, off < 1 * 1 ->
      pixel_at out off =
        if decide (([0; 0; 255; 255]%Z.[4 * off + A] < 128)%Z \/
                   is_pure_blue [0; 0; 255; 255]%Z.[4 * off + R]
                     [0; 0; 255; 255]%Z.[4 * off + G] [0; 0; 255; 255]%Z.[4 * off + B])
        then (0, 0, 0, 0)%Z
        else ([0; 0; 255; 255]%Z.[4 * off + R], [0; 0; 255; 255]%Z.[4 * off + G],
              [0; 0; 255; 255]%Z.[4 * off + B], 255%Z).
Proof.
  apply (@bluescreen_round_trip squish_none (ImageFormats.mk 9 "RGB888_BLUESCREEN") 1 1
           [0; 0; 255; 255]%Z [0; 0; 0]%Z [0; 0; 0; 0]%Z).
  - vm_compute. split; [discriminate | reflexivity].
  - apply (bool_decide_unpack _). vm_compute. exact I.
  - vm_compute. reflexivity.
  - repeat constructor; unfold is_byte; lia.
  - reflexivity.
  - reflexivity.
  - reflexivity.
Defined.

(** * Codecs stay inside the frame *)

Lemma prange_confined_length k body n p :
  confined k body -> length (prange n body p) = length p.
Proof. intros Hc. apply prange_length. intros off q. apply (Hc off q). Qed.

Lemma prange_confined k body n p j :
  confined k body -> k * n <= j -> get (prange n body p) j = get p j.
Proof.
  intros Hc Hj. destruct (decide (j < length p)) as [Hlt|Hge].
  - induction n as [|n IH]; simpl; [done|].
    destruct (Hc n (prange n body p)) as [_ Hget].
    rewrite Hget by (rewrite ?(prange_confined_length k) by done; lia).
    apply IH. lia.
  - rewrite !get_ge; [done | lia | rewrite (prange_confined_length k) by done; lia].
Qed.

Ltac solve_confined :=
  let off := fresh "off" in
  let p := fresh "p" in
  let j := fresh "j" in
  let Hj := fresh "Hj" in
  let Hout := fresh "Hout" in
  intros off p; unfold R, G, B, A; cbv zeta;
  try match goal with
      | |- context [ if ?b then store _ _ _ else _ ] => destruct b
      end;
  (split;
   [ rewrite ?length_store; reflexivity
   | intros j Hj Hout;
     rewrite ?get_store by (rewrite ?length_store; exact Hj);
     repeat case_decide; first [ lia | reflexivity ] ]).

Ltac loader_frame f :=
  intros pixels data width height; unfold f; split;
  [ apply (prange_confined_length 4); solve_confined
  | intros j Hj; apply (prange_confined 4); [ solve_confined | exact Hj ] ].

Ltac saver_frame k f :=
  intros pixels data width height; unfold f; split;
  [ apply (prange_confined_length k); solve_confined
  | intros j Hj; apply (prange_confined k); [ solve_confined | exact Hj ] ].

Lemma load_bgra8888_frame : loader_in_frame load_bgra8888.
Proof. loader_frame load_bgra8888. Qed.
Lemma save_bgra8888_frame : saver_in_frame 4 save_bgra8888.
Proof. saver_frame 4 save_bgra8888. Qed.
Lemma load_argb8888_frame : loader_in_frame load_argb8888.
Proof. loader_frame load_argb8888. Qed.
Lemma save_argb8888_frame : saver_in_frame 4 save_argb8888.
Proof. saver_frame 4 save_argb8888. Qed.
Lemma load_abgr8888_frame : loader_in_frame load_abgr8888.
Proof. loader_frame load_abgr8888. Qed.
Lemma save_abgr8888_frame : saver_in_frame 4 save_abgr8888.
Proof. saver_frame 4 save_abgr8888. Qed.
Lemma load_rgb888_frame : loader_in_frame load_rgb888.
Proof. loader_frame load_rgb888. Qed.
Lemma save_rgb888_frame : saver_in_frame 3 save_rgb888.
Proof. saver_frame 3 save_rgb888. Qed.
Lemma load_bgr888_frame : loader_in_frame load_bgr888.
Proof. loader_frame load_bgr888. Qed.
Lemma save_bgr888_frame : saver_in_frame 3 save_bgr888.
Proof. saver_frame 3 save_bgr888. Qed.
Lemma load_bgrx8888_frame : loader_in_frame load_bgrx8888.
Proof. loader_frame load_bgrx8888. Qed.
Lemma save_bgrx8888_frame : saver_in_frame 4 save_bgrx8888.
Proof. saver_frame 4 save_bgrx8888. Qed.
Lemma load_rgb565_frame : loader_in_frame load_rgb565.
Proof. loader_frame load_rgb565. Qed.
Lemma save_rgb565_frame : saver_in_frame 2 save_rgb565.
Proof. saver_frame 2 save_rgb565. Qed.
Lemma load_bgr565_frame : loader_in_frame load_bgr565.
Proof. loader_frame load_bgr565. Qed.
Lemma save_bgr565_frame : saver_in_frame 2 save_bgr565.
Proof. saver_frame 2 save_bgr565. Qed.
Lemma load_bgra4444_frame : loader_in_frame load_bgra4444.
Proof. loader_frame load_bgra4444. Qed.
Lemma save_bgra4444_frame : saver_in_frame 2 save_bgra4444.
Proof. saver_frame 2 save_bgra4444. Qed.
Lemma load_bgra5551_frame : loader_in_frame load_bgra5551.
Proof. loader_frame load_bgra5551. Qed.
Lemma save_bgra5551_frame : saver_in_frame 2 save_bgra5551.
Proof. saver_frame 2 save_bgra5551. Qed.
Lemma load_bgrx5551_frame : loader_in_frame load_bgrx5551.
Proof. loader_frame load_bgrx5551. Qed.
Lemma save_bgrx5551_frame : saver_in_frame 2 save_bgrx5551.
Proof. saver_frame 2 save_bgrx5551. Qed.
Lemma load_i8_frame : loader_in_frame load_i8.
Proof. loader_frame load_i8. Qed.
Lemma save_i8_frame : saver_in_frame 1 save_i8.
Proof. saver_frame 1 save_i8. Qed.
Lemma load_ia88_frame : loader_in_frame load_ia88.
Proof. loader_frame load_ia88. Qed.
Lemma save_ia88_frame : saver_in_frame 2 save_ia88.
Proof. saver_frame 2 save_ia88. Qed.
Lemma save_a8_frame : saver_in_frame 1 save_a8.
Proof. saver_frame 1 save_a8. Qed.
Lemma load_uv88_frame : loader_in_frame load_uv88.
Proof. loader_frame load_uv88. Qed.
Lemma save_uv88_frame : saver_in_frame 2 save_uv88.
Proof. saver_frame 2 save_uv88. Qed.
Lemma load_rgb888_bluescreen_frame : loader_in_frame load_rgb888_bluescreen.
Proof. loader_frame load_rgb888_bluescreen. Qed.
Lemma save_rgb888_bluescreen_frame : saver_in_frame 3 save_rgb888_bluescreen.
Proof. saver_frame 3 save_rgb888_bluescreen. Qed.
Lemma load_bgr888_bluescreen_frame : loader_in_frame load_bgr888_bluescreen.
Proof. loader_frame load_bgr888_bluescreen. Qed.
Lemma save_bgr888_bluescreen_frame : saver_in_frame 3 save_bgr888_bluescreen.
Proof. saver_frame 3 save_bgr888_bluescreen. Qed.

Lemma load_a8_frame : loader_in_frame load_a8.
Proof.
  intros pixels data width height. unfold load_a8. cbv zeta. split.
  - rewrite (prange_confined_length 4) by solve_confined. apply length_memset.
  - intros j Hj. rewrite (prange_confined 4) by (solve_confined || exact Hj).
    destruct (decide (j < length pixels)) as [Hlt|Hge].
    + rewrite get_memset by done. by rewrite decide_False by lia.
    + rewrite !get_ge; [done | lia | rewrite length_memset; lia].
Qed.

(** [memcpy] of [n] bytes between buffers that hold at least [n]. *)
Lemma memcpy_frame dst src n :
  n <= length src -> n <= length dst ->
  length (memcpy dst src n) = length dst /\
  forall j, n <= j -> get (memcpy dst src n) j = get dst j.
Proof.
  intros Hs Hd. unfold memcpy. split.
  - rewrite length_app, length_take, length_drop. lia.
  - intros j Hj. rewrite get_app_r by (rewrite length_take; lia).
    rewrite length_take, get_drop. f_equal. lia.
Qed.

Lemma loader_in_frame_fits f pixels data width height :
  loader_in_frame f -> fits_uint (width * height) ->
  length (f pixels data width height) = length pixels /\
  forall j, 4 * (width * height) <= j -> get (f pixels data width height) j = get pixels j.
Proof.
  intros Hf Hfit. destruct (Hf pixels data width height) as [Hl Ht].
  rewrite uint_small in Ht by done. by split.
Qed.

Lemma saver_in_frame_fits k f pixels data width height :
  saver_in_frame k f -> fits_uint (width * height) ->
  length (f pixels data width height) = length data /\
  forall j, k * (width * height) <= j -> get (f pixels data width height) j = get data j.
Proof.
  intros Hf Hfit. destruct (Hf pixels data width height) as [Hl Ht].
  rewrite uint_small in Ht by done. by split.
Qed.

Lemma load_copy_frame pixels data width height :
  fits_uint (4 * (width * height)) ->
  4 * (width * height) <= length pixels -> 4 * (width * height) <= length data ->
  length (load_copy pixels data width height) = length pixels /\
  forall j, 4 * (width * height) <= j -> get (load_copy pixels data width height) j = get pixels j.
Proof.
  intros Hfit Hp Hd. unfold load_copy.
  replace (4 * width * height) with (4 * (width * height)) by lia.
  rewrite uint_small by done. by apply memcpy_frame.
Qed.

Lemma save_copy_frame pixels data width height :
  fits_uint (4 * (width * height)) ->
  4 * (width * height) <= length pixels -> 4 * (width * height) <= length data ->
  length (save_copy pixels data width height) = length data /\
  forall j, 4 * (width * height) <= j -> get (save_copy pixels data width height) j = get data j.
Proof.
  intros Hfit Hp Hd. unfold save_copy.
  replace (4 * width * height) with (4 * (width * height)) by lia.
  rewrite uint_small by done. by apply memcpy_frame.
Qed.

Create HintDb frames.
#[local] Hint Resolve
  load_bgra8888_frame save_bgra8888_frame load_argb8888_frame save_argb8888_frame
  load_abgr8888_frame save_abgr8888_frame load_rgb888_frame save_rgb888_frame
  load_bgr888_frame save_bgr888_frame load_bgrx8888_frame save_bgrx8888_frame
  load_rgb565_frame save_rgb565_frame load_bgr565_frame save_bgr565_frame
  load_bgra4444_frame save_bgra4444_frame load_bgra5551_frame save_bgra5551_frame
  load_bgrx5551_frame save_bgrx5551_frame load_i8_frame save_i8_frame
  load_ia88_frame save_ia88_frame load_a8_frame save_a8_frame
  load_uv88_frame save_uv88_frame
  load_rgb888_bluescreen_frame save_rgb888_bluescreen_frame
  load_bgr888_bluescreen_frame save_bgr888_bluescreen_frame : frames.

(** In every format stored pixel by pixel, [load] and [save] return a
    buffer of the length they were given and change nothing after the
    frame: the first [4 * width * height] bytes of [pixels], the first
    [pixel_bytes * width * height] bytes of [data]. *)
Theorem codecs_stay_in_frame `{Squish} (fmt : ImageFormats.t) (width height : nat)
    (pixels data : bytebuf) :
  (0 <= ImageFormats.ind fmt < FORMATS_size)%Z ->
  registry_name (ImageFormats.ind fmt) ∈ pixel_formats ->
  fits_uint (4 * width * height) ->
  4 * width * height <= length pixels ->
  pixel_bytes (registry_name (ImageFormats.ind fmt)) * width * height <= length data ->
  (exists out,
     load fmt pixels data width height = Ok out /\
     length out = length pixels /\
     forall j, 4 * width * height <= j -> out.[j] = pixels.[j]) /\
  (exists enc,
     save fmt pixels data width height = Ok enc /\
     length enc = length data /\
     forall j, pixel_bytes (registry_name (ImageFormats.ind fmt)) * width * height <= j ->
       enc.[j] = data.[j]).
Proof.
  intros Hind Hname Hfit Hpixels Hdata.
  unfold registry_name in *.
  rewrite save_dispatch, load_dispatch by done.
  pose proof (pixel_tags _ Hind Hname) as Htag.
  destruct fmt as [ind fname].
  cbn [ImageFormats.ind ImageFormats.name] in *.
  flat_sizes width height.
  assert (fits_uint (width * height)) by (unfold fits_uint in *; lia).
  per_tag Htag;
    (split; (eexists; split; [ reflexivity | ]);
     first [ apply loader_in_frame_fits; [ solve [ eauto with frames ] | done ]
           | apply saver_in_frame_fits; [ solve [ eauto with frames ] | done ]
           | by apply load_copy_frame
           | by apply save_copy_frame ]).
Qed.

Lemma codecs_stay_in_frame_witness :
  (exists out,
     @load squish_none (ImageFormats.mk 2 "RGB888") [0; 0; 0; 0; 7; 7]%Z [1; 2; 3; 8]%Z 1 1
       = Ok out /\
     length out = length [0; 0; 0; 0; 7; 7]%Z /\
     forall j, 4 * 1 * 1 <= j -> out.[j] = [0; 0; 0; 0; 7; 7]%Z.[j]) /\
  (exists enc,
     @save squish_none (ImageFormats.mk 2 "RGB888") [0; 0; 0; 0; 7; 7]%Z [1; 2; 3; 8]%Z 1 1
       = Ok enc /\
     length enc = length [1; 2; 3; 8]%Z /\
     forall j, pixel_bytes (@registry_name squish_none
                              (ImageFormats.ind (ImageFormats.mk 2 "RGB888"))) * 1 * 1 <= j ->
       enc.[j] = [1; 2; 3; 8]%Z.[j]).
Proof.
  apply (@codecs_stay_in_frame squish_none (ImageFormats.mk 2 "RGB888") 1 1
           [0; 0; 0; 0; 7; 7]%Z [1; 2; 3; 8]%Z).
  - vm_compute. split; [discriminate | reflexivity].
  - apply (bool_decide_unpack _). vm_compute. exact I.
  - vm_compute. reflexivity.
  - simpl. lia.
  - vm_compute. lia.
Defined.

(** * Formats without alpha load opaque *)

(** For a frame whose byte count [4 * width * height] is below 2^32, a
    pixel buffer of that many bytes and an encoded buffer of the
    format's [pixel_bytes] per pixel, [load] in a format without an
    alpha channel of its own sets the alpha byte of every pixel to 255,
    whatever the encoded bytes are. *)
Theorem opaque_formats_load_opaque `{Squish} (fmt : ImageFormats.t) (width height : nat)
    (pixels data : bytebuf) :
  (0 <= ImageFormats.ind fmt < FORMATS_size)%Z ->
  registry_name (ImageFormats.ind fmt) ∈ opaque_formats ->
  fits_uint (4 * width * height) ->
  length pixels = 4 * width * height ->
  length data = pixel_bytes (registry_name (ImageFormats.ind fmt)) * width * height ->
  exists out,
    load fmt pixels data width height = Ok out /\
    length out = 4 * width * height /\
    forall off, off < width * height -> out.[4 * off + A] = 255%Z.
Proof.
  intros Hind Hname Hfit Hpixels Hdata.
  unfold registry_name in *.
  rewrite load_dispatch by done.
  pose proof (opaque_tags _ Hind Hname) as Htag.
  destruct fmt as [ind fname].
  cbn [ImageFormats.ind ImageFormats.name] in *.
  flat_sizes width height.
  assert (fits_uint (width * height)) by (unfold fits_uint in *; lia).
  per_tag Htag; (eexists; split; [ reflexivity | split ]).
  - rewrite load_rgb888_length. lia.
  - intros off Hoff. unfold A. by rewrite load_rgb888_at by (done || lia).
  - rewrite load_bgr888_length. lia.
  - intros off Hoff. unfold A. by rewrite load_bgr888_at by (done || lia).
  - rewrite load_rgb565_length. lia.
  - intros off Hoff. unfold A. by rewrite load_rgb565_at by (done || lia).
  - rewrite load_i8_length. lia.
  - intros off Hoff. unfold A. by rewrite load_i8_at by (done || lia).
  - rewrite load_bgrx8888_length. lia.
  - intros off Hoff. unfold A. by rewrite load_bgrx8888_at by (done || lia).
  - rewrite load_bgr565_length. lia.
  - intros off Hoff. unfold A. by rewrite load_bgr565_at by (done || lia).
  - rewrite load_bgrx5551_length. lia.
  - intros off Hoff. unfold A. by rewrite load_bgrx5551_at by (done || lia).
  - rewrite load_uv88_length. lia.
  - intros off Hoff. unfold A. by rewrite load_uv88_at by (done || lia).
Qed.

Lemma opaque_formats_load_opaque_witness :
  exists out,
    @load squish_none (ImageFormats.mk 18 "BGRX5551") [0; 0; 0; 0]%Z [255; 255]%Z 1 1
      = Ok out /\
    length out = 4 * 1 * 1 /\
    forall off, off < 1 * 1 -> out.[4 * off + A] = 255%Z.
Proof.
  apply (@opaque_formats_load_opaque squish_none (ImageFormats.mk 18 "BGRX5551") 1 1
           [0; 0; 0; 0]%Z [255; 255]%Z).
  - vm_compute. split; [discriminate | reflexivity].
  - apply (bool_decide_unpack _). vm_compute. exact I.
  - vm_compute. reflexivity.
  - reflexivity.
  - reflexivity.
Defined.

(** * The three departures, on every frame *)

Section BlockSmallLength.
Context `{Squish}.
Context (pixels data : bytebuf) (width height : nat).
Context (Hsmall : width < 4 \/ height < 4).

Lemma block_small_test : (width <? 4) || (height <? 4) = true.
Proof. destruct (Nat.ltb_spec width 4), (Nat.ltb_spec height 4); simpl; try done; lia. Qed.

Ltac small_length f :=
  unfold f; rewrite block_small_test; unfold range_step;
  apply prange_length; intros; cbv zeta; by rewrite !length_store.

Lemma load_block_small_length :
  length (load_dxt1 pixels data width height) = length pixels /\
  length (load_dxt1_alpha pixels data width height) = length pixels /\
  length (load_dxt3 pixels data width height) = length pixels /\
  length (load_dxt5 pixels data width height) = length pixels /\
  length (load_ati2n pixels data width height) = length pixels.
Proof.
  split; [|split; [|split; [|split]]].
  - small_length @load_dxt1.
  - small_length @load_dxt1_alpha.
  - small_length @load_dxt3.
  - small_length @load_dxt5.
  - small_length @load_ati2n.
Qed.
End BlockSmallLength.

(** For a frame below four pixels in a dimension, whose byte count
    [4 * width * height] is below 2^32, and a pixel buffer of that many
    bytes: [load] in a block format sets red and green to 0 and blue to
    255 and leaves the alpha byte as it was, and [save] writes
    nothing. *)
Theorem block_small_frames `{Squish} (fmt : ImageFormats.t) (width height : nat)
    (pixels data : bytebuf) :
  (0 <= ImageFormats.ind fmt < FORMATS_size)%Z ->
  registry_name (ImageFormats.ind fmt) ∈ block_formats ->
  width < 4 \/ height < 4 ->
  fits_uint (4 * width * height) ->
  length pixels = 4 * width * height ->
  (exists out,
     load fmt pixels data width height = Ok out /\
     length out = 4 * width * height /\
     forall off, off < width * height ->
       pixel_at out off = (0, 0, 255, pixels.[4 * off + A])%Z) /\
  save fmt pixels data width height = Ok data.
Proof.
  intros Hind Hname Hsmall Hfit Hpixels.
  unfold registry_name in *.
  rewrite save_dispatch, load_dispatch by done.
  pose proof (block_tags _ Hind Hname) as Htag.
  destruct fmt as [ind fname].
  cbn [ImageFormats.ind ImageFormats.name] in *.
  flat_sizes width height.
  assert (fits_uint (width * height)) by (unfold fits_uint in *; lia).
  destruct (load_block_small_length pixels data width height Hsmall)
    as (L1 & L1a & L3 & L5 & L2n).
  destruct (save_block_small pixels data width height Hsmall)
    as (S1 & S1a & S3 & S5 & S2n).
  per_tag Htag;
    (split; [ eexists; split; [ reflexivity | split ] | by f_equal ]);
    try lia; intros off Hoff; unfold pixel_at, R, G, B, A.
  - by rewrite !load_dxt1_small_at by (done || lia).
  - by rewrite !load_dxt3_small_at by (done || lia).
  - by rewrite !load_dxt5_small_at by (done || lia).
  - by rewrite !load_dxt1_alpha_small_at by (done || lia).
  - by rewrite !load_ati2n_small_at by (done || lia).
Qed.

Lemma block_small_frames_witness :
  (exists out,
     @load squish_none (ImageFormats.mk 15 "DXT5") [7; 7; 7; 7; 8; 8; 8; 8]%Z [] 2 1 = Ok out /\
     length out = 4 * 2 * 1 /\
     forall off, off < 2 * 1 ->
       pixel_at out off = (0, 0, 255, [7; 7; 7; 7; 8; 8; 8; 8]%Z.[4 * off + A])%Z) /\
  @save squish_none (ImageFormats.mk 15 "DXT5") [7; 7; 7; 7; 8; 8; 8; 8]%Z [] 2 1 = Ok [].
Proof.
  apply (@block_small_frames squish_none (ImageFormats.mk 15 "DXT5") 2 1
           [7; 7; 7; 7; 8; 8; 8; 8]%Z []).
  - vm_compute. split; [discriminate | reflexivity].
  - apply (bool_decide_unpack _). vm_compute. exact I.
  - lia.
  - vm_compute. reflexivity.
  - reflexivity.
Defined.

(** For a frame whose byte count [4 * width * height] is below 2^32, a
    pixel buffer of that many bytes and [width * height] encoded bytes:
    [load] in format A8 sets the alpha byte of every pixel to its source
    byte and clears the first [width * height] bytes of the buffer that
    are not alpha bytes; the other colour bytes keep what [pixels]
    held. *)
Theorem load_a8_writes `{Squish} (fmt : ImageFormats.t) (width height : nat)
    (pixels data : bytebuf) :
  ImageFormats.ind fmt = 8%Z ->
  fits_uint (4 * width * height) ->
  bytes data ->
  length pixels = 4 * width * height ->
  length data = width * height ->
  exists out,
    load fmt pixels data width height = Ok out /\
    length out = 4 * width * height /\
    forall off c, off < width * height -> c < 4 ->
      out.[4 * off + c] =
        if decide (c = A) then data.[off]
        else if decide (4 * off + c < width * height) then 0%Z
        else pixels.[4 * off + c].
Proof.
  intros Hind Hfit Hbytes Hpixels Hdata.
  rewrite load_dispatch by (rewrite Hind; unfold FORMATS_size; lia).
  rewrite Hind. entry_whnf.
  flat_sizes width height.
  assert (fits_uint (width * height)) by (unfold fits_uint in *; lia).
  eexists. split; [reflexivity|]. split; [rewrite load_a8_length; lia|].
  intros off c Hoff Hc. rewrite load_a8_at by (done || lia).
  unfold A. case_decide; [|done]. by rewrite to_byte_small by (by apply get_is_byte).
Qed.

Lemma load_a8_writes_witness :
  exists out,
    @load squish_none (ImageFormats.mk 8 "A8") [9; 9; 9; 9; 9; 9; 9; 9]%Z [5; 6]%Z 2 1
      = Ok out /\
    length out = 4 * 2 * 1 /\
    forall off c, off < 2 * 1 -> c < 4 ->
      out.[4 * off + c] =
        if decide (c = A) then [5; 6]%Z.[off]
        else if decide (4 * off + c < 2 * 1) then 0%Z
        else [9; 9; 9; 9; 9; 9; 9; 9]%Z.[4 * off + c].
Proof.
  apply (@load_a8_writes squish_none (ImageFormats.mk 8 "A8") 2 1
           [9; 9; 9; 9; 9; 9; 9; 9]%Z [5; 6]%Z).
  - reflexivity.
  - vm_compute. reflexivity.
  - repeat constructor; unfold is_byte; lia.
  - reflexivity.
  - reflexivity.
Defined.

(** For a frame of bytes whose byte count [4 * width * height] is below
    2^32, with buffers of the frame's sizes: after [save] and [load] in
    BGRA5551 the alpha of a pixel is 255 when bit 1 of its green byte
    was set and 0 otherwise, whatever its alpha was. *)
Theorem bgra5551_alpha_is_green_bit `{Squish} (fmt : ImageFormats.t) (width height : nat)
    (pixels data0 dest : bytebuf) :
  ImageFormats.ind fmt = 21%Z ->
  fits_uint (4 * width * height) ->
  bytes pixels ->
  length pixels = 4 * width * height ->
  length data0 = 2 * width * height ->
  length dest = 4 * width * height ->
  exists saved out,
    save fmt pixels data0 width height = Ok saved /\
    load fmt dest saved width height = Ok out /\
    length out = 4 * width * height /\
    forall off, off < width * height ->
      out.[4 * off + A] = if Z.testbit pixels.[4 * off + G] 1 then 255%Z else 0%Z.
Proof.
  intros Hind Hfit Hbytes Hpixels Hdata Hdest.
  assert (0 <= ImageFormats.ind fmt < FORMATS_size)%Z as Hrange
    by (rewrite Hind; unfold FORMATS_size; lia).
  rewrite save_dispatch by done.
  setoid_rewrite load_dispatch; [|done].
  rewrite Hind. entry_whnf.
  flat_sizes width height.
  assert (fits_uint (width * height)) by (unfold fits_uint in *; lia).
  do 2 eexists. split; [reflexivity|]. split; [reflexivity|].
  split; [rewrite load_bgra5551_length; lia|].
  intros off Hoff. by apply bgra5551_alpha_round_trip.
Qed.

Lemma bgra5551_alpha_is_green_bit_witness :
  exists saved out,
    @save squish_none (ImageFormats.mk 21 "BGRA5551") [0; 2; 0; 0]%Z [0; 0]%Z 1 1
      = Ok saved /\
    @load squish_none (ImageFormats.mk 21 "BGRA5551") [0; 0; 0; 0]%Z saved 1 1 = Ok out /\
    length out = 4 * 1 * 1 /\
    forall off, off < 1 * 1 ->
      out.[4 * off + A] = if Z.testbit [0; 2; 0; 0]%Z.[4 * off + G] 1 then 255%Z else 0%Z.
Proof.
  apply (@bgra5551_alpha_is_green_bit squish_none (ImageFormats.mk 21 "BGRA5551") 1 1
           [0; 2; 0; 0]%Z [0; 0]%Z [0; 0; 0; 0]%Z).
  - reflexivity.
  - vm_compute. reflexivity.
  - repeat constructor; unfold is_byte; lia.
  - reflexivity.
  - reflexivity.
  - reflexivity.
Defined.

(** * A tag outside the registry *)

(** [load] and [save] never index the registry with a tag outside
    [0, 30): such a tag is reported as not implemented, with the name the
    caller's member carries, and one outside the C [int] as an
    overflow. *)
Theorem dispatch_rejects_foreign_tag `{Squish} (fmt : ImageFormats.t)
    (pixels data : bytebuf) (width height : nat) :
  ~ (0 <= ImageFormats.ind fmt < FORMATS_size)%Z ->
  (int_range (ImageFormats.ind fmt) ->
     load fmt pixels data width height =
       Raise (NotImplementedError ("Loading " ++ ImageFormats.name fmt ++ " not implemented!")) /\
     save fmt pixels data width height =
       Raise (NotImplementedError ("Saving " ++ ImageFormats.name fmt ++ " not implemented!"))) /\
  (~ int_range (ImageFormats.ind fmt) ->
     load fmt pixels data width height = Raise OverflowError /\
     save fmt pixels data width height = Raise OverflowError).
Proof.
  intros Hout. unfold int_range, FORMATS_size in *. split.
  - intros Hint. unfold load, save, as_int.
    rewrite (proj2 (andb_true_iff _ _)) by lia. cbn [mbind result_bind].
    assert ((0 <=? ImageFormats.ind fmt)%Z && (ImageFormats.ind fmt <? FORMATS_size)%Z = false)
      as -> by (unfold FORMATS_size; apply andb_false_iff; lia).
    done.
  - intros Hint. unfold load, save, as_int.
    assert ((-2147483648 <=? ImageFormats.ind fmt)%Z && (ImageFormats.ind fmt <=? 2147483647)%Z
            = false) as -> by (apply andb_false_iff; lia).
    done.
Qed.

Lemma dispatch_rejects_foreign_tag_witness :
  (int_range (ImageFormats.ind (ImageFormats.mk 30 "DXT7")) ->
     @load squish_none (ImageFormats.mk 30 "DXT7") [1; 2; 3; 4]%Z [5]%Z 1 1 =
       Raise (NotImplementedError ("Loading " ++ "DXT7" ++ " not implemented!")) /\
     @save squish_none (ImageFormats.mk 30 "DXT7") [1; 2; 3; 4]%Z [5]%Z 1 1 =
       Raise (NotImplementedError ("Saving " ++ "DXT7" ++ " not implemented!"))) /\
  (~ int_range (ImageFormats.ind (ImageFormats.mk 30 "DXT7")) ->
     @load squish_none (ImageFormats.mk 30 "DXT7") [1; 2; 3; 4]%Z [5]%Z 1 1 = Raise OverflowError /\
     @save squish_none (ImageFormats.mk 30 "DXT7") [1; 2; 3; 4]%Z [5]%Z 1 1 = Raise OverflowError).
Proof.
  apply (@dispatch_rejects_foreign_tag squish_none (ImageFormats.mk 30 "DXT7")
           [1; 2; 3; 4]%Z [5]%Z 1 1).
  vm_compute. intros [_ Hlt]. discriminate Hlt.
Defined.

(** * The start-up check, member after member *)

(** [init] on a list that continues is [init] on its start and then, if
    that passed, [init] on the rest: the first member that fails ends the
    check with its exception. *)
Theorem init_app `{Squish} (formats rest : list ImageFormats.t) :
  init (formats ++ rest) = (init formats;; init rest).
Proof.
  induction formats as [|fmt formats IH]; [reflexivity|].
  cbn [app init].
  destruct (as_int (ImageFormats.ind fmt)) as [index|e]; cbn [mbind result_bind]; [|done].
  destruct (assert _) as [[]|e]; cbn [mbind result_bind]; [|done].
  destruct (encode_ascii _) as [raw|e]; cbn [mbind result_bind]; [|done].
  destruct (assert _) as [[]|e]; cbn [mbind result_bind]; [|done].
  exact IH.
Qed.

(** * Stretching five and six bits to a byte *)

(** [upsample] of a five bit value in the high bits of a byte is
    [8 * v + v / 4], and of a six bit value [4 * v + v / 16]: 0 stays 0,
    the largest value becomes 255, and the order is kept. *)
Theorem upsample_fills_low_bits (v : Z) :
  ((0 <= v < 32)%Z -> upsample 5 (v << 3) = (8 * v + v / 4)%Z) /\
  ((0 <= v < 64)%Z -> upsample 6 (v << 2) = (4 * v + v / 16)%Z).
Proof.
  split; intros Hv.
  - apply Z.eqb_eq.
    assert (In v (seqZ 0 32)) as Hin by (apply list_elem_of_In, elem_of_seqZ; lia).
    clear Hv. revert v Hin. apply forallb_forall. vm_compute. reflexivity.
  - apply Z.eqb_eq.
    assert (In v (seqZ 0 64)) as Hin by (apply list_elem_of_In, elem_of_seqZ; lia).
    clear Hv. revert v Hin. apply forallb_forall. vm_compute. reflexivity.
Qed.

(** * Decoding a 565 pixel and encoding it again *)

Lemma compress565_to_byte r g b :
  compress565 (to_byte r) (to_byte g) (to_byte b) = compress565 r g b.
Proof. unfold compress565. by rewrite !to_byte_idem. Qed.

(** Checked on all pairs of bytes. *)
Lemma repack565 a b :
  is_byte a -> is_byte b ->
  compress565 (RGB.r (decomp565 a b)) (RGB.g (decomp565 a b)) (RGB.b (decomp565 a b)) =
    swap565 a b /\
  is_byte (fst (swap565 a b)) /\ is_byte (snd (swap565 a b)) /\
  swap565 (fst (swap565 a b)) (snd (swap565 a b)) = (a, b).
Proof.
  intros Ha Hb.
  pose proof (all_byte_pairs (fun a b =>
    let col := decomp565 a b in
    let packed := compress565 (RGB.r col) (RGB.g col) (RGB.b col) in
    let swapped := swap565 a b in
    (fst packed =? fst swapped)%Z && (snd packed =? snd swapped)%Z &&
    (0 <=? fst swapped)%Z && (fst swapped <? 256)%Z &&
    (0 <=? snd swapped)%Z && (snd swapped <? 256)%Z &&
    (fst (swap565 (fst swapped) (snd swapped)) =? a)%Z &&
    (snd (swap565 (fst swapped) (snd swapped)) =? b)%Z)
    ltac:(vm_compute; reflexivity) a b Ha Hb) as E.
  cbv beta zeta in E.
  repeat (apply andb_prop in E as [E ?]).
  unfold is_byte. repeat split; try lia.
  - rewrite (surjective_pairing (compress565 _ _ _)), (surjective_pairing (swap565 a b)).
    f_equal; by apply Z.eqb_eq.
  - rewrite (surjective_pairing (swap565 (fst _) _)). f_equal; by apply Z.eqb_eq.
Qed.

Section Reencode565.
Context (data data0 dest : bytebuf) (W H : nat).
Context (Hfit : fits_uint (W * H)) (Hbytes : bytes data).
Context (Hdata0 : length data0 = 2 * (W * H)) (Hdest : length dest = 4 * (W * H)).

Lemma reencode_rgb565_at off c :
  off < W * H -> c < 2 ->
  get (save_rgb565 (load_rgb565 dest data W H) data0 W H) (2 * off + c) =
    default 0%Z ([fst (swap565 data.[2 * off] data.[2 * off + 1]);
                  snd (swap565 data.[2 * off] data.[2 * off + 1])] !! c).
Proof.
  intros Hoff Hc. rewrite save_rgb565_at by (done || lia).
  unfold R, G, B. rewrite !load_rgb565_at by (done || lia).
  cbn [lookup list_lookup mjoin option_join default from_option id].
  rewrite compress565_to_byte.
  destruct (repack565 data.[2 * off] data.[2 * off + 1]) as (-> & H1 & H2 & _);
    [by apply get_is_byte .. |].
  do 2 (try destruct c as [|c]); [ .. | lia ];
    cbn [lookup list_lookup mjoin option_join default from_option id];
    by apply to_byte_small.
Qed.

Lemma reencode_bgr565_at off c :
  off < W * H -> c < 2 ->
  get (save_bgr565 (load_bgr565 dest data W H) data0 W H) (2 * off + c) =
    default 0%Z ([fst (swap565 data.[2 * off] data.[2 * off + 1]);
                  snd (swap565 data.[2 * off] data.[2 * off + 1])] !! c).
Proof.
  intros Hoff Hc. rewrite save_bgr565_at by (done || lia).
  unfold R, G, B. rewrite !load_bgr565_at by (done || lia).
  cbn [lookup list_lookup mjoin option_join default from_option id].
  rewrite compress565_to_byte.
  destruct (repack565 data.[2 * off] data.[2 * off + 1]) as (-> & H1 & H2 & _);
    [by apply get_is_byte .. |].
  do 2 (try destruct c as [|c]); [ .. | lia ];
    cbn [lookup list_lookup mjoin option_join default from_option id];
    by apply to_byte_small.
Qed.
End Reencode565.

(** For encoded bytes of a frame whose byte count [4 * width * height]
    is below 2^32, with buffers of the frame's sizes: [load] then
    [save] in RGB565 or BGR565 does not give back the encoded bytes:
    every pixel comes out with its two five bit fields exchanged, so
    that a second [load] and [save] restores it. *)
Theorem packed565_load_then_save `{Squish} (fmt : ImageFormats.t) (width height : nat)
    (data data0 dest : bytebuf) :
  (0 <= ImageFormats.ind fmt < FORMATS_size)%Z ->
  registry_name (ImageFormats.ind fmt) ∈ ["RGB565"; "BGR565"]%string ->
  fits_uint (4 * width * height) ->
  bytes data ->
  length data = 2 * width * height ->
  length data0 = 2 * width * height ->
  length dest = 4 * width * height ->
  exists loaded enc,
    load fmt dest data width height = Ok loaded /\
    save fmt loaded data0 width height = Ok enc /\
    length enc = 2 * width * height /\
    forall off, off < width * height ->
      (enc.[2 * off], enc.[2 * off + 1]) = swap565 data.[2 * off] data.[2 * off + 1] /\
      swap565 enc.[2 * off] enc.[2 * off + 1] = (data.[2 * off], data.[2 * off + 1]).
Proof.
  intros Hind Hname Hfit Hbytes Hdata Hdata0 Hdest.
  unfold registry_name in *.
  rewrite load_dispatch by done.
  setoid_rewrite save_dispatch; [|done].
  pose proof (packed565_tags _ Hind Hname) as Htag.
  destruct fmt as [ind fname].
  cbn [ImageFormats.ind ImageFormats.name] in *.
  flat_sizes width height.
  assert (fits_uint (width * height)) by (unfold fits_uint in *; lia).
  per_tag Htag; (do 2 eexists; split; [ reflexivity | split; [ reflexivity | split ] ]).
  - rewrite save_rgb565_length. lia.
  - intros off Hoff.
    pose proof (reencode_rgb565_at data data0 dest width height ltac:(done) Hbytes
                  Hdata0 Hdest off 0 Hoff ltac:(lia)) as E0.
    pose proof (reencode_rgb565_at data data0 dest width height ltac:(done) Hbytes
                  Hdata0 Hdest off 1 Hoff ltac:(lia)) as E1.
    rewrite Nat.add_0_r in E0.
    cbn [lookup list_lookup default from_option id] in E0, E1. rewrite E0, E1.
    destruct (repack565 data.[2 * off] data.[2 * off + 1]) as (_ & _ & _ & Hback);
      [by apply get_is_byte .. |].
    split; [symmetry; apply surjective_pairing | exact Hback].
  - rewrite save_bgr565_length. lia.
  - intros off Hoff.
    pose proof (reencode_bgr565_at data data0 dest width height ltac:(done) Hbytes
                  Hdata0 Hdest off 0 Hoff ltac:(lia)) as E0.
    pose proof (reencode_bgr565_at data data0 dest width height ltac:(done) Hbytes
                  Hdata0 Hdest off 1 Hoff ltac:(lia)) as E1.
    rewrite Nat.add_0_r in E0.
    cbn [lookup list_lookup default from_option id] in E0, E1. rewrite E0, E1.
    destruct (repack565 data.[2 * off] data.[2 * off + 1]) as (_ & _ & _ & Hback);
      [by apply get_is_byte .. |].
    split; [symmetry; apply surjective_pairing | exact Hback].
Qed.

Lemma packed565_load_then_save_witness :
  exists loaded enc,
    @load squish_none (ImageFormats.mk 4 "RGB565") [0; 0; 0; 0]%Z [31; 0]%Z 1 1 = Ok loaded /\
    @save squish_none (ImageFormats.mk 4 "RGB565") loaded [0; 0]%Z 1 1 = Ok enc /\
    length enc = 2 * 1 * 1 /\
    forall off, off < 1 * 1 ->
      (enc.[2 * off], enc.[2 * off + 1]) = swap565 [31; 0]%Z.[2 * off] [31; 0]%Z.[2 * off + 1] /\
      swap565 enc.[2 * off] enc.[2 * off + 1] = ([31; 0]%Z.[2 * off], [31; 0]%Z.[2 * off + 1]).
Proof.
  apply (@packed565_load_then_save squish_none (ImageFormats.mk 4 "RGB565") 1 1
           [31; 0]%Z [0; 0]%Z [0; 0; 0; 0]%Z).
  - vm_compute. split; [discriminate | reflexivity].
  - apply (bool_decide_unpack _). vm_compute. exact I.
  - vm_compute. reflexivity.
  - repeat constructor; unfold is_byte; lia.
  - reflexivity.
  - reflexivity.
  - reflexivity.
Defined.

(** * What the destination held does not matter *)

Section FiveFiveFiveOne.
Context (pixels data : bytebuf) (W H : nat).

Lemma load_bgra5551_at off c :
  fits_uint (W * H) -> off < W * H -> c < 4 -> 4 * (W * H) <= length pixels ->
  get (load_bgra5551 pixels data W H) (4 * off + c) =
    default pixels.[4 * off + c]
      (mjoin ([Some (to_byte (upsample 5 ((to_byte data.[2 * off + 1] & 124) << 1)));
               Some (to_byte (upsample 5 (((to_byte data.[2 * off] & 224) >> 2) .|
                                          ((to_byte data.[2 * off + 1] & 3) << 6))));
               Some (to_byte (upsample 5 ((to_byte data.[2 * off] & 31) << 3)));
               Some (to_byte (if (to_byte data.[2 * off + 1] & 128 =? 0)%Z
                              then 0%Z else 255%Z))] !! c)).
Proof. codec_at load_bgra5551 off. Qed.

Lemma save_bgrx5551_at off c :
  fits_uint (W * H) -> off < W * H -> c < 2 -> 2 * (W * H) <= length data ->
  get (save_bgrx5551 pixels data W H) (2 * off + c) =
    default data.[2 * off + c]
      (mjoin ([Some (to_byte ((to_byte pixels.[4 * off + B] & 248) .|
                              (to_byte pixels.[4 * off + G] >> 5)));
               Some (to_byte (((to_byte pixels.[4 * off + G] << 6) & 192) .|
                              ((to_byte pixels.[4 * off + R] >> 2) & 62)))] !! c)).
Proof. codec_at save_bgrx5551 off. Qed.
End FiveFiveFiveOne.

Section Overwrite.
Context (pixels data dest1 dest2 : bytebuf) (W H : nat).
Context (Hfit : fits_uint (4 * (W * H))).

Local Lemma fits_frame : fits_uint (W * H).
Proof. unfold fits_uint in *. lia. Qed.

(** Two runs of one codec into destinations of the frame's size agree
    on every cell. *)
Ltac same_result k len_lemma at_lemma :=
  let off := fresh "off" in
  let c := fresh "c" in
  intros; pose proof fits_frame;
  apply (bytebuf_ext_px k (W * H)); [ lia | rewrite len_lemma; lia | rewrite len_lemma; lia | ];
  intros off c ? ?; rewrite !at_lemma by (done || lia);
  try match goal with
      | |- context [ if ?b then _ else _ ] =>
          match type of b with bool => destruct b end
      end;
  cells c; reflexivity.

Lemma load_copy_same :
  length dest1 = 4 * (W * H) -> length dest2 = 4 * (W * H) -> length data = 4 * (W * H) ->
  load_copy dest1 data W H = load_copy dest2 data W H.
Proof.
  intros H1 H2 Hd. unfold load_copy.
  replace (4 * W * H) with (4 * (W * H)) by lia. rewrite uint_small by done.
  by rewrite !memcpy_all.
Qed.

Lemma save_copy_same :
  length dest1 = 4 * (W * H) -> length dest2 = 4 * (W * H) -> length pixels = 4 * (W * H) ->
  save_copy pixels dest1 W H = save_copy pixels dest2 W H.
Proof.
  intros H1 H2 Hd. unfold save_copy.
  replace (4 * W * H) with (4 * (W * H)) by lia. rewrite uint_small by done.
  by rewrite !memcpy_all.
Qed.

Lemma loaders_same :
  length dest1 = 4 * (W * H) -> length dest2 = 4 * (W * H) ->
  load_abgr8888 dest1 data W H = load_abgr8888 dest2 data W H /\
  load_rgb888 dest1 data W H = load_rgb888 dest2 data W H /\
  load_bgr888 dest1 data W H = load_bgr888 dest2 data W H /\
  load_rgb565 dest1 data W H = load_rgb565 dest2 data W H /\
  load_i8 dest1 data W H = load_i8 dest2 data W H /\
  load_ia88 dest1 data W H = load_ia88 dest2 data W H /\
  load_rgb888_bluescreen dest1 data W H = load_rgb888_bluescreen dest2 data W H /\
  load_bgr888_bluescreen dest1 data W H = load_bgr888_bluescreen dest2 data W H /\
  load_argb8888 dest1 data W H = load_argb8888 dest2 data W H /\
  load_bgra8888 dest1 data W H = load_bgra8888 dest2 data W H /\
  load_bgrx8888 dest1 data W H = load_bgrx8888 dest2 data W H /\
  load_bgr565 dest1 data W H = load_bgr565 dest2 data W H /\
  load_bgrx5551 dest1 data W H = load_bgrx5551 dest2 data W H /\
  load_bgra4444 dest1 data W H = load_bgra4444 dest2 data W H /\
  load_bgra5551 dest1 data W H = load_bgra5551 dest2 data W H /\
  load_uv88 dest1 data W H = load_uv88 dest2 data W H.
Proof.
  intros H1 H2. repeat split.
  - same_result 4 load_abgr8888_length load_abgr8888_at.
  - same_result 4 load_rgb888_length load_rgb888_at.
  - same_result 4 load_bgr888_length load_bgr888_at.
  - same_result 4 load_rgb565_length load_rgb565_at.
  - same_result 4 load_i8_length load_i8_at.
  - same_result 4 load_ia88_length load_ia88_at.
  - same_result 4 load_rgb888_bluescreen_length load_rgb888_bluescreen_at.
  - same_result 4 load_bgr888_bluescreen_length load_bgr888_bluescreen_at.
  - same_result 4 load_argb8888_length load_argb8888_at.
  - same_result 4 load_bgra8888_length load_bgra8888_at.
  - same_result 4 load_bgrx8888_length load_bgrx8888_at.
  - same_result 4 load_bgr565_length load_bgr565_at.
  - same_result 4 load_bgrx5551_length load_bgrx5551_at.
  - same_result 4 load_bgra4444_length load_bgra4444_at.
  - same_result 4 load_bgra5551_length load_bgra5551_at.
  - same_result 4 load_uv88_length load_uv88_at.
Qed.

Lemma savers_same k :
  length dest1 = k * (W * H) -> length dest2 = k * (W * H) ->
  (k = 4 -> save_abgr8888 pixels dest1 W H = save_abgr8888 pixels dest2 W H /\
            save_argb8888 pixels dest1 W H = save_argb8888 pixels dest2 W H /\
            save_bgra8888 pixels dest1 W H = save_bgra8888 pixels dest2 W H /\
            save_bgrx8888 pixels dest1 W H = save_bgrx8888 pixels dest2 W H) /\
  (k = 3 -> save_rgb888 pixels dest1 W H = save_rgb888 pixels dest2 W H /\
            save_bgr888 pixels dest1 W H = save_bgr888 pixels dest2 W H /\
            save_rgb888_bluescreen pixels dest1 W H = save_rgb888_bluescreen pixels dest2 W H /\
            save_bgr888_bluescreen pixels dest1 W H = save_bgr888_bluescreen pixels dest2 W H) /\
  (k = 2 -> save_rgb565 pixels dest1 W H = save_rgb565 pixels dest2 W H /\
            save_bgr565 pixels dest1 W H = save_bgr565 pixels dest2 W H /\
            save_ia88 pixels dest1 W H = save_ia88 pixels dest2 W H /\
            save_bgrx5551 pixels dest1 W H = save_bgrx5551 pixels dest2 W H /\
            save_bgra4444 pixels dest1 W H = save_bgra4444 pixels dest2 W H /\
            save_bgra5551 pixels dest1 W H = save_bgra5551 pixels dest2 W H /\
            save_uv88 pixels dest1 W H = save_uv88 pixels dest2 W H) /\
  (k = 1 -> save_i8 pixels dest1 W H = save_i8 pixels dest2 W H /\
            save_a8 pixels dest1 W H = save_a8 pixels dest2 W H).
Proof.
  intros H1 H2. split; [|split; [|split]]; intros ->; repeat split.
  - same_result 4 save_abgr8888_length save_abgr8888_at.
  - same_result 4 save_argb8888_length save_argb8888_at.
  - same_result 4 save_bgra8888_length save_bgra8888_at.
  - same_result 4 save_bgrx8888_length save_bgrx8888_at.
  - same_result 3 save_rgb888_length save_rgb888_at.
  - same_result 3 save_bgr888_length save_bgr888_at.
  - same_result 3 save_rgb888_bluescreen_length save_rgb888_bluescreen_at.
  - same_result 3 save_bgr888_bluescreen_length save_bgr888_bluescreen_at.
  - same_result 2 save_rgb565_length save_rgb565_at.
  - same_result 2 save_bgr565_length save_bgr565_at.
  - same_result 2 save_ia88_length save_ia88_at.
  - same_result 2 save_bgrx5551_length save_bgrx5551_at.
  - same_result 2 save_bgra4444_length save_bgra4444_at.
  - same_result 2 save_bgra5551_length save_bgra5551_at.
  - same_result 2 save_uv88_length save_uv88_at.
  - same_result 1 save_i8_length save_i8_at.
  - same_result 1 save_a8_length save_a8_at.
Qed.
End Overwrite.

(** In every format stored pixel by pixel, [save] gives the same bytes
    whatever [data] held before, and so does [load] whatever [pixels]
    held, except in A8, whose loader leaves colour bytes as they were. *)
Theorem destination_contents_do_not_matter `{Squish} (fmt : ImageFormats.t)
    (width height : nat) (pixels data dest1 dest2 enc1 enc2 : bytebuf) :
  (0 <= ImageFormats.ind fmt < FORMATS_size)%Z ->
  registry_name (ImageFormats.ind fmt) ∈ pixel_formats ->
  fits_uint (4 * width * height) ->
  length pixels = 4 * width * height ->
  length dest1 = 4 * width * height ->
  length dest2 = 4 * width * height ->
  length data = pixel_bytes (registry_name (ImageFormats.ind fmt)) * width * height ->
  length enc1 = pixel_bytes (registry_name (ImageFormats.ind fmt)) * width * height ->
  length enc2 = pixel_bytes (registry_name (ImageFormats.ind fmt)) * width * height ->
  (registry_name (ImageFormats.ind fmt) <> "A8"%string ->
     load fmt dest1 data width height = load fmt dest2 data width height) /\
  save fmt pixels enc1 width height = save fmt pixels enc2 width height.
Proof.
  intros Hind Hname Hfit Hpixels Hdest1 Hdest2 Hdata Henc1 Henc2.
  unfold registry_name in *.
  rewrite !save_dispatch, !load_dispatch by done.
  pose proof (pixel_tags _ Hind Hname) as Htag.
  destruct fmt as [ind fname].
  cbn [ImageFormats.ind ImageFormats.name] in *.
  flat_sizes width height.
  destruct (loaders_same data dest1 dest2 width height Hfit Hdest1 Hdest2)
    as (? & ? & ? & ? & ? & ? & ? & ? & ? & ? & ? & ? & ? & ? & ? & ?).
  per_tag Htag;
    destruct (savers_same pixels enc1 enc2 width height Hfit _ Henc1 Henc2)
      as (S4 & S3 & S2 & S1);
    (split;
     [ intros Hne; first [ by (exfalso; apply Hne)
                         | f_equal; first [ assumption | by apply load_copy_same ] ]
     | f_equal;
       first [ by apply save_copy_same
             | destruct (S4 eq_refl) as (? & ? & ? & ?); assumption
             | destruct (S3 eq_refl) as (? & ? & ? & ?); assumption
             | destruct (S2 eq_refl) as (? & ? & ? & ? & ? & ? & ?); assumption
             | destruct (S1 eq_refl) as (? & ?); assumption ] ]).
Qed.

Lemma destination_contents_do_not_matter_witness :
  (@registry_name squish_none (ImageFormats.ind (ImageFormats.mk 6 "IA88")) <> "A8"%string ->
     @load squish_none (ImageFormats.mk 6 "IA88") [1; 2; 3; 4]%Z [50; 60]%Z 1 1 =
     @load squish_none (ImageFormats.mk 6 "IA88") [9; 9; 9; 9]%Z [50; 60]%Z 1 1) /\
  @save squish_none (ImageFormats.mk 6 "IA88") [10; 20; 30; 40]%Z [0; 0]%Z 1 1 =
  @save squish_none (ImageFormats.mk 6 "IA88") [10; 20; 30; 40]%Z [7; 7]%Z 1 1.
Proof.
  apply (@destination_contents_do_not_matter squish_none (ImageFormats.mk 6 "IA88") 1 1
           [10; 20; 30; 40]%Z [50; 60]%Z [1; 2; 3; 4]%Z [9; 9; 9; 9]%Z [0; 0]%Z [7; 7]%Z).
  - vm_compute. split; [discriminate | reflexivity].
  - apply (bool_decide_unpack _). vm_compute. exact I.
  - vm_compute. reflexivity.
  - reflexivity.
  - reflexivity.
  - reflexivity.
  - reflexivity.
  - reflexivity.
  - reflexivity.
Defined.

(** * Savers that do not read the alpha channel *)

Section IgnoresAlpha.
Context (pixels1 pixels2 data : bytebuf) (W H : nat).
Context (Hfit : fits_uint (W * H)).
Context (Hsame : forall off c, off < W * H -> c < 3 ->
                   pixels1.[4 * off + c] = pixels2.[4 * off + c]).

Ltac same_colours k len_lemma at_lemma :=
  let off := fresh "off" in
  let c := fresh "c" in
  let Hoff := fresh "Hoff" in
  intros;
  apply (bytebuf_ext_px k (W * H)); [ lia | rewrite len_lemma; lia | rewrite len_lemma; lia | ];
  intros off c Hoff ?; rewrite !at_lemma by (done || lia);
  unfold R, G, B;
  rewrite ?(Hsame off 0 Hoff ltac:(lia)), ?(Hsame off 1 Hoff ltac:(lia)),
          ?(Hsame off 2 Hoff ltac:(lia));
  reflexivity.

Lemma savers_ignore_alpha k :
  length data = k * (W * H) ->
  (k = 4 -> save_bgrx8888 pixels1 data W H = save_bgrx8888 pixels2 data W H) /\
  (k = 3 -> save_rgb888 pixels1 data W H = save_rgb888 pixels2 data W H /\
            save_bgr888 pixels1 data W H = save_bgr888 pixels2 data W H) /\
  (k = 2 -> save_rgb565 pixels1 data W H = save_rgb565 pixels2 data W H /\
            save_bgr565 pixels1 data W H = save_bgr565 pixels2 data W H /\
            save_bgrx5551 pixels1 data W H = save_bgrx5551 pixels2 data W H /\
            save_uv88 pixels1 data W H = save_uv88 pixels2 data W H) /\
  (k = 1 -> save_i8 pixels1 data W H = save_i8 pixels2 data W H).
Proof.
  intros Hd. split; [|split; [|split]]; intros ->; repeat split.
  - same_colours 4 save_bgrx8888_length save_bgrx8888_at.
  - same_colours 3 save_rgb888_length save_rgb888_at.
  - same_colours 3 save_bgr888_length save_bgr888_at.
  - same_colours 2 save_rgb565_length save_rgb565_at.
  - same_colours 2 save_bgr565_length save_bgr565_at.
  - same_colours 2 save_bgrx5551_length save_bgrx5551_at.
  - same_colours 2 save_uv88_length save_uv88_at.
  - same_colours 1 save_i8_length save_i8_at.
Qed.
End IgnoresAlpha.

(** In the formats without an alpha channel of their own, [save] does
    not look at the alpha bytes: two frames with the same colours are
    saved as the same bytes. *)
Theorem save_ignores_alpha `{Squish} (fmt : ImageFormats.t) (width height : nat)
    (pixels1 pixels2 data : bytebuf) :
  (0 <= ImageFormats.ind fmt < FORMATS_size)%Z ->
  registry_name (ImageFormats.ind fmt) ∈ opaque_formats ->
  fits_uint (4 * width * height) ->
  length pixels1 = 4 * width * height ->
  length pixels2 = 4 * width * height ->
  length data = pixel_bytes (registry_name (ImageFormats.ind fmt)) * width * height ->
  (forall off c, off < width * height -> c < 3 ->
     pixels1.[4 * off + c] = pixels2.[4 * off + c]) ->
  save fmt pixels1 data width height = save fmt pixels2 data width height.
Proof.
  intros Hind Hname Hfit Hpixels1 Hpixels2 Hdata Hsame.
  unfold registry_name in *.
  rewrite !save_dispatch by done.
  pose proof (opaque_tags _ Hind Hname) as Htag.
  destruct fmt as [ind fname].
  cbn [ImageFormats.ind ImageFormats.name] in *.
  flat_sizes width height.
  assert (fits_uint (width * height)) as Hcount by (unfold fits_uint in *; lia).
  per_tag Htag;
    destruct (savers_ignore_alpha pixels1 pixels2 data width height Hcount Hsame _ Hdata)
      as (S4 & S3 & S2 & S1);
    f_equal;
    first [ exact (S4 eq_refl)
          | destruct (S3 eq_refl) as (? & ?); assumption
          | destruct (S2 eq_refl) as (? & ? & ? & ?); assumption
          | exact (S1 eq_refl) ].
Qed.

Lemma save_ignores_alpha_witness :
  @save squish_none (ImageFormats.mk 4 "RGB565") [10; 20; 30; 0]%Z [0; 0]%Z 1 1 =
  @save squish_none (ImageFormats.mk 4 "RGB565") [10; 20; 30; 255]%Z [0; 0]%Z 1 1.
Proof.
  apply (@save_ignores_alpha squish_none (ImageFormats.mk 4 "RGB565") 1 1
           [10; 20; 30; 0]%Z [10; 20; 30; 255]%Z [0; 0]%Z).
  - vm_compute. split; [discriminate | reflexivity].
  - apply (bool_decide_unpack _). vm_compute. exact I.
  - vm_compute. reflexivity.
  - reflexivity.
  - reflexivity.
  - reflexivity.
  - intros off c Hoff Hc. assert (off = 0) as -> by lia.
    do 3 (try destruct c as [|c]); [ reflexivity .. | lia ].
Defined.

(** * Saving what was loaded from a saved frame *)

Lemma prange_bytes n body p :
  (forall off q, bytes q -> bytes (body off q)) -> bytes p -> bytes (prange n body p).
Proof. intros Hb Hp. induction n as [|n IH]; simpl; [done|]. by apply Hb. Qed.

Lemma memcpy_bytes dst src n : bytes dst -> bytes src -> bytes (memcpy dst src n).
Proof.
  intros Hd Hs. unfold memcpy. apply Forall_app. split.
  - by apply Forall_take.
  - by apply Forall_drop.
Qed.

Ltac saver_bytes f :=
  unfold f; apply prange_bytes; [ | assumption ];
  intros; cbv zeta;
  try match goal with
      | |- context [ if ?b then store _ _ _ else _ ] => destruct b
      end;
  repeat apply bytes_store; assumption.

Lemma savers_keep_bytes (pixels data : bytebuf) (W H : nat) :
  bytes data ->
  bytes (save_abgr8888 pixels data W H) /\ bytes (save_rgb888 pixels data W H) /\
  bytes (save_bgr888 pixels data W H) /\ bytes (save_i8 pixels data W H) /\
  bytes (save_ia88 pixels data W H) /\ bytes (save_a8 pixels data W H) /\
  bytes (save_rgb888_bluescreen pixels data W H) /\
  bytes (save_bgr888_bluescreen pixels data W H) /\
  bytes (save_argb8888 pixels data W H) /\ bytes (save_bgra8888 pixels data W H) /\
  bytes (save_bgra4444 pixels data W H) /\ bytes (save_uv88 pixels data W H).
Proof.
  intros Hd. repeat split.
  - saver_bytes save_abgr8888.
  - saver_bytes save_rgb888.
  - saver_bytes save_bgr888.
  - saver_bytes save_i8.
  - saver_bytes save_ia88.
  - saver_bytes save_a8.
  - saver_bytes save_rgb888_bluescreen.
  - saver_bytes save_bgr888_bluescreen.
  - saver_bytes save_argb8888.
  - saver_bytes save_bgra8888.
  - saver_bytes save_bgra4444.
  - saver_bytes save_uv88.
Qed.

Lemma save_copy_all (pixels data : bytebuf) (W H : nat) :
  fits_uint (4 * (W * H)) -> length pixels = 4 * (W * H) -> length data = 4 * (W * H) ->
  save_copy pixels data W H = pixels.
Proof.
  intros Hfit Hp Hd. unfold save_copy.
  replace (4 * W * H) with (4 * (W * H)) by lia. rewrite uint_small by done.
  by apply memcpy_all.
Qed.

(** For a frame of bytes whose byte count [4 * width * height] is below
    2^32, with buffers of the frame's sizes: in the fifteen formats
    that re-encode exactly, what [save] wrote is stable: [load] of it
    and [save] of the loaded frame give the same encoded bytes
    again. *)
Theorem save_load_save `{Squish} (fmt : ImageFormats.t) (width height : nat)
    (pixels data0 data1 dest : bytebuf) :
  (0 <= ImageFormats.ind fmt < FORMATS_size)%Z ->
  registry_name (ImageFormats.ind fmt) ∈ reencodable_formats ->
  fits_uint (4 * width * height) ->
  bytes pixels -> bytes data0 ->
  length pixels = 4 * width * height ->
  length data0 = pixel_bytes (registry_name (ImageFormats.ind fmt)) * width * height ->
  length data1 = pixel_bytes (registry_name (ImageFormats.ind fmt)) * width * height ->
  length dest = 4 * width * height ->
  exists saved loaded,
    save fmt pixels data0 width height = Ok saved /\
    load fmt dest saved width height = Ok loaded /\
    save fmt loaded data1 width height = Ok saved.
Proof.
  intros Hind Hname Hfit Hbytes Hbytes0 Hpixels Hdata0 Hdata1 Hdest.
  unfold registry_name in *.
  setoid_rewrite (fun p d w h => save_dispatch fmt p d w h Hind).
  setoid_rewrite (fun p d w h => load_dispatch fmt p d w h Hind).
  pose proof (reencodable_tags _ Hind Hname) as Htag.
  destruct fmt as [ind fname].
  cbn [ImageFormats.ind ImageFormats.name] in *.
  flat_sizes width height.
  destruct (savers_keep_bytes pixels data0 width height Hbytes0)
    as (? & ? & ? & ? & ? & ? & ? & ? & ? & ? & ? & ?).
  per_tag Htag;
    (do 2 eexists; split; [ reflexivity | split; [ reflexivity | f_equal ] ]).
  - rewrite (save_copy_all pixels data0) by done. by apply reencode_copy.
  - apply reencode_abgr8888; rewrite ?save_abgr8888_length; done.
  - apply reencode_rgb888; rewrite ?save_rgb888_length; done.
  - apply reencode_bgr888; rewrite ?save_bgr888_length; done.
  - apply reencode_i8; rewrite ?save_i8_length; (done || lia).
  - apply reencode_ia88; rewrite ?save_ia88_length; done.
  - apply reencode_a8; rewrite ?save_a8_length; (done || lia).
  - apply reencode_rgb888_bluescreen; rewrite ?save_rgb888_bluescreen_length; done.
  - apply reencode_bgr888_bluescreen; rewrite ?save_bgr888_bluescreen_length; done.
  - apply reencode_argb8888; rewrite ?save_argb8888_length; done.
  - apply reencode_bgra8888; rewrite ?save_bgra8888_length; done.
  - apply reencode_bgra4444; rewrite ?save_bgra4444_length; done.
  - apply reencode_uv88; rewrite ?save_uv88_length; done.
  - rewrite (save_copy_all pixels data0) by done. by apply reencode_copy.
  - rewrite (save_copy_all pixels data0) by done. by apply reencode_copy.
Qed.

Lemma save_load_save_witness :
  exists saved loaded,
    @save squish_none (ImageFormats.mk 9 "RGB888_BLUESCREEN") [0; 0; 255; 255]%Z
      [0; 0; 0]%Z 1 1 = Ok saved /\
    @load squish_none (ImageFormats.mk 9 "RGB888_BLUESCREEN") [0; 0; 0; 0]%Z saved 1 1
      = Ok loaded /\
    @save squish_none (ImageFormats.mk 9 "RGB888_BLUESCREEN") loaded [7; 7; 7]%Z 1 1 = Ok saved.
Proof.
  apply (@save_load_save squish_none (ImageFormats.mk 9 "RGB888_BLUESCREEN") 1 1
           [0; 0; 255; 255]%Z [0; 0; 0]%Z [7; 7; 7]%Z [0; 0; 0; 0]%Z).
  - vm_compute. split; [discriminate | reflexivity].
  - apply (bool_decide_unpack _). vm_compute. exact I.
  - vm_compute. reflexivity.
  - repeat constructor; unfold is_byte; lia.
  - repeat constructor; unfold is_byte; lia.
  - reflexivity.
  - reflexivity.
  - reflexivity.
  - reflexivity.
Defined.

